(** * Research-paper project planner: a shallow embedding and its properties

    The development follows the Python modules of the repository:
    - [project_planner.py]  (class [ProjectPlanner])          -> [Module Planner]
    - [visualization_generator.py] (class [VisualizationGenerator])
                                   -> [Module Visualization], [Module Diagrams]
    - [ai_analyzer.py] (class [AIAnalyzer])                   -> [Module Analyzer]
    - [pdf_processor.py] (class [PDFProcessor])               -> [Module PdfProcessor]
    - [app.py] ([ResearchAnalyzerApp.analyze_paper])          -> [Module App]
    [Module PlannerObj] models the planner once more, with the lists that
    outlive a call as objects in a store, and is shown to do what
    [Module Planner] does on values.

    Python values are modelled as follows.
    - [int] is [Z]; [float] is IEEE-754 binary64, through the executable
      specification [SpecFloat] of the standard library (round to nearest,
      ties to even), so that [/], [*] and [round] compute what CPython
      computes.
    - [str] is [string]; case mapping is the ASCII one (bytes outside
      [a-z]/[A-Z] are left alone), and white space is the ASCII white
      space.
    - a [dict] read with [.get(key, default)] is a record of [option]
      fields; a [dict] that is built and iterated is an association list in
      insertion order.
    - a raised exception is the [Raise] branch of [result]. *)

From Stdlib Require Import ZArith QArith Qround Qabs List Sorted Permutation.
From Stdlib Require Import Bool Lia Lqa.
From Stdlib Require Import Ascii String DecimalString.
From Stdlib Require Import SpecFloat.
Import ListNotations.

Open Scope string_scope.
Open Scope Z_scope.

(* ================================================================== *)
(** ** Exceptions *)

Inductive exn : Type :=
| KeyError (key : string)
| ZeroDivisionError
| OverflowError
| ValueError
| JSONDecodeError
| Exception (msg : string).

Inductive result (A : Type) : Type :=
| Ok (a : A)
| Raise (e : exn).

Arguments Ok {A} a.
Arguments Raise {A} e.

Definition bind {A B : Type} (r : result A) (k : A -> result B) : result B :=
  match r with
  | Ok a => k a
  | Raise e => Raise e
  end.

Notation "x <- c1 ;; c2" := (bind c1 (fun x => c2))
  (at level 61, c1 at next level, right associativity).

(** [d.get(key, default)] on an optional field. *)
Definition get {A : Type} (field : option A) (default : A) : A :=
  match field with
  | Some v => v
  | None => default
  end.

(* ================================================================== *)
(** ** Python strings *)

Module PyStr.

Definition is_lower (c : ascii) : bool :=
  let n := nat_of_ascii c in (97 <=? n)%nat && (n <=? 122)%nat.

Definition is_upper (c : ascii) : bool :=
  let n := nat_of_ascii c in (65 <=? n)%nat && (n <=? 90)%nat.

Definition upper_char (c : ascii) : ascii :=
  if is_lower c then ascii_of_nat (nat_of_ascii c - 32) else c.

Definition lower_char (c : ascii) : ascii :=
  if is_upper c then ascii_of_nat (nat_of_ascii c + 32) else c.

Fixpoint map (f : ascii -> ascii) (s : string) : string :=
  match s with
  | EmptyString => EmptyString
  | String c s' => String (f c) (map f s')
  end.

(** [s.upper()] and [s.lower()]. *)
Definition upper (s : string) : string := map upper_char s.
Definition lower (s : string) : string := map lower_char s.

(** [needle in hay]. *)
Fixpoint contains (needle hay : string) : bool :=
  prefix needle hay ||
  match hay with
  | EmptyString => false
  | String _ hay' => contains needle hay'
  end.

(** [s.replace(old, new)] for one-character [old] and [new]. *)
Definition replace (old new : ascii) (s : string) : string :=
  map (fun c => if Ascii.eqb c old then new else c) s.

(** [sep.join(l)]. *)
Definition join (sep : string) (l : list string) : string := concat sep l.

(** [len(s)]. *)
Definition len (s : string) : Z := Z.of_nat (String.length s).

(** [s[:n]] for a bound [0 <= n]. *)
Definition take (n : Z) (s : string) : string := substring 0 (Z.to_nat n) s.

(** [str(n)] for an integer. *)
Definition of_int (n : Z) : string := NilZero.string_of_int (Z.to_int n).

(** The characters of a string, in order. *)
Definition chars (s : string) : list ascii := list_ascii_of_string s.

End PyStr.

(* ================================================================== *)
(** ** Python floats (binary64) *)

Module Float64.

Definition prec : Z := 53.
Definition emax : Z := 1024.

Definition float : Type := spec_float.

(** A float literal [n / 10^k] is the double nearest to that decimal;
    the four multipliers of the planner, as bit patterns. *)
Definition lit_0_8 : float := S754_finite false 7205759403792794 (-53).
Definition lit_1_0 : float := S754_finite false 4503599627370496 (-52).
Definition lit_1_3 : float := S754_finite false 5854679515581645 (-52).
Definition lit_1_6 : float := S754_finite false 7205759403792794 (-52).

Definition finite_or_overflow (f : float) : result float :=
  match f with
  | S754_infinity _ => Raise OverflowError
  | _ => Ok f
  end.

(** [float(n)]: nearest double, [OverflowError] beyond the range. *)
Definition of_int (n : Z) : result float :=
  finite_or_overflow (binary_normalize prec emax n 0 false).

(** [a / b] on two integers: the correctly rounded quotient. *)
Definition truediv (a b : Z) : result float :=
  match b with
  | Z0 => Raise ZeroDivisionError
  | _ =>
    match a with
    | Z0 => Ok (S754_zero (b <? 0))
    | _ =>
      let '(mz, ez, lz) :=
        SFdiv_core_binary prec emax (Z.abs a) 0 (Z.abs b) 0 in
      finite_or_overflow
        (binary_round_aux prec emax (xorb (a <? 0) (b <? 0)) mz ez lz)
    end
  end.

(** [x * y] on two floats. *)
Definition mul (x y : float) : float := SFmul prec emax x y.

(** [n * y] with an integer on the left: the integer is converted first. *)
Definition int_mul (n : Z) (y : float) : result float :=
  x <- of_int n ;; Ok (mul x y).

(** Nearest integer to [m / d], ties to the even one ([0 < d]). *)
Definition nearest_even (m d : Z) : Z :=
  let q := m / d in
  let r := m mod d in
  match Z.compare (2 * r) d with
  | Lt => q
  | Gt => q + 1
  | Eq => if Z.even q then q else q + 1
  end.

(** [round(x)] with one argument: exact on the double, ties to even. *)
Definition round (x : float) : result Z :=
  match x with
  | S754_zero _ => Ok 0
  | S754_infinity _ => Raise OverflowError
  | S754_nan => Raise ValueError
  | S754_finite s m e =>
    let n :=
      match e with
      | Zneg k => nearest_even (Z.pos m) (Z.pow_pos 2 k)
      | _ => Z.pos m * 2 ^ e
      end in
    Ok (if s then - n else n)
  end.

End Float64.

(* ================================================================== *)
(** ** Python dictionaries that are built and iterated *)

Definition dict (V : Type) : Type := list (string * V).

Fixpoint dict_get {V : Type} (d : dict V) (key : string) : option V :=
  match d with
  | [] => None
  | (k, v) :: d' => if String.eqb k key then Some v else dict_get d' key
  end.

(** [d[key]]: [KeyError] when the key is absent. *)
Definition dict_item {V : Type} (d : dict V) (key : string) : result V :=
  match dict_get d key with
  | Some v => Ok v
  | None => Raise (KeyError key)
  end.

(** [d[key] = v]: an existing key keeps its place, a new one goes last. *)
Fixpoint dict_set {V : Type} (d : dict V) (key : string) (v : V) : dict V :=
  match d with
  | [] => [(key, v)]
  | (k, w) :: d' =>
    if String.eqb k key then (k, v) :: d' else (k, w) :: dict_set d' key v
  end.

(** [key in d]. *)
Definition dict_mem {V : Type} (d : dict V) (key : string) : bool :=
  match dict_get d key with
  | Some _ => true
  | None => false
  end.

(* ================================================================== *)
(** ** The analysis record (the dictionary the analyzer returns) *)

Module TechReq.
Record t : Type := mk {
  programming_languages : option (list string);
  frameworks : option (list string);
  hardware : option (list string);
  datasets : option (list string)
}.
(** The empty dictionary [{}]. *)
Definition empty : t := mk None None None None.
End TechReq.

Module Analysis.
Record t : Type := mk {
  title : option string;
  authors : option string;
  abstract : option string;
  domain : option string;
  research_type : option string;
  year : option string;
  complexity : option string;
  key_concepts : option (list string);
  methodologies : option (list string);
  technical_requirements : option TechReq.t;
  applications : option (list string);
  challenges : option (list string);
  future_work : option (list string)
}.
End Analysis.

Module Settings.
Record t : Type := mk {
  duration : option Z;
  team_size : option Z;
  complexity : option string
}.
End Settings.

(* ================================================================== *)
(** ** The plan (the dictionary [generate_plan] returns) *)

Module PhaseTemplate.
Record t : Type := mk {
  name : string;
  base_duration : Z;
  objectives : string;
  core_tasks : list string
}.
End PhaseTemplate.

Module Phase.
Record t : Type := mk {
  name : string;
  duration : string;
  start_month : Z;
  end_month : Z;
  objectives : string;
  tasks : list string;
  deliverables : list string;
  success_criteria : list string
}.
End Phase.

Module Risk.
Record t : Type := mk { risk : string; mitigation : string }.
End Risk.

Module Milestone.
Record t : Type := mk { name : string; month : Z; description : string }.
End Milestone.

Module Timeline.
Record t : Type := mk {
  total_duration : string;
  start_date : string;
  estimated_end_date : string;
  milestones : list Milestone.t
}.
End Timeline.

Module Overview.
Record t : Type := mk {
  title : string;
  domain : string;
  complexity : string;
  estimated_duration : string;
  team_size : Z;
  generated_date : string
}.
End Overview.

Module Plan.
Record t : Type := mk {
  project_overview : Overview.t;
  phases : list Phase.t;
  technical_stack : dict (list string);
  architecture : dict string;
  resources : dict string;
  risks : list Risk.t;
  success_metrics : dict (list string);
  timeline : Timeline.t
}.
End Plan.

(* ================================================================== *)
(** ** project_planner.py *)

Module Planner.

Import PyStr.

(** The planner object: its one attribute is the template table. *)
Record ProjectPlanner : Type := { phase_templates : dict (list PhaseTemplate.t) }.

Definition _load_phase_templates : dict (list PhaseTemplate.t) :=
  [ ("NLP",
      [ PhaseTemplate.mk "Foundation and Setup" 3
          "Establish theoretical understanding and development environment"
          [ "Set up development environment"; "Literature review";
            "Dataset preparation"; "Basic NLP understanding" ];
        PhaseTemplate.mk "Core Component Development" 6
          "Build fundamental NLP processing capabilities"
          [ "Text preprocessing pipeline"; "Basic NLP models";
            "Feature extraction"; "Initial testing" ];
        PhaseTemplate.mk "Advanced Implementation" 4
          "Implement state-of-the-art approaches"
          [ "Neural network implementation"; "Advanced model training";
            "Optimization"; "Performance tuning" ];
        PhaseTemplate.mk "Application Development" 4
          "Create practical applications"
          [ "User interface development"; "Application logic";
            "Integration testing"; "User experience optimization" ];
        PhaseTemplate.mk "Evaluation and Deployment" 3
          "Testing, optimization, and deployment"
          [ "Comprehensive evaluation"; "Performance optimization";
            "Documentation"; "Deployment" ] ]);
    ("Computer Vision",
      [ PhaseTemplate.mk "Environment and Data Setup" 3
          "Prepare development environment and datasets"
          [ "Development environment setup"; "Image dataset collection";
            "Data preprocessing"; "Baseline model research" ];
        PhaseTemplate.mk "Model Development" 6
          "Implement core computer vision models"
          [ "Image preprocessing pipeline"; "CNN architecture implementation";
            "Model training"; "Initial evaluation" ];
        PhaseTemplate.mk "Advanced Techniques" 4
          "Implement advanced computer vision techniques"
          [ "Transfer learning"; "Data augmentation";
            "Advanced architectures"; "Performance optimization" ];
        PhaseTemplate.mk "Application Integration" 4
          "Build practical applications"
          [ "Real-time processing"; "User interface";
            "API development"; "System integration" ];
        PhaseTemplate.mk "Testing and Deployment" 3
          "Final testing and deployment"
          [ "Performance testing"; "User acceptance testing";
            "Production deployment"; "Monitoring setup" ] ]);
    ("Machine Learning",
      [ PhaseTemplate.mk "Data and Environment Preparation" 3
          "Setup and data understanding"
          [ "Environment configuration"; "Data collection and exploration";
            "Feature engineering"; "Data quality assessment" ];
        PhaseTemplate.mk "Model Development" 6
          "Develop and train ML models"
          [ "Algorithm selection"; "Model implementation";
            "Training and validation"; "Hyperparameter tuning" ];
        PhaseTemplate.mk "Advanced Modeling" 4
          "Implement advanced ML techniques"
          [ "Ensemble methods"; "Deep learning integration";
            "Model optimization"; "Cross-validation" ];
        PhaseTemplate.mk "System Integration" 4
          "Build production system"
          [ "API development"; "Database integration";
            "Real-time prediction"; "System architecture" ];
        PhaseTemplate.mk "Production and Monitoring" 3
          "Deploy and monitor system"
          [ "Production deployment"; "Performance monitoring";
            "Model maintenance"; "Documentation" ] ]) ]%list.

(** [ProjectPlanner()]. *)
Definition __init__ : ProjectPlanner :=
  {| phase_templates := _load_phase_templates |}.

(** One pass of a [for x in xs: if x.lower() not in ' '.join(tasks).lower():
    tasks.append(phrase(x))] loop. *)
Definition append_unless_present (phrase : string -> string)
    (customized_tasks : list string) (x : string) : list string :=
  if negb (contains (lower x) (lower (join " " customized_tasks)))
  then (customized_tasks ++ [phrase x])%list
  else customized_tasks.

Definition implement_task (concept : string) : string :=
  "Implement " ++ concept ++ " functionality".

Definition integrate_task (framework : string) : string :=
  "Integrate " ++ framework ++ " framework".

Definition _customize_phase_tasks (base_tasks : list string)
    (analysis : Analysis.t) (phase_name : string) : list string :=
  let customized_tasks := base_tasks in
  let key_concepts := get (Analysis.key_concepts analysis) [] in
  let tech_requirements :=
    get (Analysis.technical_requirements analysis) TechReq.empty in
  let customized_tasks :=
    fold_left (append_unless_present implement_task)
              (firstn 3 key_concepts) customized_tasks in
  let frameworks := get (TechReq.frameworks tech_requirements) [] in
  let customized_tasks :=
    fold_left (append_unless_present integrate_task)
              (firstn 2 frameworks) customized_tasks in
  customized_tasks.

Definition base_deliverables : dict (list string) :=
  [ ("Foundation and Setup",
      [ "Development environment setup"; "Literature review document";
        "Dataset preparation report"; "Technical specification document" ]);
    ("Core Component Development",
      [ "Core processing pipeline"; "Basic model implementations";
        "Initial testing results"; "Performance baseline report" ]);
    ("Advanced Implementation",
      [ "Advanced model implementations"; "Optimization results";
        "Performance improvement report"; "Technical documentation" ]);
    ("Application Development",
      [ "User interface prototype"; "Application backend";
        "Integration testing report"; "User documentation" ]);
    ("Evaluation and Deployment",
      [ "Final evaluation report"; "Optimized production system";
        "Deployment documentation"; "User manual" ]) ]%list.

Definition _generate_phase_deliverables (phase_name : string)
    (analysis : Analysis.t) : list string :=
  let deliverables :=
    get (dict_get base_deliverables phase_name) ["Phase deliverables"] in
  let domain := get (Analysis.domain analysis) "" in
  if contains "NLP" (upper domain) then
    if contains "Core" phase_name then
      (deliverables ++ ["Text preprocessing pipeline";
                        "Language model implementation"])%list
    else deliverables
  else if contains "Vision" (upper domain) then
    if contains "Core" phase_name then
      (deliverables ++ ["Image preprocessing pipeline";
                        "Computer vision model"])%list
    else deliverables
  else deliverables.

Definition base_criteria : dict (list string) :=
  [ ("Foundation and Setup",
      [ "Functional development environment";
        "Complete dataset preparation"; "Clear project roadmap" ]);
    ("Core Component Development",
      [ "Working core components"; "Baseline performance achieved";
        "Successful initial testing" ]);
    ("Advanced Implementation",
      [ "Improved model performance"; "Optimization targets met";
        "Advanced features implemented" ]);
    ("Application Development",
      [ "Functional user interface"; "Complete application features";
        "User acceptance testing passed" ]);
    ("Evaluation and Deployment",
      [ "Performance targets achieved"; "Successful deployment";
        "Complete documentation" ]) ]%list.

Definition _generate_success_criteria (phase_name : string)
    (analysis : Analysis.t) : list string :=
  let criteria :=
    get (dict_get base_criteria phase_name) ["Phase objectives met"] in
  let complexity := get (Analysis.complexity analysis) "Intermediate" in
  if String.eqb complexity "Advanced" then
    (criteria ++ ["Advanced performance benchmarks achieved"])%list
  else if String.eqb complexity "Expert" then
    (criteria ++ ["State-of-the-art performance achieved"])%list
  else criteria.

(** The table of [_generate_phases]; [.get(complexity, 1.0)] reads it. *)
Definition complexity_table : dict Float64.float :=
  [ ("Beginner", Float64.lit_0_8);
    ("Intermediate", Float64.lit_1_0);
    ("Advanced", Float64.lit_1_3);
    ("Expert", Float64.lit_1_6) ]%list.

(** [max(1, round(base_duration * duration_multiplier * complexity_multiplier))]. *)
Definition adjusted_duration_of (base_duration : Z)
    (duration_multiplier complexity_multiplier : Float64.float) : result Z :=
  x <- Float64.int_mul base_duration duration_multiplier ;;
  r <- Float64.round (Float64.mul x complexity_multiplier) ;;
  Ok (Z.max 1 r).

(** The dictionary [phase = {...}] built in the body of the loop. *)
Definition make_phase (analysis : Analysis.t) (phase_template : PhaseTemplate.t)
    (adjusted_duration current_month : Z) : Phase.t :=
  let customized_tasks :=
    _customize_phase_tasks (PhaseTemplate.core_tasks phase_template)
                           analysis (PhaseTemplate.name phase_template) in
  {| Phase.name := PhaseTemplate.name phase_template;
     Phase.duration := of_int adjusted_duration ++ " months";
     Phase.start_month := current_month;
     Phase.end_month := current_month + adjusted_duration - 1;
     Phase.objectives := PhaseTemplate.objectives phase_template;
     Phase.tasks := customized_tasks;
     Phase.deliverables :=
       _generate_phase_deliverables (PhaseTemplate.name phase_template) analysis;
     Phase.success_criteria :=
       _generate_success_criteria (PhaseTemplate.name phase_template) analysis |}.

(** The [for i, phase_template in enumerate(base_phases)] loop, with its
    two variables [phases] and [current_month]. *)
Fixpoint phases_loop (analysis : Analysis.t)
    (duration_multiplier complexity_multiplier : Float64.float)
    (base_phases : list PhaseTemplate.t)
    (phases : list Phase.t) (current_month : Z) : result (list Phase.t) :=
  match base_phases with
  | [] => Ok phases
  | phase_template :: rest =>
    adjusted_duration <-
      adjusted_duration_of (PhaseTemplate.base_duration phase_template)
                           duration_multiplier complexity_multiplier ;;
    let phase :=
      make_phase analysis phase_template adjusted_duration current_month in
    phases_loop analysis duration_multiplier complexity_multiplier rest
                (phases ++ [phase])%list (current_month + adjusted_duration)
  end.

(** The template key chosen from the domain text. *)
Definition template_key_of (domain : string) : string :=
  if contains "NLP" (upper domain) || contains "NATURAL LANGUAGE" (upper domain)
  then "NLP"
  else if contains "VISION" (upper domain) || contains "IMAGE" (upper domain)
  then "Computer Vision"
  else "Machine Learning".

(** [sum(...)] over integers. *)
Definition sum (l : list Z) : Z := fold_left Z.add l 0.

Definition _generate_phases (self : ProjectPlanner) (analysis : Analysis.t)
    (duration : Z) (complexity : string) : result (list Phase.t) :=
  let domain := get (Analysis.domain analysis) "Machine Learning" in
  let template_key := template_key_of domain in
  fallback <- dict_item (phase_templates self) "Machine Learning" ;;
  let base_phases := get (dict_get (phase_templates self) template_key) fallback in
  let complexity_multiplier :=
    get (dict_get complexity_table complexity) Float64.lit_1_0 in
  let total_base_duration :=
    sum (List.map PhaseTemplate.base_duration base_phases) in
  duration_multiplier <- Float64.truediv duration total_base_duration ;;
  phases_loop analysis duration_multiplier complexity_multiplier
              base_phases [] 1.

Definition _generate_architecture (analysis : Analysis.t) : dict string :=
  let domain := get (Analysis.domain analysis) "" in
  if contains "NLP" (upper domain) then
    [ ("data_layer", "Text preprocessing and tokenization pipeline");
      ("model_layer", "Neural language models and transformers");
      ("application_layer", "NLP applications and APIs");
      ("interface_layer", "Web interface and user interaction") ]%list
  else if contains "Vision" (upper domain) then
    [ ("data_layer", "Image preprocessing and augmentation pipeline");
      ("model_layer", "Convolutional neural networks and vision models");
      ("application_layer", "Computer vision applications and APIs");
      ("interface_layer", "Image upload interface and visualization") ]%list
  else
    [ ("data_layer", "Data preprocessing and feature engineering");
      ("model_layer", "Machine learning models and algorithms");
      ("application_layer", "Prediction services and APIs");
      ("interface_layer", "Dashboard and user interface") ]%list.

Definition _generate_resource_requirements (analysis : Analysis.t)
    (team_size : Z) : dict string :=
  let complexity := get (Analysis.complexity analysis) "Intermediate" in
  let resources :=
    [ ("team", (of_int team_size ++
                " team members (developers, data scientists, researchers)")%string);
      ("development_environment",
       "Modern development machines with good specifications") ]%list in
  let resources :=
    if existsb (String.eqb complexity) ["Advanced"; "Expert"] then
      dict_set
        (dict_set resources "hardware"
           "GPU workstations (8GB+ VRAM), 32GB+ RAM, SSD storage")
        "cloud_resources" "Cloud GPU instances for training (AWS/GCP/Azure)"
    else
      dict_set
        (dict_set resources "hardware"
           "Standard development machines, GPU recommended")
        "cloud_resources" "Basic cloud services for deployment" in
  let domain := get (Analysis.domain analysis) "" in
  if contains "NLP" (upper domain) then
    dict_set resources "data_storage" "Large text corpora and pre-trained models"
  else if contains "Vision" (upper domain) then
    dict_set resources "data_storage" "Image datasets and pre-trained vision models"
  else resources.

Definition _generate_risks (analysis : Analysis.t) (complexity : string)
    : list Risk.t :=
  let base_risks :=
    [ Risk.mk "Technical complexity exceeding team capabilities"
        "Provide comprehensive training and consider external consultants";
      Risk.mk "Data quality and availability issues"
        "Establish data quality checks and backup data sources";
      Risk.mk "Performance not meeting requirements"
        "Set realistic benchmarks and implement iterative improvements";
      Risk.mk "Timeline delays due to unforeseen challenges"
        "Build buffer time into schedule and prioritize core features" ]%list in
  let base_risks :=
    if existsb (String.eqb complexity) ["Advanced"; "Expert"] then
      (base_risks ++
        [ Risk.mk "High computational resource requirements"
            "Secure adequate cloud resources and optimize algorithms";
          Risk.mk "Keeping up with rapidly evolving research"
            "Establish continuous learning and update procedures" ])%list
    else base_risks in
  let challenges := get (Analysis.challenges analysis) [] in
  fold_left
    (fun base_risks challenge =>
       (base_risks ++
         [Risk.mk challenge "Implement targeted solutions and monitoring"])%list)
    (firstn 2 challenges) base_risks.

Definition _generate_success_metrics (analysis : Analysis.t)
    : dict (list string) :=
  let domain := get (Analysis.domain analysis) "" in
  let technical_metrics :=
    [ "Model accuracy > 85%"; "System response time < 2 seconds";
      "Code coverage > 80%"; "Performance benchmarks achieved" ]%list in
  let project_metrics :=
    [ "On-time delivery"; "Budget adherence"; "Quality standards met";
      "Stakeholder satisfaction > 4.0/5.0" ]%list in
  let technical_metrics :=
    if contains "NLP" (upper domain) then
      (technical_metrics ++
        [ "BLEU score > 25 (for translation tasks)";
          "F1-score > 0.85 (for classification)";
          "ROUGE score > 0.7 (for summarization)" ])%list
    else if contains "Vision" (upper domain) then
      (technical_metrics ++
        [ "Image classification accuracy > 90%";
          "Object detection mAP > 0.5";
          "Real-time processing capability" ])%list
    else technical_metrics in
  [ ("technical_metrics", technical_metrics);
    ("project_metrics", project_metrics) ]%list.

(** [max(phase['end_month'] for phase in phases)]: [ValueError] on an
    empty sequence. *)
Definition max_end_month (phases : list Phase.t) : result Z :=
  match phases with
  | [] => Raise ValueError
  | p :: ps => Ok (fold_left (fun m q => Z.max m (Phase.end_month q)) ps
                             (Phase.end_month p))
  end.

(** What the interpreter and the [datetime] module supply: the clock
    ([now k] is the [k]-th reading of [datetime.now()] during a call),
    the formatting of dates, and the order in which a [set] of strings
    built from a list is iterated (fixed by the string hash of the
    running interpreter). *)
Section Runtime.

Variable datetime : Type.
Variable now : nat -> datetime.
Variable isoformat : datetime -> string.
Variable strftime : datetime -> string -> string.
Variable add_days : datetime -> Z -> datetime.
Variable list_of_set : list string -> list string.

Definition _generate_tech_stack (analysis : Analysis.t)
    : result (dict (list string)) :=
  let tech_requirements :=
    get (Analysis.technical_requirements analysis) TechReq.empty in
  let domain := get (Analysis.domain analysis) "" in
  let stack :=
    [ ("programming_languages", ["Python"]);
      ("core_libraries", ["NumPy"; "Pandas"; "Matplotlib"]);
      ("development_tools", ["Jupyter Notebook"; "Git"; "VS Code"]);
      ("testing", ["Pytest"; "Unit Testing"]);
      ("deployment", ["Docker"; "Flask/FastAPI"]) ]%list in
  let stack :=
    if contains "NLP" (upper domain) then
      dict_set
        (dict_set stack "ml_frameworks"
           ["TensorFlow"; "PyTorch"; "Transformers (Hugging Face)"])
        "nlp_libraries" ["spaCy"; "NLTK"; "Gensim"]
    else if contains "Vision" (upper domain) then
      dict_set
        (dict_set stack "ml_frameworks" ["TensorFlow"; "PyTorch"; "OpenCV"])
        "cv_libraries" ["PIL"; "scikit-image"; "albumentations"]
    else
      dict_set stack "ml_frameworks" ["Scikit-learn"; "TensorFlow"; "PyTorch"] in
  let frameworks := get (TechReq.frameworks tech_requirements) [] in
  match frameworks with
  | [] => Ok stack
  | _ =>
    let stack :=
      if negb (dict_mem stack "ml_frameworks")
      then dict_set stack "ml_frameworks" []
      else stack in
    ml <- dict_item stack "ml_frameworks" ;;
    let stack := dict_set stack "ml_frameworks" (ml ++ firstn 3 frameworks)%list in
    ml <- dict_item stack "ml_frameworks" ;;
    Ok (dict_set stack "ml_frameworks" (list_of_set ml))
  end.

(** [_generate_timeline], reading the clock from its [k]-th reading on. *)
Definition _generate_timeline (k : nat) (phases : list Phase.t)
    : result Timeline.t :=
  total_duration <- max_end_month phases ;;
  Ok {| Timeline.total_duration := of_int total_duration ++ " months";
        Timeline.start_date := strftime (now k) "%Y-%m-%d";
        Timeline.estimated_end_date :=
          strftime (add_days (now (S k)) (total_duration * 30)) "%Y-%m-%d";
        Timeline.milestones :=
          List.map
            (fun phase =>
               {| Milestone.name := Phase.name phase ++ " Completion";
                  Milestone.month := Phase.end_month phase;
                  Milestone.description :=
                    "Complete " ++ Phase.name phase ++ " with all deliverables" |})
            phases |}.

Definition generate_plan (self : ProjectPlanner)
    (paper_analysis : Analysis.t) (project_settings : Settings.t)
    : result Plan.t :=
  let domain := get (Analysis.domain paper_analysis) "Computer Science" in
  let complexity := get (Analysis.complexity paper_analysis) "Intermediate" in
  let duration := get (Settings.duration project_settings) 20 in
  let team_size := get (Settings.team_size project_settings) 5 in
  phases <- _generate_phases self paper_analysis duration complexity ;;
  tech_stack <- _generate_tech_stack paper_analysis ;;
  let architecture := _generate_architecture paper_analysis in
  let resources := _generate_resource_requirements paper_analysis team_size in
  let risks := _generate_risks paper_analysis complexity in
  let metrics := _generate_success_metrics paper_analysis in
  let project_overview :=
    {| Overview.title :=
         get (Analysis.title paper_analysis) "Research Implementation"
         ++ " - Project Plan";
       Overview.domain := domain;
       Overview.complexity := complexity;
       Overview.estimated_duration := of_int duration ++ " months";
       Overview.team_size := team_size;
       Overview.generated_date := isoformat (now 0%nat) |} in
  timeline <- _generate_timeline 1%nat phases ;;
  Ok {| Plan.project_overview := project_overview;
        Plan.phases := phases;
        Plan.technical_stack := tech_stack;
        Plan.architecture := architecture;
        Plan.resources := resources;
        Plan.risks := risks;
        Plan.success_metrics := metrics;
        Plan.timeline := timeline |}.

End Runtime.

End Planner.

(* ================================================================== *)
(** ** visualization_generator.py *)

Module Visualization.

Import PyStr.

Definition nl : string := String (ascii_of_nat 10) "".
Definition dq : string := String (ascii_of_nat 34) "".

(** The generator reads its argument only through [.get]: a phase and a
    plan as it sees them. *)
Module PhaseView.
Record t : Type := mk {
  name : option string;
  start_month : option Z;
  end_month : option Z;
  tasks : option (list string)
}.
End PhaseView.

Module PlanView.
Record t : Type := mk {
  phases : option (list PhaseView.t);
  architecture : option (dict string)
}.
End PlanView.

(** A plan of the planner, as the generator sees it. *)
Definition view_of_phase (p : Phase.t) : PhaseView.t :=
  PhaseView.mk (Some (Phase.name p)) (Some (Phase.start_month p))
               (Some (Phase.end_month p)) (Some (Phase.tasks p)).

Definition view_of_plan (p : Plan.t) : PlanView.t :=
  PlanView.mk (Some (List.map view_of_phase (Plan.phases p)))
              (Some (Plan.architecture p)).

(** [phase.get('name', f'Phase {i+1}').replace(' ', '_')]. *)
Definition gantt_phase_name (phase : PhaseView.t) (i : Z) : string :=
  replace " " "_" (get (PhaseView.name phase) ("Phase " ++ of_int (i + 1))).

(** [task.replace(' ', '_')[:20]]. *)
Definition gantt_task_name (task : string) : string :=
  take 20 (replace " " "_" task).

(** [component.upper().replace(' ', '_')]. *)
Definition component_id (component : string) : string :=
  replace " " "_" (upper component).

(** The inner loop [for j, task in enumerate(tasks[:3])]; [n] is
    [len(tasks)] of the whole list. *)
Fixpoint gantt_tasks_loop (i start_month duration n : Z) (j : Z)
    (tasks : list string) (gantt : string) : string :=
  match tasks with
  | [] => gantt
  | task :: rest =>
    let task_name := gantt_task_name task in
    let task_duration := Z.max 1 (duration / n) in
    let task_start := start_month + j * task_duration in
    gantt_tasks_loop i start_month duration n (j + 1) rest
      (gantt ++ "    " ++ task_name ++ " :a" ++ of_int (i + 1) ++ "_"
             ++ of_int (j + 1) ++ ", " ++ of_int task_start ++ ", "
             ++ of_int task_duration ++ nl)
  end.

(** The outer loop [for i, phase in enumerate(phases)]. *)
Fixpoint gantt_loop (i : Z) (phases : list PhaseView.t) (gantt : string)
    : string :=
  match phases with
  | [] => gantt
  | phase :: rest =>
    let section_name := "Phase " ++ of_int (i + 1) in
    let gantt := gantt ++ "    section " ++ section_name ++ nl in
    let start_month := get (PhaseView.start_month phase) 1 in
    let end_month := get (PhaseView.end_month phase) (start_month + 1) in
    let duration := end_month - start_month + 1 in
    let phase_name := gantt_phase_name phase i in
    let gantt :=
      gantt ++ "    " ++ phase_name ++ " :a" ++ of_int (i + 1) ++ ", "
            ++ of_int start_month ++ ", " ++ of_int duration ++ nl in
    let tasks := get (PhaseView.tasks phase) [] in
    let gantt :=
      gantt_tasks_loop i start_month duration (Z.of_nat (List.length tasks))
                       0 (firstn 3 tasks) gantt in
    gantt_loop (i + 1) rest (gantt ++ nl)
  end.

Definition _generate_gantt_chart (project_plan : PlanView.t) : string :=
  let phases := get (PlanView.phases project_plan) [] in
  let gantt :=
    "gantt" ++ nl ++
    "    title Project Implementation Timeline" ++ nl ++
    "    dateFormat  X" ++ nl ++
    "    axisFormat %m" ++ nl ++
    "    " ++ nl in
  gantt_loop 0 phases gantt.

(** [s.title()]: a letter after a letter is lowered, any other letter
    is raised. *)
Fixpoint title_from (previous_is_cased : bool) (s : string) : string :=
  match s with
  | EmptyString => EmptyString
  | String c s' =>
    let cased := is_lower c || is_upper c in
    String (if previous_is_cased then lower_char c else upper_char c)
           (title_from cased s')
  end.

Definition title (s : string) : string := title_from false s.

Definition _generate_architecture_diagram (project_plan : PlanView.t)
    : string :=
  let architecture := get (PlanView.architecture project_plan) [] in
  let arch_diagram :=
    "graph TB" ++ nl ++
    "    subgraph " ++ dq ++ "System Architecture" ++ dq ++ nl ++
    "        UI[User Interface Layer]" ++ nl ++
    "        API[Application Layer]" ++ nl ++
    "        MODEL[Model Layer]" ++ nl ++
    "        DATA[Data Layer]" ++ nl ++
    "        INFRA[Infrastructure Layer]" ++ nl ++
    "    end" ++ nl ++
    "    " ++ nl ++
    "    UI --> API" ++ nl ++
    "    API --> MODEL" ++ nl ++
    "    MODEL --> DATA" ++ nl ++
    "    API --> INFRA" ++ nl ++
    "    " ++ nl in
  let arch_diagram :=
    fold_left
      (fun arch_diagram item =>
         let component := fst item in
         arch_diagram ++ "    " ++ component_id component ++ "[" ++ dq
                      ++ title component ++ dq ++ "]" ++ nl)
      architecture arch_diagram in
  arch_diagram ++ nl ++
  "    classDef layer fill:#f9f9f9,stroke:#333,stroke-width:2px" ++ nl ++
  "    classDef component fill:#e3f2fd,stroke:#1976d2,stroke-width:1px" ++ nl ++
  "    " ++ nl ++
  "    class UI,API,MODEL,DATA,INFRA layer" ++ nl.

End Visualization.

(* ================================================================== *)
(** ** ai_analyzer.py *)

Module Analyzer.

Import PyStr.

Definition nl : string := Visualization.nl.
Definition dq : string := Visualization.dq.

(** The client object built from an API key. *)
Record Together : Type := { api_key : string }.

(** The analyzer object. *)
Record AIAnalyzer : Type := { client : option Together }.

(** One call of [client.chat.completions.create]. *)
Record Request : Type := {
  model : string;
  messages : list (string * string);
  max_tokens : Z;
  temperature : Q
}.

(** [_initialize_client]: [environ] is the process environment read by
    [os.getenv]; an empty key is as good as none. *)
Definition _initialize_client (environ : dict string) : option Together :=
  match dict_get environ "TOGETHER_API_KEY" with
  | Some key =>
    match key with
    | EmptyString => None
    | _ => Some {| api_key := key |}
    end
  | None => None
  end.

(** [AIAnalyzer()]. *)
Definition __init__ (environ : dict string) : AIAnalyzer :=
  {| client := _initialize_client environ |}.

Definition quoted (s : string) : string := dq ++ s ++ dq.
Definition entry (indent key value : string) : string :=
  indent ++ quoted key ++ ": " ++ quoted value.
Definition entries (indent key value : string) : string :=
  indent ++ quoted key ++ ": [" ++ quoted value ++ "]".

Definition _create_analysis_prompt (text : string) : string :=
  let max_chars := 8000 in
  let text :=
    if max_chars <? len text
    then take max_chars text ++ "..." else text in
  let i8 := "        " in
  let i12 := "            " in
  let i16 := "                " in
  join nl
    [ "";
      i8 ++ "Analyze the following research paper and provide a comprehensive analysis in JSON format:";
      "";
      i8 ++ "RESEARCH PAPER TEXT:";
      i8 ++ text;
      "";
      i8 ++ "Please provide analysis in the following JSON structure:";
      i8 ++ "{";
      entry i12 "title" "Paper title" ++ ",";
      entry i12 "authors" "Author names" ++ ",";
      entry i12 "abstract" "Paper abstract or summary" ++ ",";
      entry i12 "domain"
        "Research domain (e.g., NLP, Computer Vision, Machine Learning)" ++ ",";
      entry i12 "research_type"
        "Type of research (e.g., Survey, Experimental, Theoretical)" ++ ",";
      entry i12 "year" "Publication year if mentioned" ++ ",";
      entry i12 "complexity"
        "Complexity level (Beginner/Intermediate/Advanced/Expert)" ++ ",";
      entries i12 "key_concepts" "List of key concepts and technologies" ++ ",";
      entries i12 "methodologies" "Research methodologies mentioned" ++ ",";
      i12 ++ quoted "technical_requirements" ++ ": {";
      entries i16 "programming_languages" "List of programming languages" ++ ",";
      entries i16 "frameworks" "List of frameworks and libraries" ++ ",";
      entries i16 "hardware" "Hardware requirements" ++ ",";
      entries i16 "datasets" "Datasets mentioned";
      i12 ++ "},";
      entries i12 "applications" "Potential applications" ++ ",";
      entries i12 "challenges" "Technical challenges mentioned" ++ ",";
      entries i12 "future_work" "Future research directions";
      i8 ++ "}";
      "";
      i8 ++ "Focus on extracting information that would be useful for creating a project implementation plan.";
      i8 ].

Definition _create_structured_analysis_from_text (text : string)
    : Analysis.t :=
  {| Analysis.title := Some "Research Paper Analysis";
     Analysis.authors := Some "Not specified";
     Analysis.abstract :=
       Some (if 500 <? len text
             then take 500 text ++ "..." else text);
     Analysis.domain := Some "Computer Science";
     Analysis.research_type := Some "Research Paper";
     Analysis.year := Some "2024";
     Analysis.complexity := Some "Intermediate";
     Analysis.key_concepts :=
       Some ["Machine Learning"; "Data Analysis"; "Implementation"];
     Analysis.methodologies := Some ["Experimental"; "Comparative Analysis"];
     Analysis.technical_requirements :=
       Some (TechReq.mk (Some ["Python"])
                        (Some ["TensorFlow"; "PyTorch"; "Scikit-learn"])
                        (Some ["GPU recommended"; "8GB+ RAM"])
                        (Some ["Custom dataset required"]));
     Analysis.applications :=
       Some ["Research Implementation"; "Practical Application"];
     Analysis.challenges :=
       Some ["Data Quality"; "Model Performance"; "Scalability"];
     Analysis.future_work :=
       Some ["Optimization"; "Extension"; "Real-world Deployment"] |}.

Definition _create_fallback_analysis : Analysis.t :=
  {| Analysis.title := Some "Research Paper";
     Analysis.authors := Some "Unknown";
     Analysis.abstract :=
       Some "Analysis unavailable - please check your API configuration";
     Analysis.domain := Some "Computer Science";
     Analysis.research_type := Some "Research Paper";
     Analysis.year := Some "2024";
     Analysis.complexity := Some "Intermediate";
     Analysis.key_concepts := Some ["Research"; "Implementation"];
     Analysis.methodologies := Some ["Analysis"];
     Analysis.technical_requirements :=
       Some (TechReq.mk (Some ["Python"]) (Some ["Standard libraries"])
                        (Some ["Standard hardware"]) (Some ["TBD"]));
     Analysis.applications := Some ["Research"];
     Analysis.challenges := Some ["Implementation"];
     Analysis.future_work := Some ["Development"] |}.

(** The longest prefix of [s] that ends with a closing brace. *)
Fixpoint upto_last_close (s : string) : option string :=
  match s with
  | EmptyString => None
  | String c s' =>
    match upto_last_close s' with
    | Some r => Some (String c r)
    | None => if Ascii.eqb c "}" then Some (String c EmptyString) else None
    end
  end.

(** [re.search(r'\{.*\}', s, re.DOTALL)]: the text from the first
    opening brace to the last closing brace after it. *)
Fixpoint re_search_braces (s : string) : option string :=
  match s with
  | EmptyString => None
  | String c s' =>
    if Ascii.eqb c "{" then
      match upto_last_close s' with
      | Some r => Some (String c r)
      | None => None
      end
    else re_search_braces s'
  end.

(** The arguments of the one network call of [analyze_paper]. *)
Definition completion_request (analysis_prompt : string) : Request :=
  {| model := "meta-llama/Llama-3-8b-chat-hf";
     messages :=
       [ ("system",
          "You are an expert research analyst specializing in converting academic papers into actionable project implementation plans. Provide detailed, structured analysis.");
         ("user", analysis_prompt) ];
     max_tokens := 4000;
     temperature := (7 # 10)%Q |}.

(** What the [json] module and the network supply: [json.loads], and
    the remote call, which yields the reply text
    [response.choices[0].message.content] or raises. *)
Section Runtime.

Variable json_loads : string -> result Analysis.t.
Variable create : Together -> Request -> result string.

Definition _parse_analysis_response (response_text : string)
    : result Analysis.t :=
  match re_search_braces response_text with
  | Some json_str =>
    match json_loads json_str with
    | Ok analysis => Ok analysis
    | Raise JSONDecodeError =>
      Ok (_create_structured_analysis_from_text response_text)
    | Raise e => Raise e
    end
  | None => Ok (_create_structured_analysis_from_text response_text)
  end.

(** [analyze_paper] returns its outcome together with the requests it
    sent over the network, in order. *)
Definition analyze_paper (self : AIAnalyzer) (text : string)
    : result Analysis.t * list Request :=
  match client self with
  | None =>
    (Raise (Exception
              "Together.AI client not initialized. Please provide API key."),
     [])
  | Some c =>
    let analysis_prompt := _create_analysis_prompt text in
    let request := completion_request analysis_prompt in
    match create c request with
    | Ok analysis_text =>
      match _parse_analysis_response analysis_text with
      | Ok analysis => (Ok analysis, [request])
      | Raise e => (Ok _create_fallback_analysis, [request])
      end
    | Raise e => (Ok _create_fallback_analysis, [request])
    end
  end.

End Runtime.

End Analyzer.

(* ================================================================== *)
(** * Specification *)

(** ** Phase durations, in exact arithmetic *)

Module Spec.

(** The multiplier of a complexity label, as the decimal it is written. *)
Definition complexity_multiplier (label : string) : Q :=
  if String.eqb label "Beginner" then 8 # 10
  else if String.eqb label "Intermediate" then 1
  else if String.eqb label "Advanced" then 13 # 10
  else if String.eqb label "Expert" then 16 # 10
  else 1.

(** The integer nearest to a rational, a tie going to the even one. *)
Definition round_half_even (q : Q) : Z :=
  let f := Qfloor q in
  match Qcompare (q - inject_Z f) (1 # 2) with
  | Lt => f
  | Gt => f + 1
  | Eq => if Z.even f then f else f + 1
  end.

(** [max(1, round(base_duration * (duration / total_base_duration)
    * complexity_multiplier))] over the rationals. *)
Definition adjusted_duration (base_duration duration total_base_duration : Z)
    (multiplier : Q) : Z :=
  Z.max 1
    (round_half_even
       (inject_Z base_duration
        * (inject_Z duration / inject_Z total_base_duration)
        * multiplier)%Q).

(** The length in months of a phase of the plan. *)
Definition phase_length (p : Phase.t) : Z :=
  Phase.end_month p - Phase.start_month p + 1.

(** Each phase starts the month after the one before it ends. *)
Definition contiguous (phases : list Phase.t) : Prop :=
  forall (i : nat) (p q : Phase.t),
    nth_error phases i = Some p ->
    nth_error phases (S i) = Some q ->
    Phase.start_month q = Phase.end_month p + 1.

(** The analysis record with another complexity label. *)
Definition with_complexity (a : Analysis.t) (label : string) : Analysis.t :=
  {| Analysis.title := Analysis.title a;
     Analysis.authors := Analysis.authors a;
     Analysis.abstract := Analysis.abstract a;
     Analysis.domain := Analysis.domain a;
     Analysis.research_type := Analysis.research_type a;
     Analysis.year := Analysis.year a;
     Analysis.complexity := Some label;
     Analysis.key_concepts := Analysis.key_concepts a;
     Analysis.methodologies := Analysis.methodologies a;
     Analysis.technical_requirements := Analysis.technical_requirements a;
     Analysis.applications := Analysis.applications a;
     Analysis.challenges := Analysis.challenges a;
     Analysis.future_work := Analysis.future_work a |}.

End Spec.

(** ** The loop of [_generate_phases], split into durations and phases *)

Module Schedule.

Import Planner.

(** The adjusted durations the loop computes, in order. *)
Fixpoint adjusted_durations (base_phases : list PhaseTemplate.t)
    (duration_multiplier complexity_multiplier : Float64.float)
    : result (list Z) :=
  match base_phases with
  | [] => Ok []
  | t :: rest =>
    d <- adjusted_duration_of (PhaseTemplate.base_duration t)
                              duration_multiplier complexity_multiplier ;;
    ds <- adjusted_durations rest duration_multiplier complexity_multiplier ;;
    Ok (d :: ds)
  end.

(** The phases the loop appends, given those durations. *)
Fixpoint build_phases (analysis : Analysis.t)
    (base_phases : list PhaseTemplate.t) (durations : list Z)
    (current_month : Z) : list Phase.t :=
  match base_phases, durations with
  | t :: ts, d :: ds =>
    make_phase analysis t d current_month
    :: build_phases analysis ts ds (current_month + d)
  | _, _ => []
  end.

(** The last months of phases laid end to end from [current_month]. *)
Fixpoint end_months (durations : list Z) (current_month : Z) : list Z :=
  match durations with
  | [] => []
  | d :: ds => (current_month + d - 1) :: end_months ds (current_month + d)
  end.

(** A list of phases laid end to end from [current_month]. *)
Fixpoint chained (current_month : Z) (phases : list Phase.t) : Prop :=
  match phases with
  | [] => True
  | p :: ps =>
    Phase.start_month p = current_month /\
    chained (Phase.end_month p + 1) ps
  end.

(** [max(...)] of a list of integers. *)
Definition max_of (l : list Z) : result Z :=
  match l with
  | [] => Raise ValueError
  | x :: xs => Ok (fold_left Z.max xs x)
  end.

(** The three template families of the planner. *)
Definition families : list (list PhaseTemplate.t) :=
  List.map snd _load_phase_templates.

(** The durations a settings record may hold: 6 to 36 months. *)
Definition valid_durations : list Z := List.map Z.of_nat (seq 6 31).

(** The multipliers of the table and the default, as the float the code
    uses and the decimal the table shows. *)
Definition multipliers : list (Float64.float * Q) :=
  [ (Float64.lit_0_8, 8 # 10); (Float64.lit_1_0, 1%Q);
    (Float64.lit_1_3, 13 # 10); (Float64.lit_1_6, 16 # 10) ]%list.

Definition total_base_duration (base_phases : list PhaseTemplate.t) : Z :=
  sum (List.map PhaseTemplate.base_duration base_phases).

(** The durations computed for one family, one duration, one multiplier. *)
Definition durations_for (base_phases : list PhaseTemplate.t) (duration : Z)
    (m : Float64.float) : result (list Z) :=
  dm <- Float64.truediv duration (total_base_duration base_phases) ;;
  adjusted_durations base_phases dm m.

Definition list_Z_eqb (a b : list Z) : bool :=
  if list_eq_dec Z.eq_dec a b then true else false.

(** The floating-point durations agree with the exact ones. *)
Definition check_adjusted (base_phases : list PhaseTemplate.t) (duration : Z)
    (m : Float64.float * Q) : bool :=
  match durations_for base_phases duration (fst m) with
  | Ok ds =>
    list_Z_eqb ds
      (List.map
         (fun t => Spec.adjusted_duration (PhaseTemplate.base_duration t)
                     duration (total_base_duration base_phases) (snd m))
         base_phases)
  | Raise _ => false
  end.

Definition check_all_adjusted : bool :=
  forallb
    (fun base_phases =>
       forallb
         (fun duration =>
            forallb (check_adjusted base_phases duration) multipliers)
         valid_durations)
    families.

(** The span of the plan for one family, one duration, one multiplier. *)
Definition span_for (base_phases : list PhaseTemplate.t) (duration : Z)
    (m : Float64.float) : result Z :=
  ds <- durations_for base_phases duration m ;;
  max_of (end_months ds 1).

Definition check_monotone (base_phases : list PhaseTemplate.t) (duration : Z)
    : bool :=
  match span_for base_phases duration Float64.lit_0_8,
        span_for base_phases duration Float64.lit_1_0,
        span_for base_phases duration Float64.lit_1_3,
        span_for base_phases duration Float64.lit_1_6 with
  | Ok s1, Ok s2, Ok s3, Ok s4 => (s1 <=? s2) && (s2 <=? s3) && (s3 <=? s4)
  | _, _, _, _ => false
  end.

Definition check_all_monotone : bool :=
  forallb
    (fun base_phases => forallb (check_monotone base_phases) valid_durations)
    families.

End Schedule.

(** ** Task customisation: two readings of the skipping rule *)

Module TaskSpec.

Import PyStr Planner.

(** Some task of the list contains [x], whatever the case of letters. *)
Definition in_some_task (x : string) (tasks : list string) : bool :=
  existsb (fun t => contains (lower x) (lower t)) tasks.

(** The text of the tasks, joined by single spaces, contains [x],
    whatever the case of letters. *)
Definition in_joined_text (x : string) (tasks : list string) : bool :=
  contains (lower x) (lower (join " " tasks)).

(** The task list in which a candidate is skipped exactly when some
    task of the current list contains it. *)
Definition append_unless_in_some_task (phrase : string -> string)
    (tasks : list string) (x : string) : list string :=
  if in_some_task x tasks then tasks else (tasks ++ [phrase x])%list.

Definition customize_per_task (base_tasks key_concepts frameworks : list string)
    : list string :=
  fold_left (append_unless_in_some_task integrate_task) (firstn 2 frameworks)
    (fold_left (append_unless_in_some_task implement_task)
               (firstn 3 key_concepts) base_tasks).

(** [appended phrase tasks xs result]: [result] is [tasks] after the
    candidates [xs] were gone through in order, each one skipped when
    the joined text of the current list contains it and appended, in
    its phrase, otherwise. *)
Inductive appended (phrase : string -> string)
    : list string -> list string -> list string -> Prop :=
| appended_done (tasks : list string) :
    appended phrase tasks [] tasks
| appended_skip (tasks : list string) (x : string) (xs result : list string) :
    in_joined_text x tasks = true ->
    appended phrase tasks xs result ->
    appended phrase tasks (x :: xs) result
| appended_add (tasks : list string) (x : string) (xs result : list string) :
    in_joined_text x tasks = false ->
    appended phrase (tasks ++ [phrase x]) xs result ->
    appended phrase tasks (x :: xs) result.

(** A phrase that wraps its argument in fixed text. *)
Definition wraps (phrase : string -> string) : Prop :=
  exists pre post, forall x, phrase x = pre ++ x ++ post.

End TaskSpec.

(** ** Identifiers of the diagrams *)

Module IdSpec.

Import PyStr.



End IdSpec.

(** ** A runtime and inputs to run the model on *)

Module Example.

(** Dates as day numbers, printed in decimal. *)
Definition datetime : Type := Z.
Definition now (k : nat) : datetime := 20000.
Definition isoformat (t : datetime) : string := PyStr.of_int t.
Definition strftime (t : datetime) (format : string) : string := PyStr.of_int t.
Definition add_days (t : datetime) (days : Z) : datetime := t + days.

(** A set iterated in the order of first insertion. *)
Definition list_of_set (l : list string) : list string :=
  rev (nodup string_dec (rev l)).

Definition analysis (domain complexity : string)
    (key_concepts frameworks : list string) : Analysis.t :=
  {| Analysis.title := Some "A paper";
     Analysis.authors := None;
     Analysis.abstract := None;
     Analysis.domain := Some domain;
     Analysis.research_type := None;
     Analysis.year := None;
     Analysis.complexity := Some complexity;
     Analysis.key_concepts := Some key_concepts;
     Analysis.methodologies := None;
     Analysis.technical_requirements :=
       Some (TechReq.mk None (Some frameworks) None None);
     Analysis.applications := None;
     Analysis.challenges := None;
     Analysis.future_work := None |}.

Definition vision_advanced : Analysis.t :=
  analysis "Computer Vision" "Advanced" [] [].

Definition settings (duration : Z) : Settings.t :=
  {| Settings.duration := Some duration;
     Settings.team_size := Some 6;
     Settings.complexity := Some "Advanced" |}.

Definition generate_plan : Analysis.t -> Settings.t -> result Plan.t :=
  Planner.generate_plan datetime now isoformat strftime add_days list_of_set
                        Planner.__init__.

(** Tasks that mention transformers, and an analysis that names the
    concept twice. *)
Definition transformer_tasks : list string :=
  ["Literature review"; "Fine-tune transformers on the corpus"].

Definition transformer_analysis : Analysis.t :=
  analysis "NLP" "Intermediate" ["Transformers"; "Transformers"; "Attention"] [].

(** The tasks of the NLP phase "Advanced Implementation", and an analysis
    whose one concept runs over the end of one task into the next. *)
Definition spanning_tasks : list string :=
  ["Neural network implementation"; "Advanced model training";
   "Optimization"; "Performance tuning"].

Definition spanning_analysis : Analysis.t :=
  analysis "NLP" "Intermediate" ["Model Training Optimization"] [].

(** A decoder that rejects every text, a service that replies in prose,
    and analyzers built with and without an API key. *)
Definition json_loads (s : string) : result Analysis.t := Raise JSONDecodeError.

Definition create (c : Analyzer.Together) (r : Analyzer.Request) : result string :=
  Ok "The paper studies attention.".

Definition analyzer : Analyzer.AIAnalyzer :=
  Analyzer.__init__ [("TOGETHER_API_KEY", "secret")].

Definition analyzer_without_key : Analyzer.AIAnalyzer := Analyzer.__init__ [].

End Example.

(** ** Drift of the plan span, and floats that are not positive *)

Module Drift.

Import Planner Schedule.

(** The multiplier of a complexity label, in tenths. *)
Definition tenths (label : string) : Z :=
  if String.eqb label "Beginner" then 8
  else if String.eqb label "Intermediate" then 10
  else if String.eqb label "Advanced" then 13
  else if String.eqb label "Expert" then 16
  else 10.

(** The multipliers as the float the code uses and their tenths. *)
Definition multipliers10 : list (Float64.float * Z) :=
  [ (Float64.lit_0_8, 8); (Float64.lit_1_0, 10);
    (Float64.lit_1_3, 13); (Float64.lit_1_6, 16) ]%list.

(** The span stays within two and a half months of duration times
    multiplier, and within one month of the duration for multiplier 1. *)
Definition check_drift (base_phases : list PhaseTemplate.t) (duration : Z)
    (m : Float64.float * Z) : bool :=
  match span_for base_phases duration (fst m) with
  | Ok span =>
    (Z.abs (10 * span - snd m * duration) <=? 25) &&
    (negb (snd m =? 10) || (Z.abs (span - duration) <=? 1))
  | Raise _ => false
  end.

Definition check_all_drift : bool :=
  forallb
    (fun base_phases =>
       forallb
         (fun duration => forallb (check_drift base_phases duration) multipliers10)
         valid_durations)
    families.

(** A float that is zero, negative or not a number. *)
Definition not_positive (x : Float64.float) : Prop :=
  match x with
  | S754_zero _ => True
  | S754_nan => True
  | S754_infinity s => s = true
  | S754_finite s _ _ => s = true
  end.

(** A float that carries the sign [s], or is not a number. *)
Definition signed (s : bool) (x : Float64.float) : Prop :=
  match x with
  | S754_zero s' => s' = s
  | S754_nan => True
  | S754_infinity s' => s' = s
  | S754_finite s' _ _ => s' = s
  end.

(** The three frameworks of the stack for a domain, before those of the
    analysis are added. *)
Definition baseline_frameworks (domain : string) : list string :=
  if PyStr.contains "NLP" (PyStr.upper domain)
  then ["TensorFlow"; "PyTorch"; "Transformers (Hugging Face)"]
  else ["Scikit-learn"; "TensorFlow"; "PyTorch"].

(** The iteration of a set built from a list: each member once. *)
Definition set_semantics (list_of_set : list string -> list string) : Prop :=
  forall l, NoDup (list_of_set l) /\ forall x, In x (list_of_set l) <-> In x l.

End Drift.

(* ================================================================== *)
(** ** pdf_processor.py *)

Module PdfProcessor.

Import PyStr.

Definition nl : string := Visualization.nl.

(** [c.isspace()], which is also the class [\s] of [re], on ASCII: the
    codes 9 to 13, 28 to 31 and the space. *)
Definition is_space (c : ascii) : bool :=
  let n := nat_of_ascii c in
  ((9 <=? n)%nat && (n <=? 13)%nat) || ((28 <=? n)%nat && (n <=? 32)%nat).

(** [s.lstrip()], [s.rstrip()] and [s.strip()]. *)
Fixpoint lstrip (s : string) : string :=
  match s with
  | EmptyString => EmptyString
  | String c s' => if is_space c then lstrip s' else s
  end.

Fixpoint rstrip (s : string) : string :=
  match s with
  | EmptyString => EmptyString
  | String c s' =>
    match rstrip s' with
    | EmptyString => if is_space c then EmptyString else String c EmptyString
    | r => String c r
    end
  end.

Definition strip (s : string) : string := rstrip (lstrip s).

(** [s.split(sep)] for a one-character separator. *)
Fixpoint split (sep : ascii) (s : string) : list string :=
  match s with
  | EmptyString => [EmptyString]
  | String c s' =>
    if Ascii.eqb c sep then EmptyString :: split sep s'
    else
      match split sep s' with
      | h :: t => String c h :: t
      | [] => [String c EmptyString]
      end
  end.

(** [re.sub(r'\s+', ' ', s)]: [in_run] tells that the character before
    was white space, already replaced. *)
Fixpoint collapse (in_run : bool) (s : string) : string :=
  match s with
  | EmptyString => EmptyString
  | String c s' =>
    if is_space c then
      if in_run then collapse true s' else String " " (collapse true s')
    else String c (collapse false s')
  end.

Definition re_sub_spaces (s : string) : string := collapse false s.

Definition _clean_text (text : string) : string :=
  match text with
  | EmptyString => ""
  | _ =>
    let lines := split "010" text in
    let cleaned_lines :=
      filter (fun line => negb (String.eqb line ""))
             (List.map strip lines) in
    let cleaned_text := join " " cleaned_lines in
    let cleaned_text := re_sub_spaces cleaned_text in
    strip cleaned_text
  end.

(** A PDF file as a library shows it: opening it raises or gives its
    pages, and [extract_text()] on a page raises or gives its text,
    which may be [None]. *)
Definition Pdf : Type := result (list (result (option string))).

(** The loop over the pages inside the [try]: an exception ends it, and
    the text gathered so far is what the function returns. *)
Fixpoint pages_loop (pages : list (result (option string))) (text : string)
    : string :=
  match pages with
  | [] => text
  | Ok (Some page_text) :: rest =>
    pages_loop rest
      (if String.eqb page_text "" then text else text ++ page_text ++ nl)
  | Ok None :: rest => pages_loop rest text
  | Raise _ :: _ => text
  end.

Definition extract_pages (pdf : Pdf) : string :=
  match pdf with
  | Ok pages => pages_loop pages ""
  | Raise _ => ""
  end.

(** What the two libraries make of the file at a path. *)
Section Runtime.

Variable pdfplumber_open : string -> Pdf.
Variable pypdf2_reader : string -> Pdf.

Definition _extract_with_pdfplumber (file_path : string) : string :=
  extract_pages (pdfplumber_open file_path).

Definition _extract_with_pypdf2 (file_path : string) : string :=
  extract_pages (pypdf2_reader file_path).

Definition extract_text (file_path : string) : string :=
  let text := _extract_with_pdfplumber file_path in
  let text :=
    if len (strip text) <? 100 then _extract_with_pypdf2 file_path else text in
  _clean_text text.

End Runtime.

End PdfProcessor.

(** ** Clean text *)

Module CleanSpec.

Import PyStr PdfProcessor.

(** The first character is not white space. *)
Definition starts_with_text (s : string) : bool :=
  match s with
  | EmptyString => true
  | String c _ => negb (is_space c)
  end.

(** Every white-space character is a space, and the character after it,
    if there is one, is not white space. *)
Fixpoint spaced (s : string) : bool :=
  match s with
  | EmptyString => true
  | String c s' =>
    (if is_space c then Ascii.eqb c " " && starts_with_text s' else true)
    && spaced s'
  end.

(** Every white-space character is a space followed by a character that
    is not white space. *)
Fixpoint well_spaced (s : string) : bool :=
  match s with
  | EmptyString => true
  | String c s' =>
    (if is_space c
     then Ascii.eqb c " " &&
          match s' with
          | EmptyString => false
          | String c' _ => negb (is_space c')
          end
     else true)
    && well_spaced s'
  end.

(** Words separated by single spaces: no white space at either end, no
    white space but the space, no two spaces in a row. *)
Definition normalised (s : string) : bool :=
  starts_with_text s && well_spaced s.

(** The characters that are not white space, in order. *)
Definition ink (s : string) : list ascii :=
  filter (fun c => negb (is_space c)) (chars s).

End CleanSpec.

(* ================================================================== *)
(** ** visualization_generator.py: the other diagrams *)

Module Diagrams.

Import PyStr Visualization.

(** [range(n)]. *)
Definition range (n : nat) : list Z := List.map Z.of_nat (seq 0 n).

(** The loop [for i, phase in enumerate(phases)] of the workflow
    diagram; [n] is [len(phases)]. *)
Fixpoint workflow_loop (n i : Z) (phases : list PhaseView.t) (workflow : string)
    : string :=
  match phases with
  | [] => workflow
  | phase :: rest =>
    let phase_id := "Phase" ++ of_int (i + 1) in
    let phase_name := get (PhaseView.name phase) ("Phase " ++ of_int (i + 1)) in
    let workflow :=
      workflow ++ "    " ++ phase_id ++ "[" ++ dq ++ phase_name ++ dq ++ "] --> " in
    let workflow :=
      if i <? n - 1 then
        let next_phase_id := "Phase" ++ of_int (i + 2) in
        workflow ++ next_phase_id ++ nl
      else workflow ++ "End([Project Complete])" ++ nl in
    let workflow :=
      if i =? n / 2 then
        let decision_id := "Decision" ++ of_int (i + 1) in
        let workflow :=
          workflow ++ "    " ++ phase_id ++ " --> " ++ decision_id
                   ++ "{Quality Check}" ++ nl in
        let workflow :=
          workflow ++ "    " ++ decision_id ++ " -->|Pass| Phase"
                   ++ of_int (i + 2) ++ nl in
        workflow ++ "    " ++ decision_id ++ " -->|Fail| " ++ phase_id ++ nl
      else workflow in
    workflow_loop n (i + 1) rest workflow
  end.

Definition _generate_workflow_diagram (project_plan : PlanView.t) : string :=
  let phases := get (PlanView.phases project_plan) [] in
  let workflow :=
    "flowchart TD" ++ nl ++
    "    Start([Project Start]) --> Phase1" ++ nl ++
    "    " ++ nl in
  let workflow :=
    workflow_loop (Z.of_nat (List.length phases)) 0 phases workflow in
  let workflow :=
    workflow ++ nl ++
    "    classDef phaseBox fill:#e1f5fe,stroke:#0277bd,stroke-width:2px" ++ nl ++
    "    classDef decision fill:#fff3e0,stroke:#ef6c00,stroke-width:2px" ++ nl ++
    "    classDef endpoint fill:#e8f5e8,stroke:#2e7d32,stroke-width:2px" ++ nl ++
    "    " ++ nl in
  let workflow :=
    fold_left
      (fun workflow i =>
         workflow ++ "    class Phase" ++ of_int (i + 1) ++ " phaseBox" ++ nl)
      (range (List.length phases)) workflow in
  workflow ++ "    class Start,End endpoint" ++ nl.

(** The loop [for i, phase in enumerate(phases)] of the phase flowchart. *)
Fixpoint flowchart_loop (i : Z) (phases : list PhaseView.t) (flowchart : string)
    : string :=
  match phases with
  | [] => flowchart
  | phase :: rest =>
    let phase_id := "P" ++ of_int (i + 1) in
    let phase_name := get (PhaseView.name phase) ("Phase " ++ of_int (i + 1)) in
    flowchart_loop (i + 1) rest
      (flowchart ++
       "        " ++ nl ++
       "        subgraph " ++ dq ++ phase_name ++ dq ++ nl ++
       "            " ++ phase_id ++ "_Start([Begin]) --> " ++ phase_id
                      ++ "_Plan[Planning]" ++ nl ++
       "            " ++ phase_id ++ "_Plan --> " ++ phase_id
                      ++ "_Exec[Execution]" ++ nl ++
       "            " ++ phase_id ++ "_Exec --> " ++ phase_id
                      ++ "_Review[Review]" ++ nl ++
       "            " ++ phase_id ++ "_Review --> " ++ phase_id
                      ++ "_End([Complete])" ++ nl ++
       "        end" ++ nl)
  end.

Definition _generate_phase_flowchart (project_plan : PlanView.t) : string :=
  let phases := get (PlanView.phases project_plan) [] in
  let flowchart :=
    "flowchart LR" ++ nl ++
    "    subgraph " ++ dq ++ "Project Implementation Flow" ++ dq ++ nl ++
    "        Start([Start])" ++ nl in
  let flowchart := flowchart_loop 0 phases flowchart in
  let flowchart := flowchart ++ nl ++ "        Start --> P1_Start" ++ nl in
  let flowchart :=
    fold_left
      (fun flowchart i =>
         flowchart ++ "        P" ++ of_int (i + 1) ++ "_End --> P"
                   ++ of_int (i + 2) ++ "_Start" ++ nl)
      (range (List.length phases - 1)) flowchart in
  let flowchart :=
    flowchart ++ "        P" ++ of_int (Z.of_nat (List.length phases))
              ++ "_End --> Finish([Project Complete])" ++ nl in
  flowchart ++ "    end".

Definition generate_diagrams (project_plan : PlanView.t) : dict string :=
  let diagrams := [] in
  let diagrams :=
    dict_set diagrams "gantt_chart.md" (_generate_gantt_chart project_plan) in
  let diagrams :=
    dict_set diagrams "workflow_diagram.md"
             (_generate_workflow_diagram project_plan) in
  let diagrams :=
    dict_set diagrams "architecture_diagram.md"
             (_generate_architecture_diagram project_plan) in
  let diagrams :=
    dict_set diagrams "phase_flowchart.md"
             (_generate_phase_flowchart project_plan) in
  diagrams.

(** The edge drawn from the decision node when the check passes, for a
    plan of [n] phases. *)
Definition pass_edge (n : Z) : string :=
  "    Decision" ++ of_int (n / 2 + 1) ++ " -->|Pass| Phase"
  ++ of_int (n / 2 + 2) ++ nl.

End Diagrams.

(* ================================================================== *)
(** ** app.py: the pipeline of [ResearchAnalyzerApp.analyze_paper] *)

Module App.

(** The application object: the analyzer and the planner it was built
    with (the PDF processor and the diagram generator hold no state). *)
Record ResearchAnalyzerApp : Type := {
  ai_analyzer : Analyzer.AIAnalyzer;
  project_planner : Planner.ProjectPlanner
}.

(** How a run of [analyze_paper] ends: with the error shown for a file
    without text, with the error shown by the [except] branch, or with
    the three results stored in the session state. *)
Inductive Outcome : Type :=
| NoText
| Failed (e : exn)
| Complete (paper_analysis : Analysis.t) (project_plan : Plan.t)
           (diagrams : dict string).

Section Runtime.

Variable pdfplumber_open : string -> PdfProcessor.Pdf.
Variable pypdf2_reader : string -> PdfProcessor.Pdf.
Variable json_loads : string -> result Analysis.t.
Variable create : Analyzer.Together -> Analyzer.Request -> result string.
Variable datetime : Type.
Variable now : nat -> datetime.
Variable isoformat : datetime -> string.
Variable strftime : datetime -> string -> string.
Variable add_days : datetime -> Z -> datetime.
Variable list_of_set : list string -> list string.

(** [analyze_paper(file_path, filename)] with the settings of the session
    state; the second component lists the requests sent to the service. *)
Definition analyze_paper (self : ResearchAnalyzerApp) (file_path : string)
    (project_settings : Settings.t) : Outcome * list Analyzer.Request :=
  let extracted_text :=
    PdfProcessor.extract_text pdfplumber_open pypdf2_reader file_path in
  if String.eqb (PdfProcessor.strip extracted_text) "" then (NoText, [])
  else
    match Analyzer.analyze_paper json_loads create (ai_analyzer self)
                                 extracted_text with
    | (Raise e, requests) => (Failed e, requests)
    | (Ok paper_analysis, requests) =>
      match Planner.generate_plan datetime now isoformat strftime add_days
                                  list_of_set (project_planner self)
                                  paper_analysis project_settings with
      | Raise e => (Failed e, requests)
      | Ok project_plan =>
        let diagrams :=
          Diagrams.generate_diagrams (Visualization.view_of_plan project_plan) in
        (Complete paper_analysis project_plan diagrams, requests)
      end
    end.

End Runtime.

End App.

(** ** A file, two libraries and an application to run the pipeline on *)

Module PipelineExample.

Definition pdfplumber_open (file_path : string) : PdfProcessor.Pdf :=
  Ok [ Ok (Some "Attention  is all"); Ok None; Ok (Some "you need.") ]%list.

Definition pypdf2_reader (file_path : string) : PdfProcessor.Pdf :=
  Ok [ Ok (Some "Attention is all you need.") ]%list.

Definition app : App.ResearchAnalyzerApp :=
  {| App.ai_analyzer := Example.analyzer;
     App.project_planner := Planner.__init__ |}.

Definition app_without_key : App.ResearchAnalyzerApp :=
  {| App.ai_analyzer := Example.analyzer_without_key;
     App.project_planner := Planner.__init__ |}.

Definition run (pypdf2 : string -> PdfProcessor.Pdf)
    : App.ResearchAnalyzerApp -> string -> Settings.t ->
      App.Outcome * list Analyzer.Request :=
  App.analyze_paper pdfplumber_open pypdf2 Example.json_loads Example.create
                    Example.datetime Example.now Example.isoformat
                    Example.strftime Example.add_days Example.list_of_set.

Definition two_phases : Visualization.PlanView.t :=
  Visualization.PlanView.mk
    (Some [ Visualization.PhaseView.mk (Some "Build") (Some 1) (Some 3) None;
            Visualization.PhaseView.mk (Some "Ship") (Some 4) (Some 5) None ]%list)
    None.

End PipelineExample.

(** ** The sub-task bars of the Gantt chart *)

Module GanttSpec.

Import PyStr Visualization.

(** [max(1, duration // len(tasks))]. *)
Definition task_duration (duration n : Z) : Z := Z.max 1 (duration / n).

(** The bars drawn for the tasks from index [j] on: label, first month
    and length. *)
Fixpoint task_bars (start_month duration n j : Z) (tasks : list string)
    : list (string * Z * Z) :=
  match tasks with
  | [] => []
  | task :: rest =>
    (gantt_task_name task,
     start_month + j * task_duration duration n,
     task_duration duration n)
    :: task_bars start_month duration n (j + 1) rest
  end.

(** The lines of the chart for bars numbered from [j] on, in phase [i]. *)
Fixpoint render_bars (i j : Z) (bars : list (string * Z * Z)) : string :=
  match bars with
  | [] => ""
  | (name, start, length) :: rest =>
    "    " ++ name ++ " :a" ++ of_int (i + 1) ++ "_" ++ of_int (j + 1) ++ ", "
           ++ of_int start ++ ", " ++ of_int length ++ nl
           ++ render_bars i (j + 1) rest
  end.

End GanttSpec.

(* ================================================================== *)
(** ** The planner among the list objects of the interpreter

    [Planner] reads every list as a value.  Here the lists that outlive
    a call are objects in a store, read and written through references:
    the [core_tasks] lists of the templates, built once by [__init__];
    the lists of the analysis; and the task lists of the plans returned.
    The statements of [project_planner.py] that change an object in place
    are [append], [extend] and item assignment; their receivers are the
    copy made in [_customize_phase_tasks], which is modelled in the store,
    and lists and dictionaries that the same call has built from a
    display ([phases], [deliverables], [criteria], [stack], [resources],
    [base_risks], [metrics], [timeline]) and that are reachable from its
    plan alone, which stay values.  No statement assigns to an attribute
    of [self] or to an item of a template or of the analysis. *)

Module Heap.

Definition ref : Type := nat.

(** The list objects, by address. *)
Definition t : Type := list (list string).

Definition read (h : t) (r : ref) : list string := nth r h [].

(** A new object, at the first free address. *)
Definition alloc (h : t) (l : list string) : ref * t :=
  (List.length h, (h ++ [l])%list).

Fixpoint write (h : t) (r : ref) (l : list string) : t :=
  match h with
  | [] => []
  | x :: h' =>
    match r with
    | O => l :: h'
    | S r' => x :: write h' r' l
    end
  end.

(** The reference points to an object of the store. *)
Definition valid (h : t) (r : ref) : bool := (r <? List.length h)%nat.

Definition valid_opt (h : t) (o : option ref) : bool :=
  match o with
  | Some r => valid h r
  | None => true
  end.

Definition read_opt (h : t) (o : option ref) : option (list string) :=
  option_map (read h) o.

End Heap.

(** The state of the running interpreter that the planner can reach: the
    list objects, and the secret of the string hash, drawn when the
    interpreter starts, on which the iteration order of a set of strings
    depends.  A command returns or raises, and leaves a state. *)
Module Proc.

Record t : Type := mk { heap : Heap.t; hash_secret : Z }.

Definition M (A : Type) : Type := t -> result A * t.

Definition ret {A : Type} (a : A) : M A := fun st => (Ok a, st).

Definition lift {A : Type} (r : result A) : M A := fun st => (r, st).

Definition bind {A B : Type} (m : M A) (k : A -> M B) : M B :=
  fun st =>
    match m st with
    | (Ok a, st') => k a st'
    | (Raise e, st') => (Raise e, st')
    end.

(** A list display [[x, y, ...]]: a new object. *)
Definition new_list (l : list string) : M Heap.ref :=
  fun st =>
    let (r, h) := Heap.alloc (heap st) l in
    (Ok r, mk h (hash_secret st)).

(** The items a list has now. *)
Definition items (r : Heap.ref) : M (list string) :=
  fun st => (Ok (Heap.read (heap st) r), st).

(** [l.copy()]. *)
Definition copy (r : Heap.ref) : M Heap.ref :=
  bind (items r) new_list.

(** [l.append(x)]: the object is changed in place. *)
Definition append (r : Heap.ref) (x : string) : M unit :=
  fun st =>
    (Ok tt,
     mk (Heap.write (heap st) r (Heap.read (heap st) r ++ [x])%list)
        (hash_secret st)).

Definition secret : M Z := fun st => (Ok (hash_secret st), st).

(** [for x in xs: body]. *)
Fixpoint for_each (xs : list string) (body : string -> M unit) : M unit :=
  match xs with
  | [] => ret tt
  | x :: rest => bind (body x) (fun _ => for_each rest body)
  end.

End Proc.

Notation "x <~ c1 ;; c2" := (Proc.bind c1 (fun x => c2))
  (at level 61, c1 at next level, right associativity).

(** The analysis dictionary with its lists as objects. *)
Module TechReqObj.
Record t : Type := mk {
  programming_languages : option Heap.ref;
  frameworks : option Heap.ref;
  hardware : option Heap.ref;
  datasets : option Heap.ref
}.
Definition empty : t := mk None None None None.
Definition valid (h : Heap.t) (r : t) : bool :=
  Heap.valid_opt h (programming_languages r) && Heap.valid_opt h (frameworks r)
  && Heap.valid_opt h (hardware r) && Heap.valid_opt h (datasets r).
(** The dictionary as the store shows it. *)
Definition snapshot (h : Heap.t) (r : t) : TechReq.t :=
  TechReq.mk (Heap.read_opt h (programming_languages r))
             (Heap.read_opt h (frameworks r))
             (Heap.read_opt h (hardware r))
             (Heap.read_opt h (datasets r)).
End TechReqObj.

Module AnalysisObj.
Record t : Type := mk {
  title : option string;
  authors : option string;
  abstract : option string;
  domain : option string;
  research_type : option string;
  year : option string;
  complexity : option string;
  key_concepts : option Heap.ref;
  methodologies : option Heap.ref;
  technical_requirements : option TechReqObj.t;
  applications : option Heap.ref;
  challenges : option Heap.ref;
  future_work : option Heap.ref
}.
Definition valid (h : Heap.t) (a : t) : bool :=
  Heap.valid_opt h (key_concepts a) && Heap.valid_opt h (methodologies a)
  && match technical_requirements a with
     | Some r => TechReqObj.valid h r
     | None => true
     end
  && Heap.valid_opt h (applications a) && Heap.valid_opt h (challenges a)
  && Heap.valid_opt h (future_work a).
(** The dictionary as the store shows it. *)
Definition snapshot (h : Heap.t) (a : t) : Analysis.t :=
  Analysis.mk (title a) (authors a) (abstract a) (domain a) (research_type a)
              (year a) (complexity a)
              (Heap.read_opt h (key_concepts a))
              (Heap.read_opt h (methodologies a))
              (option_map (TechReqObj.snapshot h) (technical_requirements a))
              (Heap.read_opt h (applications a))
              (Heap.read_opt h (challenges a))
              (Heap.read_opt h (future_work a)).
End AnalysisObj.

Module PhaseTemplateObj.
Record t : Type := mk {
  name : string;
  base_duration : Z;
  objectives : string;
  core_tasks : Heap.ref
}.
Definition valid (h : Heap.t) (p : t) : bool := Heap.valid h (core_tasks p).
Definition view (h : Heap.t) (p : t) : PhaseTemplate.t :=
  PhaseTemplate.mk (name p) (base_duration p) (objectives p)
                   (Heap.read h (core_tasks p)).
End PhaseTemplateObj.

Module PhaseObj.
Record t : Type := mk {
  name : string;
  duration : string;
  start_month : Z;
  end_month : Z;
  objectives : string;
  tasks : Heap.ref;
  deliverables : list string;
  success_criteria : list string
}.
Definition valid (h : Heap.t) (p : t) : bool := Heap.valid h (tasks p).
Definition view (h : Heap.t) (p : t) : Phase.t :=
  Phase.mk (name p) (duration p) (start_month p) (end_month p) (objectives p)
           (Heap.read h (tasks p)) (deliverables p) (success_criteria p).
End PhaseObj.

Module PlanObj.
Record t : Type := mk {
  project_overview : Overview.t;
  phases : list PhaseObj.t;
  technical_stack : dict (list string);
  architecture : dict string;
  resources : dict string;
  risks : list Risk.t;
  success_metrics : dict (list string);
  timeline : Timeline.t
}.
Definition valid (h : Heap.t) (p : t) : bool :=
  forallb (PhaseObj.valid h) (phases p).
Definition view (h : Heap.t) (p : t) : Plan.t :=
  Plan.mk (project_overview p) (List.map (PhaseObj.view h) (phases p))
          (technical_stack p) (architecture p) (resources p) (risks p)
          (success_metrics p) (timeline p).
End PlanObj.

Module PlannerObj.

Import PyStr Proc.

(** The planner object: its templates refer to their task lists. *)
Record ProjectPlanner : Type := {
  phase_templates : dict (list PhaseTemplateObj.t)
}.

Definition valid (h : Heap.t) (self : ProjectPlanner) : bool :=
  forallb (fun entry => forallb (PhaseTemplateObj.valid h) (snd entry))
          (phase_templates self).

(** The planner as the store shows it. *)
Definition view (h : Heap.t) (self : ProjectPlanner) : Planner.ProjectPlanner :=
  {| Planner.phase_templates :=
       List.map (fun entry =>
                   (fst entry, List.map (PhaseTemplateObj.view h) (snd entry)))
                (phase_templates self) |}.

(** The displays of [_load_phase_templates], evaluated in order: each
    [core_tasks] display makes a new list object. *)
Fixpoint new_phases (templates : list PhaseTemplate.t)
    : M (list PhaseTemplateObj.t) :=
  match templates with
  | [] => ret []
  | p :: rest =>
    core_tasks <~ new_list (PhaseTemplate.core_tasks p) ;;
    rest' <~ new_phases rest ;;
    ret (PhaseTemplateObj.mk (PhaseTemplate.name p)
                             (PhaseTemplate.base_duration p)
                             (PhaseTemplate.objectives p) core_tasks :: rest')
  end.

Fixpoint new_templates (table : dict (list PhaseTemplate.t))
    : M (dict (list PhaseTemplateObj.t)) :=
  match table with
  | [] => ret []
  | (key, templates) :: rest =>
    templates' <~ new_phases templates ;;
    rest' <~ new_templates rest ;;
    ret ((key, templates') :: rest')
  end.

Definition _load_phase_templates : M (dict (list PhaseTemplateObj.t)) :=
  new_templates Planner._load_phase_templates.

(** [ProjectPlanner()]. *)
Definition __init__ : M ProjectPlanner :=
  templates <~ _load_phase_templates ;;
  ret {| phase_templates := templates |}.

(** [if x.lower() not in ' '.join(customized_tasks).lower():
    customized_tasks.append(phrase(x))], on the list object. *)
Definition append_unless_present (phrase : string -> string)
    (customized_tasks : Heap.ref) (x : string) : M unit :=
  tasks <~ items customized_tasks ;;
  if negb (contains (lower x) (lower (join " " tasks)))
  then append customized_tasks (phrase x)
  else ret tt.

(** [analysis.get(key, [])[:n]]: the first [n] items the list has now. *)
Definition slice (n : nat) (l : option Heap.ref) : M (list string) :=
  match l with
  | Some r => l <~ items r ;; ret (firstn n l)
  | None => ret []
  end.

Definition _customize_phase_tasks (base_tasks : Heap.ref)
    (analysis : AnalysisObj.t) (phase_name : string) : M Heap.ref :=
  customized_tasks <~ copy base_tasks ;;
  let key_concepts := AnalysisObj.key_concepts analysis in
  let tech_requirements :=
    get (AnalysisObj.technical_requirements analysis) TechReqObj.empty in
  concepts <~ slice 3 key_concepts ;;
  _ <~ for_each concepts
         (append_unless_present Planner.implement_task customized_tasks) ;;
  let frameworks := TechReqObj.frameworks tech_requirements in
  top <~ slice 2 frameworks ;;
  _ <~ for_each top
         (append_unless_present Planner.integrate_task customized_tasks) ;;
  ret customized_tasks.

(** The analysis as it is when a function that only reads it is called. *)
Definition snapshot (analysis : AnalysisObj.t) : M Analysis.t :=
  fun st => (Ok (AnalysisObj.snapshot (heap st) analysis), st).

(** The phase dictionaries as they are when a function that only reads
    them is called. *)
Definition phase_views (phases : list PhaseObj.t) : M (list Phase.t) :=
  fun st => (Ok (List.map (PhaseObj.view (heap st)) phases), st).

Fixpoint phases_loop (analysis : AnalysisObj.t)
    (duration_multiplier complexity_multiplier : Float64.float)
    (base_phases : list PhaseTemplateObj.t)
    (phases : list PhaseObj.t) (current_month : Z) : M (list PhaseObj.t) :=
  match base_phases with
  | [] => ret phases
  | phase_template :: rest =>
    adjusted_duration <~
      lift (Planner.adjusted_duration_of
              (PhaseTemplateObj.base_duration phase_template)
              duration_multiplier complexity_multiplier) ;;
    customized_tasks <~
      _customize_phase_tasks (PhaseTemplateObj.core_tasks phase_template)
                             analysis (PhaseTemplateObj.name phase_template) ;;
    a <~ snapshot analysis ;;
    let phase :=
      {| PhaseObj.name := PhaseTemplateObj.name phase_template;
         PhaseObj.duration := of_int adjusted_duration ++ " months";
         PhaseObj.start_month := current_month;
         PhaseObj.end_month := current_month + adjusted_duration - 1;
         PhaseObj.objectives := PhaseTemplateObj.objectives phase_template;
         PhaseObj.tasks := customized_tasks;
         PhaseObj.deliverables :=
           Planner._generate_phase_deliverables
             (PhaseTemplateObj.name phase_template) a;
         PhaseObj.success_criteria :=
           Planner._generate_success_criteria
             (PhaseTemplateObj.name phase_template) a |} in
    phases_loop analysis duration_multiplier complexity_multiplier rest
                (phases ++ [phase])%list (current_month + adjusted_duration)
  end.

Definition _generate_phases (self : ProjectPlanner) (analysis : AnalysisObj.t)
    (duration : Z) (complexity : string) : M (list PhaseObj.t) :=
  let domain := get (AnalysisObj.domain analysis) "Machine Learning" in
  let template_key := Planner.template_key_of domain in
  fallback <~ lift (dict_item (phase_templates self) "Machine Learning") ;;
  let base_phases := get (dict_get (phase_templates self) template_key) fallback in
  let complexity_multiplier :=
    get (dict_get Planner.complexity_table complexity) Float64.lit_1_0 in
  let total_base_duration :=
    Planner.sum (List.map PhaseTemplateObj.base_duration base_phases) in
  duration_multiplier <~ lift (Float64.truediv duration total_base_duration) ;;
  phases_loop analysis duration_multiplier complexity_multiplier
              base_phases [] 1.

(** The clock and the dates as in [Planner]; [list_of_set secret] is the
    order in which an interpreter started with this hash secret iterates
    a set of strings built from a list. *)
Section Runtime.

Variable datetime : Type.
Variable now : nat -> datetime.
Variable isoformat : datetime -> string.
Variable strftime : datetime -> string -> string.
Variable add_days : datetime -> Z -> datetime.
Variable list_of_set : Z -> list string -> list string.

Definition generate_plan (self : ProjectPlanner)
    (paper_analysis : AnalysisObj.t) (project_settings : Settings.t)
    : M PlanObj.t :=
  let domain := get (AnalysisObj.domain paper_analysis) "Computer Science" in
  let complexity := get (AnalysisObj.complexity paper_analysis) "Intermediate" in
  let duration := get (Settings.duration project_settings) 20 in
  let team_size := get (Settings.team_size project_settings) 5 in
  phases <~ _generate_phases self paper_analysis duration complexity ;;
  a <~ snapshot paper_analysis ;;
  hash_secret <~ secret ;;
  tech_stack <~ lift (Planner._generate_tech_stack (list_of_set hash_secret) a) ;;
  let architecture := Planner._generate_architecture a in
  let resources := Planner._generate_resource_requirements a team_size in
  let risks := Planner._generate_risks a complexity in
  let metrics := Planner._generate_success_metrics a in
  let project_overview :=
    {| Overview.title :=
         get (AnalysisObj.title paper_analysis) "Research Implementation"
         ++ " - Project Plan";
       Overview.domain := domain;
       Overview.complexity := complexity;
       Overview.estimated_duration := of_int duration ++ " months";
       Overview.team_size := team_size;
       Overview.generated_date := isoformat (now 0%nat) |} in
  shown <~ phase_views phases ;;
  timeline <~
    lift (Planner._generate_timeline datetime now strftime add_days 1%nat shown) ;;
  ret {| PlanObj.project_overview := project_overview;
         PlanObj.phases := phases;
         PlanObj.technical_stack := tech_stack;
         PlanObj.architecture := architecture;
         PlanObj.resources := resources;
         PlanObj.risks := risks;
         PlanObj.success_metrics := metrics;
         PlanObj.timeline := timeline |}.

End Runtime.

(** A command that ends in [out] from the state [st] does what the
    function on values does on the views of its arguments: it returns
    an object whose view is the value, or raises the same exception, and
    leaves every object of [st] as it was, adding new ones only. *)
Definition refines {A B : Type} (view : Heap.t -> A -> B)
    (valid : Heap.t -> A -> bool) (st : Proc.t) (out : result A * Proc.t)
    (value : result B) : Prop :=
  exists new : Heap.t,
    snd out = mk (heap st ++ new)%list (hash_secret st) /\
    match value with
    | Ok b =>
      exists a, fst out = Ok a /\
                view (heap st ++ new)%list a = b /\
                valid (heap st ++ new)%list a = true
    | Raise e => fst out = Raise e
    end.

(** After [st'] the planner and the analysis show what they showed in
    [st], and the hash secret is the same. *)
Definition same_objects (self : ProjectPlanner) (a : AnalysisObj.t)
    (st st' : Proc.t) : Prop :=
  view (heap st') self = view (heap st) self /\
  AnalysisObj.snapshot (heap st') a = AnalysisObj.snapshot (heap st) a /\
  hash_secret st' = hash_secret st.

(** Two stacks with the same keys in the same order, and the same lists
    but for the order of [ml_frameworks]. *)
Definition same_but_order (stack stack' : dict (list string)) : Prop :=
  Forall2
    (fun entry entry' =>
       fst entry = fst entry' /\
       if String.eqb (fst entry) "ml_frameworks"
       then Permutation (snd entry) (snd entry')
       else snd entry = snd entry')
    stack stack'.

End PlannerObj.

(** ** An interpreter in which a planner and an analysis are built *)

Module ProcessExample.

Import Proc PlannerObj.

(** [ProjectPlanner()], then an analysis dictionary with two lists. *)
Definition setup : M (ProjectPlanner * AnalysisObj.t) :=
  self <~ __init__ ;;
  key_concepts <~ new_list ["Transformers"; "Attention"] ;;
  frameworks <~ new_list ["PyTorch"; "JAX"] ;;
  ret (self,
       AnalysisObj.mk (Some "A paper") None None (Some "NLP") None None
                      (Some "Expert") (Some key_concepts) None
                      (Some (TechReqObj.mk None (Some frameworks) None None))
                      None None None).

(** Sets iterated in the order of first insertion when the secret is
    even, and in the reverse order when it is odd. *)
Definition list_of_set (secret : Z) (l : list string) : list string :=
  if Z.even secret then Example.list_of_set l else rev (Example.list_of_set l).

Definition generate_plan (now : nat -> Example.datetime)
    : ProjectPlanner -> AnalysisObj.t -> Settings.t -> M PlanObj.t :=
  PlannerObj.generate_plan Example.datetime now Example.isoformat
                           Example.strftime Example.add_days list_of_set.

End ProcessExample.

(** ** A reply that the decoder cannot take *)

Module DeepReply.

Import PyStr.

(** [n] opening square brackets. *)
Fixpoint brackets (n : nat) : string :=
  match n with
  | O => ""
  | S n' => "[" ++ brackets n'
  end.

(** A reply whose one object opens 2000 arrays, one inside the other. *)
Definition reply : string :=
  "{" ++ Analyzer.dq ++ "a" ++ Analyzer.dq ++ ":"
      ++ brackets (Z.to_nat 2000) ++ "}".

(** The deepest nesting of square brackets in a text; [level] is the
    nesting reached so far. *)
Fixpoint nesting (s : string) (level deepest : Z) : Z :=
  match s with
  | EmptyString => deepest
  | String c s' =>
    if Ascii.eqb c "[" then nesting s' (level + 1) (Z.max deepest (level + 1))
    else if Ascii.eqb c "]" then nesting s' (level - 1) deepest
    else nesting s' level deepest
  end.

(** What [json.loads] does with the texts of this module: on arrays
    nested deeper than the recursion limit of the interpreter (1000
    frames unless it is changed) it raises [RecursionError], which is an
    [Exception] and not a [JSONDecodeError]; the other texts here are not
    JSON, and it raises [JSONDecodeError] on them. *)
Definition json_loads (s : string) : result Analysis.t :=
  if 1000 <? nesting s 0 0
  then Raise (Exception "maximum recursion depth exceeded")
  else Raise JSONDecodeError.

Definition create (c : Analyzer.Together) (r : Analyzer.Request)
    : result string :=
  Ok reply.

End DeepReply.

(** ** Text in ASCII *)

Module Text.

(** [s.isascii()]. *)
Definition isascii (s : string) : bool :=
  forallb (fun c => (nat_of_ascii c <? 128)%nat) (PyStr.chars s).

End Text.

(* ================================================================== *)
(** * Properties *)

(** ** Strings: substring search, case mapping, joining *)

Section StringFacts.

Import PyStr.

Lemma append_empty_r (s : string) : s ++ "" = s.
Proof. induction s as [|c s IH]; simpl; [reflexivity | now rewrite IH]. Qed.

Lemma append_assoc (a b c : string) : (a ++ b) ++ c = a ++ (b ++ c).
Proof. induction a as [|x a IH]; simpl; [reflexivity | now rewrite IH]. Qed.

Lemma prefix_iff (n h : string) :
  prefix n h = true <-> exists post, h = n ++ post.
Proof.
  revert h; induction n as [|a n IH]; intros h.
  - destruct h; simpl; split; intros _; try reflexivity; eexists; reflexivity.
  - destruct h as [|b h]; simpl.
    + split; [discriminate | intros [post H]; discriminate].
    + destruct (ascii_dec a b) as [->|Hne].
      * rewrite IH. split; intros [post H]; exists post.
        -- now rewrite H.
        -- now inversion H.
      * split; [discriminate | intros [post H]; inversion H; congruence].
Qed.

Lemma contains_iff (n h : string) :
  contains n h = true <-> exists pre post, h = pre ++ n ++ post.
Proof.
  induction h as [|b h IH].
  - cbn [contains]. rewrite orb_false_r, prefix_iff. split.
    + intros [post H]. exists "", post. exact H.
    + intros [pre [post H]]. destruct pre; simpl in H.
      * exists post. exact H.
      * discriminate.
  - cbn [contains]. rewrite orb_true_iff, prefix_iff, IH. split.
    + intros [[post H] | [pre [post H]]].
      * exists "", post. exact H.
      * exists (String b pre), post. simpl. now rewrite H.
    + intros [pre [post H]]. destruct pre as [|c pre]; simpl in H.
      * left. exists post. exact H.
      * right. inversion H. exists pre, post. reflexivity.
Qed.

Lemma contains_app_l (n a b : string) :
  contains n a = true -> contains n (a ++ b) = true.
Proof.
  rewrite !contains_iff. intros [pre [post ->]].
  exists pre, (post ++ b). now rewrite !append_assoc.
Qed.

Lemma contains_app_r (n a b : string) :
  contains n b = true -> contains n (a ++ b) = true.
Proof.
  rewrite !contains_iff. intros [pre [post ->]].
  exists (a ++ pre), post. now rewrite !append_assoc.
Qed.

Lemma contains_refl_in (n a b : string) : contains n (a ++ n ++ b) = true.
Proof. apply contains_iff. now exists a, b. Qed.

Lemma map_append (f : ascii -> ascii) (a b : string) :
  map f (a ++ b) = map f a ++ map f b.
Proof. induction a as [|c a IH]; simpl; [reflexivity | now rewrite IH]. Qed.

Lemma lower_append (a b : string) : lower (a ++ b) = lower a ++ lower b.
Proof. apply map_append. Qed.



Lemma chars_map (f : ascii -> ascii) (s : string) :
  chars (map f s) = List.map f (chars s).
Proof. induction s as [|c s IH]; simpl; [reflexivity | now rewrite <- IH]. Qed.

Lemma chars_append (a b : string) : chars (a ++ b) = (chars a ++ chars b)%list.
Proof. induction a as [|c a IH]; simpl; [reflexivity | now rewrite <- IH]. Qed.

(** [' '.join] of a list extended at its end. *)
Lemma join_snoc (l : list string) (x : string) :
  join " " (l ++ [x]) =
  match l with
  | [] => x
  | _ => join " " l ++ " " ++ x
  end.
Proof.
  induction l as [|a l IH]; [reflexivity|].
  destruct l as [|b l].
  - reflexivity.
  - change (join " " ((a :: b :: l) ++ [x]))
      with (a ++ " " ++ join " " ((b :: l) ++ [x])).
    rewrite IH.
    change (join " " (a :: b :: l)) with (a ++ " " ++ join " " (b :: l)).
    now rewrite !append_assoc.
Qed.

(** A task of the list is a piece of the joined text. *)
Lemma join_in (l : list string) (t : string) :
  In t l -> exists pre post, join " " l = pre ++ t ++ post.
Proof.
  induction l as [|a l IH]; [contradiction|].
  intros [-> | Hin].
  - destruct l as [|b l].
    + exists "", "". simpl. now rewrite append_empty_r.
    + exists "", (" " ++ join " " (b :: l)). reflexivity.
  - destruct (IH Hin) as [pre [post H]].
    destruct l as [|b l]; [contradiction|].
    exists (a ++ " " ++ pre), post.
    change (join " " (a :: b :: l)) with (a ++ " " ++ join " " (b :: l)).
    rewrite H. now rewrite !append_assoc.
Qed.

(** The joined text only grows at its end when tasks are appended. *)
Lemma join_app_prefix (l l' : list string) :
  exists post, join " " (l ++ l') = join " " l ++ post.
Proof.
  revert l; induction l' as [|x l' IH]; intros l.
  - exists "". now rewrite app_nil_r, append_empty_r.
  - destruct (IH (l ++ [x])%list) as [post H].
    rewrite <- app_assoc in H. simpl in H. rewrite H, join_snoc.
    destruct l as [|a l].
    + exists (x ++ post). reflexivity.
    + exists ((" " ++ x) ++ post). now rewrite !append_assoc.
Qed.

Lemma upper_char_not_lower (c : ascii) : is_lower (upper_char c) = false.
Proof.
  destruct c as [[] [] [] [] [] [] [] []]; vm_compute; reflexivity.
Qed.

Lemma upper_char_not_space (c : ascii) :
  upper_char c = " "%char -> c = " "%char.
Proof.
  destruct c as [[] [] [] [] [] [] [] []]; vm_compute; congruence.
Qed.

(** Every character of the needle occurs in the text that contains it. *)
Lemma contains_chars (n h : string) (c : ascii) :
  contains n h = true -> In c (chars n) -> In c (chars h).
Proof.
  rewrite contains_iff. intros [pre [post ->]] Hin.
  rewrite !chars_append. apply in_or_app. right.
  apply in_or_app. now left.
Qed.

(** No text in upper case contains the mixed-case word [Vision]. *)
Lemma upper_never_contains_Vision (s : string) :
  contains "Vision" (upper s) = false.
Proof.
  destruct (contains "Vision" (upper s)) eqn:H; [exfalso | reflexivity].
  assert (Hin : In "i"%char (chars (upper s))).
  { eapply contains_chars; [exact H | simpl; tauto]. }
  unfold upper in Hin. rewrite chars_map in Hin.
  apply in_map_iff in Hin. destruct Hin as [c [Hc _]].
  pose proof (upper_char_not_lower c) as Hl. rewrite Hc in Hl.
  discriminate Hl.
Qed.

End StringFacts.

(** ** The planner: durations, months and totality *)

Section PlannerFacts.

Import Planner Schedule.

Lemma phases_loop_build (a : Analysis.t) (dm cm : Float64.float)
    (base : list PhaseTemplate.t) :
  forall (acc : list Phase.t) (cur : Z),
    phases_loop a dm cm base acc cur =
    (ds <- adjusted_durations base dm cm ;;
     Ok (acc ++ build_phases a base ds cur)%list).
Proof.
  induction base as [|t base IH]; intros acc cur; simpl.
  - now rewrite app_nil_r.
  - destruct (adjusted_duration_of _ dm cm) as [d|e]; simpl; [|reflexivity].
    rewrite IH.
    destruct (adjusted_durations base dm cm) as [ds|e]; simpl; [|reflexivity].
    now rewrite <- app_assoc.
Qed.

Lemma adjusted_duration_of_ge_1 (b : Z) (dm cm : Float64.float) (d : Z) :
  adjusted_duration_of b dm cm = Ok d -> 1 <= d.
Proof.
  unfold adjusted_duration_of.
  destruct (Float64.int_mul b dm) as [x|e]; simpl; [|discriminate].
  destruct (Float64.round _) as [r|e]; simpl; [|discriminate].
  intros H; inversion H. lia.
Qed.

Lemma adjusted_durations_spec (dm cm : Float64.float)
    (base : list PhaseTemplate.t) :
  forall ds, adjusted_durations base dm cm = Ok ds ->
             List.length ds = List.length base /\ Forall (fun d => 1 <= d) ds.
Proof.
  induction base as [|t base IH]; simpl; intros ds H.
  - inversion H. split; [reflexivity | constructor].
  - destruct (adjusted_duration_of _ dm cm) as [d|e] eqn:Hd; simpl in H;
      [|discriminate].
    destruct (adjusted_durations base dm cm) as [ds'|e]; simpl in H;
      [|discriminate].
    inversion H; subst. destruct (IH ds' eq_refl) as [Hl Hf]. split.
    + simpl. now rewrite Hl.
    + constructor; [eapply adjusted_duration_of_ge_1; eassumption | exact Hf].
Qed.

Lemma build_phases_length (a : Analysis.t) (base : list PhaseTemplate.t) :
  forall ds cur, List.length ds = List.length base ->
                 List.length (build_phases a base ds cur) = List.length base.
Proof.
  induction base as [|t base IH]; intros [|d ds] cur H; simpl in *;
    try reflexivity; try discriminate.
  now rewrite IH by lia.
Qed.

Lemma build_phases_end_months (a : Analysis.t) (base : list PhaseTemplate.t) :
  forall ds cur, List.length ds = List.length base ->
    List.map Phase.end_month (build_phases a base ds cur) = end_months ds cur.
Proof.
  induction base as [|t base IH]; intros [|d ds] cur H; simpl in *;
    try reflexivity; try discriminate.
  now rewrite IH by lia.
Qed.

Lemma build_phases_lengths (a : Analysis.t) (base : list PhaseTemplate.t) :
  forall ds cur, List.length ds = List.length base ->
    List.map Spec.phase_length (build_phases a base ds cur) = ds.
Proof.
  induction base as [|t base IH]; intros [|d ds] cur H; simpl in *;
    try reflexivity; try discriminate.
  rewrite IH by lia. unfold Spec.phase_length; simpl. f_equal. lia.
Qed.

Lemma build_phases_chained (a : Analysis.t) (base : list PhaseTemplate.t) :
  forall ds cur, chained cur (build_phases a base ds cur).
Proof.
  induction base as [|t base IH]; intros [|d ds] cur; simpl; try exact I.
  split; [reflexivity|].
  replace (cur + d - 1 + 1) with (cur + d) by lia. apply IH.
Qed.

Lemma chained_contiguous (phases : list Phase.t) :
  forall cur, chained cur phases -> Spec.contiguous phases.
Proof.
  induction phases as [|p ps IH]; intros cur H i x y Hx Hy.
  - destruct i; discriminate.
  - destruct H as [_ H]. destruct i as [|i].
    + simpl in Hx, Hy. inversion Hx; subst x.
      destruct ps as [|q ps]; [discriminate|].
      simpl in Hy. inversion Hy; subst y. simpl in H. tauto.
    + simpl in Hx. eapply IH; eauto.
Qed.

(** Every template entry and the phase built from it. *)
Lemma build_phases_Forall2 (a : Analysis.t) (f : PhaseTemplate.t -> Z)
    (base : list PhaseTemplate.t) :
  forall cur,
    Forall2
      (fun t p =>
         Phase.name p = PhaseTemplate.name t /\
         Spec.phase_length p = f t /\
         Phase.duration p = PyStr.of_int (f t) ++ " months")
      base (build_phases a base (List.map f base) cur).
Proof.
  induction base as [|t base IH]; intros cur; simpl; constructor.
  - unfold Spec.phase_length; simpl. repeat split. lia.
  - apply IH.
Qed.

Lemma max_end_month_max_of (phases : list Phase.t) :
  max_end_month phases = max_of (List.map Phase.end_month phases).
Proof.
  destruct phases as [|p ps]; [reflexivity|]. simpl. f_equal.
  generalize (Phase.end_month p). induction ps as [|q ps IH]; intros m.
  - reflexivity.
  - simpl. apply IH.
Qed.

(** The template family the planner selects is one of the three, and
    the phases are those of its durations. *)
Lemma generate_phases_family (a : Analysis.t) :
  exists base,
    In base families /\
    dict_get _load_phase_templates
      (template_key_of (get (Analysis.domain a) "Machine Learning"))
    = Some base /\
    forall d c,
      _generate_phases __init__ a d c =
      (ds <- durations_for base d
               (get (dict_get complexity_table c) Float64.lit_1_0) ;;
       Ok (build_phases a base ds 1)).
Proof.
  unfold _generate_phases, template_key_of, durations_for, total_base_duration.
  destruct (_ || _);
    [| destruct (_ || _)];
    eexists; (split; [| split; [reflexivity|]]);
    try (intros d c; cbn [bind dict_item dict_get phase_templates __init__
                          _load_phase_templates String.eqb Ascii.eqb
                          Bool.eqb get];
         destruct (Float64.truediv d _) as [dm|e]; cbn [bind];
         [rewrite phases_loop_build; reflexivity | reflexivity]);
    unfold families; simpl; tauto.
Qed.

End PlannerFacts.

(** ** The checked table of durations *)

Section DurationFacts.

Import Planner Schedule.

Lemma valid_durations_in (d : Z) : 6 <= d <= 36 -> In d valid_durations.
Proof.
  intros H. unfold valid_durations. apply in_map_iff.
  exists (Z.to_nat d). split; [lia | apply in_seq; lia].
Qed.

(** The float the table (or its default) gives for a label, next to the
    decimal of the specification. *)
Lemma multiplier_in (c : string) :
  In (get (dict_get complexity_table c) Float64.lit_1_0,
      Spec.complexity_multiplier c) multipliers.
Proof.
  unfold Spec.complexity_multiplier, complexity_table, multipliers.
  cbn [dict_get].
  rewrite (String.eqb_sym "Beginner"), (String.eqb_sym "Intermediate"),
          (String.eqb_sym "Advanced"), (String.eqb_sym "Expert").
  destruct (String.eqb c "Beginner"); [simpl; tauto|].
  destruct (String.eqb c "Intermediate"); [simpl; tauto|].
  destruct (String.eqb c "Advanced"); [simpl; tauto|].
  destruct (String.eqb c "Expert"); simpl; tauto.
Qed.

(** The bit patterns of the four literals are the doubles nearest to the
    decimals written in the source. *)
Lemma literals_nearest :
  Float64.truediv 8 10 = Ok Float64.lit_0_8 /\
  Float64.of_int 1 = Ok Float64.lit_1_0 /\
  Float64.truediv 13 10 = Ok Float64.lit_1_3 /\
  Float64.truediv 16 10 = Ok Float64.lit_1_6.
Proof. repeat split. Qed.

Lemma check_all_adjusted_true : check_all_adjusted = true.
Proof. vm_compute. reflexivity. Qed.

Lemma check_all_monotone_true : check_all_monotone = true.
Proof. vm_compute. reflexivity. Qed.

(** On the valid durations the binary64 computation of the code returns,
    and returns the durations of the exact formula. *)
Lemma durations_for_exact (base : list PhaseTemplate.t) (d : Z) (c : string) :
  In base families -> 6 <= d <= 36 ->
  durations_for base d (get (dict_get complexity_table c) Float64.lit_1_0) =
  Ok (List.map
        (fun t => Spec.adjusted_duration (PhaseTemplate.base_duration t) d
                    (total_base_duration base) (Spec.complexity_multiplier c))
        base).
Proof.
  intros Hb Hd.
  pose proof check_all_adjusted_true as H. unfold check_all_adjusted in H.
  rewrite forallb_forall in H. specialize (H base Hb).
  rewrite forallb_forall in H. specialize (H d (valid_durations_in d Hd)).
  rewrite forallb_forall in H. specialize (H _ (multiplier_in c)).
  unfold check_adjusted in H. cbn [fst snd] in H.
  destruct (durations_for base d _) as [ds|e]; [|discriminate].
  unfold list_Z_eqb in H.
  destruct (list_eq_dec Z.eq_dec ds _) as [->|]; [reflexivity | discriminate].
Qed.

Lemma families_nonempty (base : list PhaseTemplate.t) :
  In base families -> base <> [].
Proof.
  unfold families; simpl. intros [<-|[<-|[<-|[]]]]; discriminate.
Qed.

Lemma families_total (base : list PhaseTemplate.t) :
  In base families -> total_base_duration base = 20.
Proof.
  unfold families; simpl. intros [<-|[<-|[<-|[]]]]; reflexivity.
Qed.

Lemma families_base_durations (base : list PhaseTemplate.t) :
  In base families ->
  List.map PhaseTemplate.base_duration base = [3; 6; 4; 4; 3].
Proof.
  unfold families; simpl. intros [<-|[<-|[<-|[]]]]; reflexivity.
Qed.

(** The rounding of the specification is to a nearest integer, and a
    tie goes to an even one. *)
Lemma round_half_even_nearest (q : Q) :
  (Qabs (q - inject_Z (Spec.round_half_even q)) <= 1 # 2)%Q.
Proof.
  unfold Spec.round_half_even.
  pose proof (Qfloor_le q) as Hlo. pose proof (Qlt_floor q) as Hhi.
  set (f := Qfloor q) in *.
  assert (Hf1 : (inject_Z (f + 1) == inject_Z f + 1)%Q)
    by (rewrite inject_Z_plus; reflexivity).
  rewrite Hf1 in Hhi.
  apply Qabs_Qle_condition.
  destruct (Qcompare_spec (q - inject_Z f) (1 # 2)) as [He|Hl|Hg].
  - destruct (Z.even f); [| rewrite Hf1]; split; lra.
  - split; lra.
  - rewrite Hf1. split; lra.
Qed.

Lemma round_half_even_tie (q : Q) :
  (q - inject_Z (Qfloor q) == 1 # 2)%Q ->
  Z.even (Spec.round_half_even q) = true.
Proof.
  intros H. unfold Spec.round_half_even.
  destruct (Qcompare_spec (q - inject_Z (Qfloor q)) (1 # 2)) as [He|Hl|Hg].
  - destruct (Z.even (Qfloor q)) eqn:E; [exact E|].
    rewrite Z.even_add, E. reflexivity.
  - rewrite H in Hl. exfalso. revert Hl. apply Qlt_irrefl.
  - rewrite H in Hg. exfalso. revert Hg. apply Qlt_irrefl.
Qed.

End DurationFacts.

(** ** The plan generator *)

Section PlanFacts.

Import Planner Schedule.

Variable datetime : Type.
Variable now : nat -> datetime.
Variable isoformat : datetime -> string.
Variable strftime : datetime -> string -> string.
Variable add_days : datetime -> Z -> datetime.
Variable list_of_set : list string -> list string.

Local Abbreviation plan_of :=
  (generate_plan datetime now isoformat strftime add_days list_of_set __init__).

(** The technical stack is always produced: the key read back after the
    domain branch has been set by every branch. *)
Lemma tech_stack_total (a : Analysis.t) :
  exists stack, _generate_tech_stack list_of_set a = Ok stack.
Proof.
  unfold _generate_tech_stack.
  destruct (PyStr.contains "NLP" _);
    [| destruct (PyStr.contains "Vision" _)];
    destruct (get (TechReq.frameworks _) []);
    eexists; reflexivity.
Qed.

(** Once the phases are there (and there is at least one), so is the plan. *)
Lemma generate_plan_total (a : Analysis.t) (s : Settings.t)
    (phases : list Phase.t) :
  _generate_phases __init__ a (get (Settings.duration s) 20)
                   (get (Analysis.complexity a) "Intermediate") = Ok phases ->
  phases <> [] ->
  exists plan n,
    plan_of a s = Ok plan /\
    Plan.phases plan = phases /\
    max_end_month phases = Ok n /\
    Timeline.total_duration (Plan.timeline plan) = PyStr.of_int n ++ " months".
Proof.
  intros Hp Hne. unfold generate_plan. rewrite Hp. cbn [bind].
  destruct (tech_stack_total a) as [stack ->]. cbn [bind].
  unfold _generate_timeline.
  destruct phases as [|p ps]; [contradiction|].
  cbn [max_end_month bind].
  eexists; eexists. repeat split.
Qed.

(** On a valid duration the phases are those of the exact durations of
    the selected family. *)
Lemma generate_phases_valid (a : Analysis.t) (d : Z) (c : string) :
  6 <= d <= 36 ->
  exists base,
    In base families /\
    dict_get (phase_templates __init__)
      (template_key_of (get (Analysis.domain a) "Machine Learning"))
    = Some base /\
    _generate_phases __init__ a d c =
    Ok (build_phases a base
          (List.map
             (fun t => Spec.adjusted_duration (PhaseTemplate.base_duration t)
                         d (total_base_duration base)
                         (Spec.complexity_multiplier c))
             base)
          1).
Proof.
  intros Hd. destruct (generate_phases_family a) as [base [Hb [Hk Hg]]].
  exists base. repeat split; [exact Hb | exact Hk |].
  rewrite Hg, (durations_for_exact base d c Hb Hd). reflexivity.
Qed.

Lemma build_phases_nonempty (a : Analysis.t) (base : list PhaseTemplate.t)
    (f : PhaseTemplate.t -> Z) (cur : Z) :
  base <> [] -> build_phases a base (List.map f base) cur <> [].
Proof. destruct base; [contradiction | discriminate]. Qed.

(** ** C1 *)

(** C1. For every analysis record and every settings record whose duration
    is an integer from 6 to 36, the plan generator returns a plan, and the
    length in months of each phase (and the number in its [duration] text)
    equals [max(1, round(base_duration * (duration / total_base_duration)
    * complexity_multiplier))] computed exactly, with ties rounded to even,
    for the template entry it comes from; the multiplier is 0.8, 1.0, 1.3,
    1.6 for Beginner, Intermediate, Advanced, Expert and 1.0 for any other
    label.  For domain "Computer Vision", complexity "Advanced" and
    duration 26, the base durations are [3,6,4,4,3], their total is 20 and
    the phase lengths are [5,10,7,7,5]. *)
Theorem C1_adjusted_durations (a : Analysis.t) (s : Settings.t) (d : Z) :
  Settings.duration s = Some d ->
  6 <= d <= 36 ->
  exists plan base_phases,
    plan_of a s = Ok plan /\
    dict_get (phase_templates __init__)
      (template_key_of (get (Analysis.domain a) "Machine Learning"))
    = Some base_phases /\
    Forall2
      (fun t p =>
         let adjusted :=
           Spec.adjusted_duration (PhaseTemplate.base_duration t) d
             (total_base_duration base_phases)
             (Spec.complexity_multiplier
                (get (Analysis.complexity a) "Intermediate")) in
         Phase.name p = PhaseTemplate.name t /\
         Spec.phase_length p = adjusted /\
         Phase.duration p = PyStr.of_int adjusted ++ " months")
      base_phases (Plan.phases plan) /\
    (Analysis.domain a = Some "Computer Vision" ->
     Analysis.complexity a = Some "Advanced" ->
     d = 26 ->
     List.map PhaseTemplate.base_duration base_phases = [3; 6; 4; 4; 3] /\
     total_base_duration base_phases = 20 /\
     List.map Spec.phase_length (Plan.phases plan) = [5; 10; 7; 7; 5]).
Proof.
  intros Hs Hd.
  destruct (generate_phases_valid a d (get (Analysis.complexity a) "Intermediate") Hd)
    as [base [Hb [Hk Hg]]].
  assert (Hg' : _generate_phases __init__ a (get (Settings.duration s) 20)
                  (get (Analysis.complexity a) "Intermediate") = Ok _)
    by (rewrite Hs; exact Hg).
  destruct (generate_plan_total a s _ Hg'
              (build_phases_nonempty a base _ 1 (families_nonempty base Hb)))
    as [plan [n [Hplan [Hph _]]]].
  exists plan, base. rewrite Hph. repeat split.
  - exact Hplan.
  - exact Hk.
  - apply (build_phases_Forall2 a
             (fun t => Spec.adjusted_duration (PhaseTemplate.base_duration t) d
                         (total_base_duration base)
                         (Spec.complexity_multiplier
                            (get (Analysis.complexity a) "Intermediate")))).
  - apply families_base_durations, Hb.
  - apply families_total, Hb.
  - rewrite build_phases_lengths by apply length_map.
    rewrite H0, (families_total base Hb). subst d. cbn [get].
    rewrite <- (map_map PhaseTemplate.base_duration
                  (fun b => Spec.adjusted_duration b 26 20
                              (Spec.complexity_multiplier "Advanced"))).
    rewrite (families_base_durations base Hb). vm_compute. reflexivity.
Qed.

(** ** C2 *)

(** C2. For every analysis record and every settings record whose duration
    is from 6 to 36, the plan generator returns a plan whose first phase
    starts in month 1, in which every phase starts the month after the
    previous one ends, and in which every phase lasts at least one month
    ([end_month - start_month + 1 >= 1]). *)
Theorem C2_phases_contiguous (a : Analysis.t) (s : Settings.t) (d : Z) :
  Settings.duration s = Some d ->
  6 <= d <= 36 ->
  exists plan first rest,
    plan_of a s = Ok plan /\
    Plan.phases plan = first :: rest /\
    Phase.start_month first = 1 /\
    Spec.contiguous (Plan.phases plan) /\
    Forall (fun p => 1 <= Spec.phase_length p) (Plan.phases plan).
Proof.
  intros Hs Hd.
  destruct (generate_phases_valid a d (get (Analysis.complexity a) "Intermediate") Hd)
    as [base [Hb [_ Hg]]].
  set (ds := List.map _ base) in Hg.
  assert (Hg' : _generate_phases __init__ a (get (Settings.duration s) 20)
                  (get (Analysis.complexity a) "Intermediate")
                = Ok (build_phases a base ds 1))
    by (rewrite Hs; exact Hg).
  destruct (generate_plan_total a s _ Hg'
              (build_phases_nonempty a base _ 1 (families_nonempty base Hb)))
    as [plan [n [Hplan [Hph _]]]].
  pose proof (build_phases_chained a base ds 1) as Hch.
  pose proof (build_phases_lengths a base ds 1 (length_map _ _)) as Hlen.
  rewrite <- Hph in Hch, Hlen.
  destruct (Plan.phases plan) as [|first rest] eqn:E.
  - exfalso. symmetry in Hph.
    exact (build_phases_nonempty a base _ 1 (families_nonempty base Hb) Hph).
  - exists plan, first, rest. rewrite E. repeat split.
    + exact Hplan.
    + exact (proj1 Hch).
    + exact (chained_contiguous _ 1 Hch).
    + apply Forall_map with (f := Spec.phase_length) (P := fun x => 1 <= x).
      rewrite Hlen. unfold ds. apply Forall_map, Forall_forall.
      intros t _. unfold Spec.adjusted_duration. lia.
Qed.

(** The span of the plan for a label, read off the checked table. *)
Lemma plan_span (a : Analysis.t) (s : Settings.t) (d : Z) :
  Settings.duration s = Some d ->
  6 <= d <= 36 ->
  exists base,
    In base families /\
    forall label, exists plan n,
      plan_of (Spec.with_complexity a label) s = Ok plan /\
      max_end_month (Plan.phases plan) = Ok n /\
      Timeline.total_duration (Plan.timeline plan) = PyStr.of_int n ++ " months" /\
      span_for base d (get (dict_get complexity_table label) Float64.lit_1_0)
      = Ok n.
Proof.
  intros Hs Hd.
  destruct (generate_phases_family a) as [base [Hb [Hk _]]].
  exists base. split; [exact Hb|]. intros label.
  destruct (generate_phases_family (Spec.with_complexity a label))
    as [base' [_ [Hk' Hg]]].
  cbn [Spec.with_complexity Analysis.domain] in Hk'.
  rewrite Hk in Hk'. inversion Hk'; subst base'. clear Hk'.
  specialize (Hg d label).
  pose proof (durations_for_exact base d label Hb Hd) as Hds.
  set (ds := List.map _ base) in Hds.
  rewrite Hds in Hg. cbn [bind] in Hg.
  assert (Hg' : _generate_phases __init__ (Spec.with_complexity a label)
                  (get (Settings.duration s) 20)
                  (get (Analysis.complexity (Spec.with_complexity a label))
                       "Intermediate")
                = Ok (build_phases (Spec.with_complexity a label) base ds 1))
    by (rewrite Hs; exact Hg).
  destruct (generate_plan_total _ s _ Hg'
              (build_phases_nonempty _ base _ 1 (families_nonempty base Hb)))
    as [plan [n [Hplan [Hph [Hmax Htot]]]]].
  exists plan, n. rewrite Hph. repeat split; try assumption.
  unfold span_for. rewrite Hds. cbn [bind].
  rewrite <- (build_phases_end_months (Spec.with_complexity a label) base ds 1)
    by apply length_map.
  rewrite <- max_end_month_max_of. exact Hmax.
Qed.

(** ** C5 *)

(** C5. With the analysis record and a duration from 6 to 36 held fixed,
    the plan is produced for each of the labels Beginner, Intermediate,
    Advanced, Expert, and its span (the largest [end_month] of its phases,
    which is the number in the timeline's [total_duration]) does not
    decrease along that order of labels. *)
Theorem C5_span_monotone (a : Analysis.t) (s : Settings.t) (d : Z) :
  Settings.duration s = Some d ->
  6 <= d <= 36 ->
  exists p1 p2 p3 p4 n1 n2 n3 n4,
    (plan_of (Spec.with_complexity a "Beginner") s = Ok p1 /\
     plan_of (Spec.with_complexity a "Intermediate") s = Ok p2 /\
     plan_of (Spec.with_complexity a "Advanced") s = Ok p3 /\
     plan_of (Spec.with_complexity a "Expert") s = Ok p4) /\
    (max_end_month (Plan.phases p1) = Ok n1 /\
     max_end_month (Plan.phases p2) = Ok n2 /\
     max_end_month (Plan.phases p3) = Ok n3 /\
     max_end_month (Plan.phases p4) = Ok n4) /\
    (Timeline.total_duration (Plan.timeline p1) = PyStr.of_int n1 ++ " months" /\
     Timeline.total_duration (Plan.timeline p2) = PyStr.of_int n2 ++ " months" /\
     Timeline.total_duration (Plan.timeline p3) = PyStr.of_int n3 ++ " months" /\
     Timeline.total_duration (Plan.timeline p4) = PyStr.of_int n4 ++ " months") /\
    n1 <= n2 /\ n2 <= n3 /\ n3 <= n4.
Proof.
  intros Hs Hd.
  destruct (plan_span a s d Hs Hd) as [base [Hb H]].
  destruct (H "Beginner") as [p1 [n1 [P1 [M1 [T1 S1]]]]].
  destruct (H "Intermediate") as [p2 [n2 [P2 [M2 [T2 S2]]]]].
  destruct (H "Advanced") as [p3 [n3 [P3 [M3 [T3 S3]]]]].
  destruct (H "Expert") as [p4 [n4 [P4 [M4 [T4 S4]]]]].
  exists p1, p2, p3, p4, n1, n2, n3, n4.
  pose proof check_all_monotone_true as C. unfold check_all_monotone in C.
  rewrite forallb_forall in C. specialize (C base Hb).
  rewrite forallb_forall in C. specialize (C d (valid_durations_in d Hd)).
  unfold check_monotone in C.
  change (get (dict_get complexity_table "Beginner") Float64.lit_1_0)
    with Float64.lit_0_8 in S1.
  change (get (dict_get complexity_table "Intermediate") Float64.lit_1_0)
    with Float64.lit_1_0 in S2.
  change (get (dict_get complexity_table "Advanced") Float64.lit_1_0)
    with Float64.lit_1_3 in S3.
  change (get (dict_get complexity_table "Expert") Float64.lit_1_0)
    with Float64.lit_1_6 in S4.
  rewrite S1, S2, S3, S4 in C.
  apply andb_prop in C. destruct C as [C C3].
  apply andb_prop in C. destruct C as [C1 C2].
  apply Z.leb_le in C1, C2, C3.
  repeat split; assumption.
Qed.

(** ** C6 *)

(** C6. There are a valid duration (7, within 6 to 36), a template family
    (Machine Learning) and a complexity label (Intermediate) for which the
    lengths of the generated phases are [1,2,1,1,1]: they add up to 6 and
    not to the duration, so the months lost to rounding are not given to
    any phase. *)
Theorem C6_rounding_drift :
  exists (a : Analysis.t) (s : Settings.t) (d : Z) (plan : Plan.t),
    Analysis.domain a = Some "Machine Learning" /\
    Analysis.complexity a = Some "Intermediate" /\
    Settings.duration s = Some d /\
    6 <= d <= 36 /\
    plan_of a s = Ok plan /\
    List.map Spec.phase_length (Plan.phases plan) = [1; 2; 1; 1; 1] /\
    sum (List.map Spec.phase_length (Plan.phases plan)) <> d.
Proof.
  exists (Analysis.mk None None None (Some "Machine Learning") None None
                      (Some "Intermediate") None None None None None None),
         (Settings.mk (Some 7) None None), 7.
  eexists.
  split; [reflexivity|]. split; [reflexivity|]. split; [reflexivity|].
  split; [lia|].
  split; [vm_compute; reflexivity|].
  split; [vm_compute; reflexivity | vm_compute; discriminate].
Qed.

End PlanFacts.

(** Valid settings exist: the scenario of the specification. *)
Lemma C1_adjusted_durations_witness :
  Settings.duration (Example.settings 26) = Some 26 /\
  6 <= 26 <= 36 /\
  exists plan,
    Example.generate_plan Example.vision_advanced (Example.settings 26) = Ok plan /\
    List.map Spec.phase_length (Plan.phases plan) = [5; 10; 7; 7; 5].
Proof.
  split; [reflexivity|]. split; [lia|].
  destruct (C1_adjusted_durations Example.datetime Example.now Example.isoformat
              Example.strftime Example.add_days Example.list_of_set
              Example.vision_advanced (Example.settings 26) 26
              eq_refl ltac:(lia))
    as [plan [base [Hp [_ [_ Hsc]]]]].
  exists plan. split; [exact Hp|].
  apply Hsc; reflexivity.
Defined.

Lemma C2_phases_contiguous_witness :
  Settings.duration (Example.settings 26) = Some 26 /\
  6 <= 26 <= 36 /\
  exists plan,
    Example.generate_plan Example.vision_advanced (Example.settings 26) = Ok plan /\
    Spec.contiguous (Plan.phases plan).
Proof.
  split; [reflexivity|]. split; [lia|].
  destruct (C2_phases_contiguous Example.datetime Example.now Example.isoformat
              Example.strftime Example.add_days Example.list_of_set
              Example.vision_advanced (Example.settings 26) 26
              eq_refl ltac:(lia))
    as [plan [first [rest [Hp [_ [_ [Hc _]]]]]]].
  exists plan. split; [exact Hp | exact Hc].
Defined.

Lemma C5_span_monotone_witness :
  Settings.duration (Example.settings 26) = Some 26 /\
  6 <= 26 <= 36 /\
  exists n1 n4 : Z,
    (exists p1,
       Example.generate_plan
         (Spec.with_complexity Example.vision_advanced "Beginner")
         (Example.settings 26) = Ok p1 /\
       Planner.max_end_month (Plan.phases p1) = Ok n1) /\
    (exists p4,
       Example.generate_plan
         (Spec.with_complexity Example.vision_advanced "Expert")
         (Example.settings 26) = Ok p4 /\
       Planner.max_end_month (Plan.phases p4) = Ok n4) /\
    n1 <= n4.
Proof.
  split; [reflexivity|]. split; [lia|].
  destruct (C5_span_monotone Example.datetime Example.now Example.isoformat
              Example.strftime Example.add_days Example.list_of_set
              Example.vision_advanced (Example.settings 26) 26
              eq_refl ltac:(lia))
    as [p1 [p2 [p3 [p4 [n1 [n2 [n3 [n4 [[P1 [_ [_ P4]]] [[M1 [_ [_ M4]]] [_ [L1 [L2 L3]]]]]]]]]]]]].
  exists n1, n4. split; [exists p1; split; assumption|].
  split; [exists p4; split; assumption | lia].
Defined.

(** ** The domain branches of the stack and the architecture *)

Section DomainFacts.

Import PyStr Planner.

Variable list_of_set : list string -> list string.

(** The [elif 'Vision' in domain.upper()] branch of
    [_generate_architecture] is never taken: whatever the domain, the
    result is the NLP mapping or the generic one. *)
Lemma architecture_never_vision (a : Analysis.t) :
  dict_get (_generate_architecture a) "data_layer"
  <> Some "Image preprocessing and augmentation pipeline".
Proof.
  unfold _generate_architecture.
  rewrite upper_never_contains_Vision.
  destruct (contains "NLP" _); simpl; discriminate.
Qed.

(** No stack has a [cv_libraries] category. *)
Lemma tech_stack_never_cv (a : Analysis.t) (stack : dict (list string)) :
  _generate_tech_stack list_of_set a = Ok stack ->
  dict_get stack "cv_libraries" = None.
Proof.
  unfold _generate_tech_stack.
  rewrite upper_never_contains_Vision.
  destruct (contains "NLP" _);
    destruct (get (TechReq.frameworks _) []);
    intros H; inversion H; reflexivity.
Qed.

(** ** C3 *)

(** C3 (the code on the domain "Computer Vision"). For this domain the
    phase template is the Computer Vision one, but
    the architecture is the generic Machine Learning mapping and the stack
    has no [cv_libraries] category; without frameworks in the analysis its
    [ml_frameworks] are Scikit-learn, TensorFlow, PyTorch, with no OpenCV:
    the test [ 'Vision' in domain.upper() ] compares a mixed-case word with
    upper-case text and never holds. *)
Theorem C3_vision_domain_gets_generic_outputs (a : Analysis.t) :
  Analysis.domain a = Some "Computer Vision" ->
  template_key_of (get (Analysis.domain a) "Machine Learning") = "Computer Vision" /\
  _generate_architecture a =
    [ ("data_layer", "Data preprocessing and feature engineering");
      ("model_layer", "Machine learning models and algorithms");
      ("application_layer", "Prediction services and APIs");
      ("interface_layer", "Dashboard and user interface") ]%list /\
  exists stack,
    _generate_tech_stack list_of_set a = Ok stack /\
    dict_get stack "cv_libraries" = None /\
    (get (TechReq.frameworks
            (get (Analysis.technical_requirements a) TechReq.empty)) [] = [] ->
     dict_get stack "ml_frameworks"
     = Some ["Scikit-learn"; "TensorFlow"; "PyTorch"]).
Proof.
  intros H. split; [rewrite H; reflexivity|]. split.
  - unfold _generate_architecture. rewrite H. reflexivity.
  - unfold _generate_tech_stack. rewrite H.
    change (contains "NLP" (upper (get (Some "Computer Vision") ""))) with false.
    change (contains "Vision" (upper (get (Some "Computer Vision") ""))) with false.
    cbv iota.
    destruct (get (TechReq.frameworks _) []) as [|f fs];
      eexists; (split; [reflexivity|]); (split; [reflexivity|]).
    + intros _. reflexivity.
    + intros E. discriminate E.
Qed.

End DomainFacts.

Lemma C3_vision_domain_gets_generic_outputs_witness :
  Analysis.domain Example.vision_advanced = Some "Computer Vision" /\
  dict_get (Planner._generate_architecture Example.vision_advanced) "model_layer"
  = Some "Machine learning models and algorithms".
Proof.
  split; [reflexivity|].
  destruct (C3_vision_domain_gets_generic_outputs Example.list_of_set
              Example.vision_advanced eq_refl) as [_ [Harch _]].
  rewrite Harch. reflexivity.
Defined.

(** ** Identifiers of the diagrams *)

Section IdentifierFacts.

Import PyStr Visualization IdSpec.





Lemma length_take (n : nat) (s : string) :
  (String.length (substring 0 n s) <= n)%nat.
Proof.
  revert n; induction s as [|c s IH]; intros [|n]; simpl; try lia.
  specialize (IH n). lia.
Qed.

Lemma prefix_take (n : nat) (s : string) : prefix (substring 0 n s) s = true.
Proof.
  revert n; induction s as [|c s IH]; intros [|n]; try reflexivity.
  cbn [substring prefix]. destruct (ascii_dec c c); [apply IH | congruence].
Qed.

(** ** C8 *)



End IdentifierFacts.

(** ** The analyzer: its two fallback records *)

Section AnalyzerFacts.

Import PyStr Analyzer.

Variable json_loads : string -> result Analysis.t.
Variable create : Together -> Request -> result string.

(** Without a brace-delimited object in the reply, or with one that
    [json.loads] rejects, the parser builds its record from the reply. *)
Lemma parse_without_json (reply : string) :
  re_search_braces reply = None \/
  (exists js, re_search_braces reply = Some js /\
              json_loads js = Raise JSONDecodeError) ->
  _parse_analysis_response json_loads reply =
  Ok (_create_structured_analysis_from_text reply).
Proof.
  unfold _parse_analysis_response.
  intros [-> | [js [-> ->]]]; reflexivity.
Qed.

(** What the search for the pattern finds: the text from the first
    opening brace to the last closing brace after it, if there is one. *)
Lemma upto_last_close_some (s r : string) :
  upto_last_close s = Some r ->
  exists mid post, r = mid ++ "}" /\ s = r ++ post.
Proof.
  revert r; induction s as [|c s IH]; intros r H; [discriminate|].
  cbn [upto_last_close] in H.
  destruct (upto_last_close s) as [r'|].
  - inversion H; subst r. destruct (IH r' eq_refl) as [mid [post [-> ->]]].
    exists (String c mid), post. split; reflexivity.
  - destruct (Ascii.eqb c "}") eqn:E; [|discriminate].
    apply Ascii.eqb_eq in E. subst c. inversion H; subst r.
    exists "", s. split; reflexivity.
Qed.

Lemma upto_last_close_none (s : string) :
  upto_last_close s = None -> forall pre post, s <> pre ++ "}" ++ post.
Proof.
  induction s as [|c s IH]; intros H pre post E.
  - destruct pre; discriminate E.
  - cbn [upto_last_close] in H.
    destruct (upto_last_close s) as [r'|] eqn:U; [discriminate|].
    destruct (Ascii.eqb c "}") eqn:Ec; [discriminate|].
    destruct pre as [|p pre]; inversion E; subst.
    + rewrite Ascii.eqb_refl in Ec. discriminate.
    + exact (IH eq_refl pre post eq_refl).
Qed.

Lemma re_search_braces_some (s js : string) :
  re_search_braces s = Some js ->
  exists pre mid post, s = pre ++ js ++ post /\ js = "{" ++ mid ++ "}".
Proof.
  revert js; induction s as [|c s IH]; intros js H; [discriminate|].
  cbn [re_search_braces] in H.
  destruct (Ascii.eqb c "{") eqn:E.
  - apply Ascii.eqb_eq in E. subst c.
    destruct (upto_last_close s) as [r|] eqn:U; [|discriminate].
    inversion H; subst js.
    destruct (upto_last_close_some s r U) as [mid [post [-> ->]]].
    exists "", mid, post. split; reflexivity.
  - destruct (IH js H) as [pre [mid [post [-> ->]]]].
    exists (String c pre), mid, post. split; reflexivity.
Qed.

(** A reply without an opening brace followed, somewhere later, by a
    closing one has no object to decode, and only such a reply. *)
Lemma re_search_braces_none (s : string) :
  re_search_braces s = None <->
  (forall pre mid post, s <> pre ++ "{" ++ mid ++ "}" ++ post).
Proof.
  split.
  - induction s as [|c s IH]; intros H pre mid post E.
    + destruct pre; discriminate E.
    + cbn [re_search_braces] in H.
      destruct (Ascii.eqb c "{") eqn:Ec.
      * destruct (upto_last_close s) as [r|] eqn:U; [discriminate|].
        destruct pre as [|p pre]; inversion E; subst.
        -- exact (upto_last_close_none _ U mid post eq_refl).
        -- apply (upto_last_close_none _ U (pre ++ "{" ++ mid) post).
           now rewrite !append_assoc.
      * destruct pre as [|p pre]; inversion E; subst.
        -- rewrite Ascii.eqb_refl in Ec. discriminate.
        -- exact (IH H pre mid post eq_refl).
  - intros H. destruct (re_search_braces s) as [js|] eqn:E; [|reflexivity].
    destruct (re_search_braces_some s js E) as [pre [mid [post [-> ->]]]].
    exfalso. apply (H pre mid post). now rewrite !append_assoc.
Qed.

(** The two fallback records differ for every reply: their titles do. *)
Lemma fallbacks_differ (reply : string) :
  _create_structured_analysis_from_text reply <> _create_fallback_analysis.
Proof.
  intros H. apply (f_equal Analysis.title) in H. discriminate H.
Qed.

(** ** C9 *)

(** C9, as amended. With a client in place: when the reply holds no
    brace-delimited text, or [json.loads] raises [JSONDecodeError] on the
    text located, [analyze_paper] returns the parse-fallback record, whose
    abstract is the reply itself when it has at most 500 characters and
    its first 500 characters followed by three dots otherwise; when the
    network call raises, or [json.loads] raises any other exception on the
    text located, it returns the transport-fallback record, whose abstract
    is the fixed text starting "Analysis unavailable"; and for every reply
    the two records differ (in their title, authors and key concepts,
    whatever the abstract). *)
Theorem C9_fallback_records (self : AIAnalyzer) (c : Together) (text : string) :
  client self = Some c ->
  (forall reply,
     create c (completion_request (_create_analysis_prompt text)) = Ok reply ->
     (forall pre mid post, reply <> pre ++ "{" ++ mid ++ "}" ++ post) \/
     (exists js, re_search_braces reply = Some js /\
                 json_loads js = Raise JSONDecodeError) ->
     fst (analyze_paper json_loads create self text)
     = Ok (_create_structured_analysis_from_text reply)) /\
  (forall e,
     create c (completion_request (_create_analysis_prompt text)) = Raise e ->
     fst (analyze_paper json_loads create self text)
     = Ok _create_fallback_analysis) /\
  (forall reply js e,
     create c (completion_request (_create_analysis_prompt text)) = Ok reply ->
     re_search_braces reply = Some js ->
     json_loads js = Raise e ->
     e <> JSONDecodeError ->
     fst (analyze_paper json_loads create self text)
     = Ok _create_fallback_analysis) /\
  (forall reply,
     Analysis.abstract (_create_structured_analysis_from_text reply)
     = Some (if 500 <? len reply then take 500 reply ++ "..." else reply) /\
     prefix (take 500 reply) reply = true /\
     len (take 500 reply) <= 500) /\
  Analysis.abstract _create_fallback_analysis
  = Some "Analysis unavailable - please check your API configuration" /\
  (forall reply,
     _create_structured_analysis_from_text reply <> _create_fallback_analysis /\
     Analysis.title (_create_structured_analysis_from_text reply)
     <> Analysis.title _create_fallback_analysis /\
     Analysis.authors (_create_structured_analysis_from_text reply)
     <> Analysis.authors _create_fallback_analysis /\
     Analysis.key_concepts (_create_structured_analysis_from_text reply)
     <> Analysis.key_concepts _create_fallback_analysis).
Proof.
  intros Hc. split; [|split; [|split; [|split; [|split]]]].
  - intros reply Hr Hj. unfold analyze_paper. rewrite Hc, Hr.
    rewrite (parse_without_json reply); [reflexivity|].
    destruct Hj as [Hj|Hj]; [left; apply re_search_braces_none, Hj | right; exact Hj].
  - intros e Hr. unfold analyze_paper. rewrite Hc, Hr. reflexivity.
  - intros reply js e Hr Hs Hj He. unfold analyze_paper. rewrite Hc, Hr.
    unfold _parse_analysis_response. rewrite Hs, Hj.
    destruct e; try reflexivity. now contradiction He.
  - intros reply. split; [reflexivity|]. split.
    + apply prefix_take.
    + unfold take, len.
      pose proof (length_take (Z.to_nat 500) reply). lia.
  - reflexivity.
  - intros reply. split; [apply fallbacks_differ|].
    repeat split; discriminate.
Qed.

(** ** C10 *)

(** An analyzer built without a key, or with an empty one, has no client. *)
Lemma init_without_key (environ : dict string) :
  dict_get environ "TOGETHER_API_KEY" = None \/
  dict_get environ "TOGETHER_API_KEY" = Some "" ->
  client (__init__ environ) = None.
Proof.
  unfold __init__, _initialize_client. simpl.
  intros [-> | ->]; reflexivity.
Qed.

(** C10. When the analyzer has no client (no API key was configured when
    it was built), [analyze_paper] raises its exception for every text,
    has sent no request over the network, and does not return the
    transport-fallback record. *)
Theorem C10_no_client_raises (self : AIAnalyzer) (text : string) :
  client self = None ->
  analyze_paper json_loads create self text =
    (Raise (Exception
              "Together.AI client not initialized. Please provide API key."),
     []) /\
  fst (analyze_paper json_loads create self text) <> Ok _create_fallback_analysis /\
  snd (analyze_paper json_loads create self text) = [].
Proof.
  intros H. unfold analyze_paper. rewrite H.
  split; [reflexivity|]. split; [discriminate | reflexivity].
Qed.

End AnalyzerFacts.

Lemma C9_fallback_records_witness :
  Analyzer.client Example.analyzer = Some {| Analyzer.api_key := "secret" |} /\
  fst (Analyzer.analyze_paper Example.json_loads Example.create
                              Example.analyzer "text")
  = Ok (Analyzer._create_structured_analysis_from_text
          "The paper studies attention.").
Proof.
  split; [reflexivity|].
  destruct (C9_fallback_records Example.json_loads Example.create
              Example.analyzer _ "text" eq_refl) as [H _].
  apply H; [reflexivity | left; apply re_search_braces_none; reflexivity].
Defined.

(** The claim as it was stated fails on a reply whose object nests 2000
    arrays: the text is located, [json.loads] raises [RecursionError] on
    it, and [analyze_paper] returns the transport-fallback record, not the
    parse-fallback record. *)
Lemma C9_object_that_fails_to_decode :
  Analyzer.re_search_braces DeepReply.reply = Some DeepReply.reply /\
  DeepReply.json_loads DeepReply.reply
  = Raise (Exception "maximum recursion depth exceeded") /\
  fst (Analyzer.analyze_paper DeepReply.json_loads DeepReply.create
                              Example.analyzer "text")
  = Ok Analyzer._create_fallback_analysis /\
  fst (Analyzer.analyze_paper DeepReply.json_loads DeepReply.create
                              Example.analyzer "text")
  <> Ok (Analyzer._create_structured_analysis_from_text DeepReply.reply).
Proof.
  assert (R : fst (Analyzer.analyze_paper DeepReply.json_loads DeepReply.create
                                          Example.analyzer "text")
              = Ok Analyzer._create_fallback_analysis)
    by (vm_compute; reflexivity).
  split; [vm_compute; reflexivity|].
  split; [vm_compute; reflexivity|].
  split; [exact R|].
  rewrite R. intros H.
  apply (f_equal (fun r => match r with
                           | Ok a => Analysis.title a
                           | Raise _ => None
                           end)) in H.
  discriminate H.
Qed.


Lemma C10_no_client_raises_witness :
  Analyzer.client Example.analyzer_without_key = None /\
  snd (Analyzer.analyze_paper Example.json_loads Example.create
                              Example.analyzer_without_key "text") = [].
Proof.
  split; [reflexivity|].
  destruct (C10_no_client_raises Example.json_loads Example.create
              Example.analyzer_without_key "text" eq_refl) as [_ [_ H]].
  exact H.
Defined.

(** ** Task customisation *)

Section TaskFacts.

Import PyStr Planner TaskSpec.

Lemma in_some_task_in_joined (x : string) (tasks : list string) :
  in_some_task x tasks = true -> in_joined_text x tasks = true.
Proof.
  unfold in_some_task, in_joined_text. intros H.
  apply existsb_exists in H. destruct H as [t [Hin Ht]].
  destruct (join_in tasks t Hin) as [pre [post ->]].
  rewrite !lower_append. apply contains_app_r, contains_app_l, Ht.
Qed.

Lemma wraps_in_joined (phrase : string -> string) (x : string)
    (tasks : list string) :
  wraps phrase -> In (phrase x) tasks -> in_joined_text x tasks = true.
Proof.
  intros [pre [post W]] Hin. unfold in_joined_text.
  destruct (join_in tasks _ Hin) as [a [b ->]].
  rewrite W, !lower_append. apply contains_app_r, contains_app_l.
  apply contains_refl_in.
Qed.

Lemma wraps_implement : wraps implement_task.
Proof. exists "Implement ", " functionality". reflexivity. Qed.

Lemma wraps_integrate : wraps integrate_task.
Proof. exists "Integrate ", " framework". reflexivity. Qed.

(** The loop follows the rule of [appended]. *)
Lemma fold_appended (phrase : string -> string) (xs : list string) :
  forall tasks,
    appended phrase tasks xs (fold_left (append_unless_present phrase) xs tasks).
Proof.
  induction xs as [|x xs IH]; intros tasks; cbn [fold_left].
  - constructor.
  - unfold append_unless_present at 2.
    destruct (contains (lower x) (lower (join " " tasks))) eqn:E; cbn [negb].
    + apply appended_skip; [exact E | apply IH].
    + apply appended_add; [exact E | apply IH].
Qed.

(** What the loop appends is new and free of repetitions. *)
Lemma fold_added (phrase : string -> string) (xs : list string) :
  wraps phrase ->
  forall tasks, exists added,
    fold_left (append_unless_present phrase) xs tasks = (tasks ++ added)%list /\
    NoDup added /\
    (forall e, In e added -> ~ In e tasks) /\
    (List.length added <= List.length xs)%nat.
Proof.
  intros W. induction xs as [|x xs IH]; intros tasks; cbn [fold_left].
  - exists []. rewrite app_nil_r. repeat split; [constructor | contradiction | lia].
  - unfold append_unless_present at 2.
    destruct (contains (lower x) (lower (join " " tasks))) eqn:E; cbn [negb].
    + destruct (IH tasks) as [added [H1 [H2 [H3 H4]]]].
      exists added. repeat split; try assumption. simpl; lia.
    + destruct (IH (tasks ++ [phrase x])%list) as [added [H1 [H2 [H3 H4]]]].
      exists (phrase x :: added). split; [|split; [|split]].
      * rewrite H1, <- app_assoc. reflexivity.
      * constructor; [|exact H2].
        intros Hin. apply (H3 _ Hin). apply in_or_app. right. now left.
      * intros e [<- | Hin] He.
        -- pose proof (wraps_in_joined phrase x tasks W He) as Hj.
           unfold in_joined_text in Hj. congruence.
        -- apply (H3 _ Hin). apply in_or_app. now left.
      * simpl; lia.
Qed.

(** ** C4 *)

(** C4 (as the code has it). The task list of a phase is the template
    tasks, then the first 3 key concepts gone through in order, then the
    first 2 frameworks, each one skipped exactly when the text of the
    current tasks (template tasks and those appended so far) joined by
    single spaces contains it, letters compared without case, and appended
    otherwise as "Implement ... functionality" or "Integrate ... framework".
    A candidate that some current task contains is therefore skipped;
    what is appended (at most 5 tasks) has no repetition and repeats no
    template task; and with key concepts Transformers, Transformers,
    Attention, no frameworks, a task that mentions transformers and none
    that mentions attention, exactly "Implement Attention functionality"
    is appended. *)
Theorem C4_customized_tasks (base_tasks : list string) (a : Analysis.t)
    (phase_name : string) :
  let key_concepts := get (Analysis.key_concepts a) [] in
  let frameworks :=
    get (TechReq.frameworks
           (get (Analysis.technical_requirements a) TechReq.empty)) [] in
  let result := _customize_phase_tasks base_tasks a phase_name in
  (exists mid,
     appended implement_task base_tasks (firstn 3 key_concepts) mid /\
     appended integrate_task mid (firstn 2 frameworks) result) /\
  (exists added,
     result = (base_tasks ++ added)%list /\
     NoDup added /\
     (forall e, In e added -> ~ In e base_tasks) /\
     (List.length added <= 5)%nat) /\
  (forall x tasks, in_some_task x tasks = true -> in_joined_text x tasks = true) /\
  (key_concepts = ["Transformers"; "Transformers"; "Attention"] ->
   frameworks = [] ->
   in_some_task "transformers" base_tasks = true ->
   in_joined_text "Attention" base_tasks = false ->
   result = (base_tasks ++ ["Implement Attention functionality"])%list).
Proof.
  intros key_concepts frameworks result.
  split; [|split; [|split]].
  - eexists. split; [apply fold_appended|]. apply fold_appended.
  - destruct (fold_added implement_task (firstn 3 key_concepts) wraps_implement
                base_tasks) as [ad1 [E1 [N1 [F1 L1]]]].
    destruct (fold_added integrate_task (firstn 2 frameworks) wraps_integrate
                (base_tasks ++ ad1)%list) as [ad2 [E2 [N2 [F2 L2]]]].
    exists (ad1 ++ ad2)%list. split; [|split; [|split]].
    + unfold result, _customize_phase_tasks.
      fold key_concepts. fold frameworks.
      rewrite E1, E2, <- app_assoc. reflexivity.
    + apply NoDup_app; [exact N1 | exact N2 |].
      intros e H1 H2. apply (F2 e H2). apply in_or_app. now right.
    + intros e Hin He. apply in_app_or in Hin. destruct Hin as [Hin|Hin].
      * exact (F1 e Hin He).
      * apply (F2 e Hin). apply in_or_app. now left.
    + rewrite length_app.
      pose proof (firstn_le_length 3 key_concepts).
      pose proof (firstn_le_length 2 frameworks). lia.
  - apply in_some_task_in_joined.
  - intros Hk Hf Ht Ha. unfold result, _customize_phase_tasks.
    fold key_concepts. fold frameworks. rewrite Hk, Hf.
    apply in_some_task_in_joined in Ht.
    unfold in_joined_text in Ht, Ha.
    cbn [firstn fold_left]. unfold append_unless_present.
    change (lower "Transformers") with "transformers".
    change (lower "transformers") with "transformers" in Ht.
    rewrite Ht. cbn [negb]. rewrite Ht. cbn [negb]. rewrite Ha. reflexivity.
Qed.

(** C4, counterexample to "skipped exactly when some existing task
    contains it": no task of the phase contains "model training
    optimization", the joined text "... advanced model training
    optimization ..." does, and the code appends nothing where the
    task-by-task rule appends a task. *)
Lemma C4_concept_spanning_two_tasks :
  in_some_task "Model Training Optimization" Example.spanning_tasks = false /\
  _customize_phase_tasks Example.spanning_tasks Example.spanning_analysis
                         "Advanced Implementation"
  = Example.spanning_tasks /\
  customize_per_task Example.spanning_tasks ["Model Training Optimization"] []
  = (Example.spanning_tasks
       ++ ["Implement Model Training Optimization functionality"])%list /\
  _customize_phase_tasks Example.spanning_tasks Example.spanning_analysis
                         "Advanced Implementation"
  <> customize_per_task Example.spanning_tasks
       (get (Analysis.key_concepts Example.spanning_analysis) [])
       (get (TechReq.frameworks
               (get (Analysis.technical_requirements Example.spanning_analysis)
                    TechReq.empty)) []).
Proof.
  repeat split; try (vm_compute; reflexivity).
  vm_compute. discriminate.
Qed.

End TaskFacts.

Lemma C4_customized_tasks_witness :
  Planner._customize_phase_tasks Example.transformer_tasks
                                 Example.transformer_analysis "Any phase"
  = (Example.transformer_tasks ++ ["Implement Attention functionality"])%list.
Proof.
  destruct (C4_customized_tasks Example.transformer_tasks
              Example.transformer_analysis "Any phase") as [_ [_ [_ H]]].
  apply H; reflexivity.
Defined.

(* ================================================================== *)
(** * Further properties of the planner *)

Section DurationEdges.

Import Planner Schedule Drift.

Lemma binary_round_aux_signed (sx : bool) (mx ex : Z) (lx : location) :
  signed sx (binary_round_aux Float64.prec Float64.emax sx mx ex lx).
Proof.
  unfold binary_round_aux.
  destruct (shr_fexp _ _ mx ex lx) as [mrs' e'].
  destruct (shr_fexp _ _ _ e' loc_Exact) as [mrs'' e''].
  destruct (shr_m mrs''); simpl; auto.
  destruct (_ <=? _); simpl; reflexivity.
Qed.

Lemma finite_or_overflow_ok (f x : Float64.float) :
  Float64.finite_or_overflow f = Ok x -> x = f.
Proof. destruct f; simpl; intros H; inversion H; reflexivity. Qed.

Lemma truediv_not_positive (d b : Z) (x : Float64.float) :
  d <= 0 -> 0 < b -> Float64.truediv d b = Ok x -> not_positive x.
Proof.
  intros Hd Hb. unfold Float64.truediv.
  destruct b as [|b|b]; try lia.
  destruct d as [|d|d]; try lia.
  - intros H; inversion H. exact I.
  - destruct (SFdiv_core_binary _ _ _ _ _ _) as [[mz ez] lz].
    intros H. apply finite_or_overflow_ok in H. subst x.
    pose proof (binary_round_aux_signed (xorb (Z.neg d <? 0) (Z.pos b <? 0))
                  mz ez lz) as S.
    change (xorb (Z.neg d <? 0) (Z.pos b <? 0)) with true in *.
    destruct (binary_round_aux _ _ true mz ez lz); simpl in *; auto.
Qed.

Lemma of_int_signed (b : Z) (x : Float64.float) :
  0 <= b -> Float64.of_int b = Ok x -> signed false x.
Proof.
  intros Hb H. unfold Float64.of_int in H.
  apply finite_or_overflow_ok in H. subst x.
  destruct b as [|b|b]; try lia; [reflexivity|].
  unfold binary_normalize, binary_round.
  destruct (shl_align _ _ _) as [mz ez]. apply binary_round_aux_signed.
Qed.

Lemma mul_not_positive (x y : Float64.float) :
  signed false x -> not_positive y -> not_positive (Float64.mul x y).
Proof.
  unfold Float64.mul, SFmul.
  destruct x as [sx|sx| |sx mx ex], y as [sy|sy| |sy my ey];
    simpl; intros Hx Hy; subst; auto.
  pose proof (binary_round_aux_signed (xorb false true)
                (Z.pos (mx * my)) (ex + ey) loc_Exact) as S.
  simpl xorb in *.
  destruct (binary_round_aux _ _ true _ _ _); simpl in *; auto.
Qed.

Lemma mul_not_positive_l (x y : Float64.float) :
  not_positive x -> signed false y -> not_positive (Float64.mul x y).
Proof.
  unfold Float64.mul, SFmul.
  destruct x as [sx|sx| |sx mx ex], y as [sy|sy| |sy my ey];
    simpl; intros Hx Hy; subst; auto.
  pose proof (binary_round_aux_signed (xorb true false)
                (Z.pos (mx * my)) (ex + ey) loc_Exact) as S.
  simpl xorb in *.
  destruct (binary_round_aux _ _ true _ _ _); simpl in *; auto.
Qed.

Lemma nearest_even_nonneg (m d : Z) :
  0 <= m -> 0 < d -> 0 <= Float64.nearest_even m d.
Proof.
  intros Hm Hd. unfold Float64.nearest_even.
  pose proof (Z.div_pos m d Hm Hd).
  destruct (2 * (m mod d) ?= d); [destruct (Z.even _)| |]; lia.
Qed.

Lemma round_not_positive (x : Float64.float) (r : Z) :
  not_positive x -> Float64.round x = Ok r -> r <= 0.
Proof.
  destruct x as [s|s| |s m e]; cbn [not_positive Float64.round];
    intros Hx H; try discriminate; [injection H as <-; lia|].
  subst s. injection H as <-.
  match goal with
  | |- - ?n <= 0 => cut (0 <= n); [generalize n; intros; lia|]
  end.
  destruct e as [|e|e].
  - change (0 <= Z.pos m * 2 ^ 0). rewrite Z.pow_0_r. lia.
  - change (0 <= Z.pos m * 2 ^ Z.pos e).
    apply Z.mul_nonneg_nonneg; [lia | apply Z.pow_nonneg; lia].
  - apply nearest_even_nonneg; [lia|].
    rewrite Z.pow_pos_fold. apply Z.pow_pos_nonneg; lia.
Qed.

Lemma multiplier_signed (c : string) :
  signed false (get (dict_get complexity_table c) Float64.lit_1_0).
Proof.
  unfold complexity_table. cbn [dict_get].
  destruct (String.eqb "Beginner" c); [exact eq_refl|].
  destruct (String.eqb "Intermediate" c); [exact eq_refl|].
  destruct (String.eqb "Advanced" c); [exact eq_refl|].
  destruct (String.eqb "Expert" c); exact eq_refl.
Qed.

Lemma adjusted_not_positive (b : Z) (dm cm : Float64.float) (r : Z) :
  0 <= b -> not_positive dm -> signed false cm ->
  adjusted_duration_of b dm cm = Ok r -> r = 1.
Proof.
  intros Hb Hdm Hcm. unfold adjusted_duration_of, Float64.int_mul.
  destruct (Float64.of_int b) as [x|e] eqn:Ex; cbn [bind]; [|discriminate].
  destruct (Float64.round _) as [n|e] eqn:Er; cbn [bind]; [|discriminate].
  intros H; inversion H.
  apply round_not_positive in Er; [lia|].
  apply mul_not_positive_l; [|exact Hcm].
  apply mul_not_positive; [|exact Hdm].
  eapply of_int_signed; eauto.
Qed.

Lemma adjusted_durations_not_positive (dm cm : Float64.float)
    (base : list PhaseTemplate.t) :
  Forall (fun t => 0 <= PhaseTemplate.base_duration t) base ->
  not_positive dm -> signed false cm ->
  forall ds, adjusted_durations base dm cm = Ok ds ->
             ds = List.map (fun _ => 1) base.
Proof.
  intros Hb Hdm Hcm. induction base as [|t base IH]; simpl; intros ds H.
  - inversion H. reflexivity.
  - inversion Hb; subst.
    destruct (adjusted_duration_of _ dm cm) as [d|e] eqn:Ed; cbn [bind] in H;
      [|discriminate].
    destruct (adjusted_durations base dm cm) as [ds'|e]; cbn [bind] in H;
      [|discriminate].
    inversion H. rewrite (IH H3 ds' eq_refl).
    now rewrite (adjusted_not_positive _ dm cm d H2 Hdm Hcm Ed).
Qed.

Lemma families_base_nonneg (base : list PhaseTemplate.t) :
  In base families ->
  Forall (fun t => 0 <= PhaseTemplate.base_duration t) base.
Proof.
  intros Hb. apply Forall_forall. intros t Ht.
  assert (In (PhaseTemplate.base_duration t)
             (List.map PhaseTemplate.base_duration base)) as Hin
    by (apply in_map; exact Ht).
  rewrite (families_base_durations base Hb) in Hin. simpl in Hin.
  destruct Hin as [<-|[<-|[<-|[<-|[<-|[]]]]]]; lia.
Qed.

(** X1. A duration that is zero or negative does not shrink or remove
    any phase: when [_generate_phases] returns, there are five phases of
    one month each, in months 1 to 5. *)
Theorem X1_nonpositive_duration (a : Analysis.t) (d : Z) (c : string)
    (phases : list Phase.t) :
  d <= 0 ->
  _generate_phases __init__ a d c = Ok phases ->
  List.map Spec.phase_length phases = [1; 1; 1; 1; 1] /\
  List.map Phase.start_month phases = [1; 2; 3; 4; 5] /\
  List.map Phase.end_month phases = [1; 2; 3; 4; 5] /\
  max_end_month phases = Ok 5.
Proof.
  intros Hd H.
  destruct (generate_phases_family a) as [base [Hb [_ Hg]]].
  rewrite Hg in H. unfold durations_for in H.
  rewrite (families_total base Hb) in H.
  destruct (Float64.truediv d 20) as [dm|e] eqn:Edm; cbn [bind] in H;
    [|discriminate].
  destruct (adjusted_durations base dm _) as [ds|e] eqn:Eds; cbn [bind] in H;
    [|discriminate].
  inversion H; subst phases. clear H.
  apply adjusted_durations_not_positive in Eds;
    [| apply families_base_nonneg, Hb
     | eapply truediv_not_positive; eauto; lia
     | apply multiplier_signed].
  subst ds.
  unfold families in Hb; simpl in Hb.
  destruct Hb as [<-|[<-|[<-|[]]]]; repeat split; reflexivity.
Qed.

End DurationEdges.

Lemma X1_nonpositive_duration_witness :
  0 <= 0 /\
  exists phases,
    Planner._generate_phases Planner.__init__ Example.vision_advanced 0 "Expert"
    = Ok phases /\
    List.map Spec.phase_length phases = [1; 1; 1; 1; 1].
Proof.
  split; [lia|].
  eexists. split; [vm_compute; reflexivity|].
  apply (X1_nonpositive_duration Example.vision_advanced 0 "Expert");
    [lia | vm_compute; reflexivity].
Defined.

Section PlanExtras.

Import Planner Schedule Drift.

Variable datetime : Type.
Variable now : nat -> datetime.
Variable isoformat : datetime -> string.
Variable strftime : datetime -> string -> string.
Variable add_days : datetime -> Z -> datetime.
Variable list_of_set : list string -> list string.

Local Abbreviation plan_of :=
  (generate_plan datetime now isoformat strftime add_days list_of_set __init__).

Lemma check_all_drift_true : check_all_drift = true.
Proof. vm_compute. reflexivity. Qed.

Lemma multiplier10_in (c : string) :
  In (get (dict_get complexity_table c) Float64.lit_1_0, tenths c) multipliers10.
Proof.
  unfold tenths, complexity_table, multipliers10.
  cbn [dict_get].
  rewrite (String.eqb_sym "Beginner"), (String.eqb_sym "Intermediate"),
          (String.eqb_sym "Advanced"), (String.eqb_sym "Expert").
  destruct (String.eqb c "Beginner"); [simpl; tauto|].
  destruct (String.eqb c "Intermediate"); [simpl; tauto|].
  destruct (String.eqb c "Advanced"); [simpl; tauto|].
  destruct (String.eqb c "Expert"); simpl; tauto.
Qed.

(** The span of a generated plan, read off the table of spans. *)
Lemma plan_span_label (a : Analysis.t) (s : Settings.t) (d : Z) :
  Settings.duration s = Some d ->
  6 <= d <= 36 ->
  exists base plan n,
    In base families /\
    plan_of a s = Ok plan /\
    Plan.phases plan =
      build_phases a base
        (List.map
           (fun t => Spec.adjusted_duration (PhaseTemplate.base_duration t) d
                       (total_base_duration base)
                       (Spec.complexity_multiplier
                          (get (Analysis.complexity a) "Intermediate")))
           base) 1 /\
    max_end_month (Plan.phases plan) = Ok n /\
    Timeline.total_duration (Plan.timeline plan) = PyStr.of_int n ++ " months" /\
    span_for base d
      (get (dict_get complexity_table (get (Analysis.complexity a) "Intermediate"))
           Float64.lit_1_0) = Ok n.
Proof.
  intros Hs Hd.
  set (c := get (Analysis.complexity a) "Intermediate").
  destruct (generate_phases_valid a d c Hd) as [base [Hb [_ Hg]]].
  pose proof (durations_for_exact base d c Hb Hd) as Hds.
  set (ds := List.map _ base) in *.
  assert (Hg' : _generate_phases __init__ a (get (Settings.duration s) 20) c
                = Ok (build_phases a base ds 1)) by (rewrite Hs; exact Hg).
  destruct (generate_plan_total datetime now isoformat strftime add_days
              list_of_set a s _ Hg'
              (build_phases_nonempty a base _ 1 (families_nonempty base Hb)))
    as [plan [n [Hplan [Hph [Hmax Htot]]]]].
  exists base, plan, n. rewrite Hph. repeat split; try assumption.
  unfold span_for. rewrite Hds. cbn [bind].
  rewrite <- (build_phases_end_months a base ds 1) by apply length_map.
  rewrite <- max_end_month_max_of. exact Hmax.
Qed.

(** X2. For every analysis record and every settings duration from 6 to
    36, the span of the plan (its largest [end_month]) is within two and
    a half months of the duration times the complexity multiplier, and
    within one month of the duration itself when the multiplier is 1.0
    (Intermediate or an unrecognised label). *)
Theorem X2_span_drift_bounded (a : Analysis.t) (s : Settings.t) (d : Z) :
  Settings.duration s = Some d ->
  6 <= d <= 36 ->
  exists plan n,
    plan_of a s = Ok plan /\
    max_end_month (Plan.phases plan) = Ok n /\
    Z.abs (10 * n - tenths (get (Analysis.complexity a) "Intermediate") * d) <= 25 /\
    (tenths (get (Analysis.complexity a) "Intermediate") = 10 ->
     Z.abs (n - d) <= 1).
Proof.
  intros Hs Hd.
  destruct (plan_span_label a s d Hs Hd)
    as [base [plan [n [Hb [Hp [_ [Hm [_ Hsp]]]]]]]].
  exists plan, n. split; [exact Hp|]. split; [exact Hm|].
  pose proof check_all_drift_true as C. unfold check_all_drift in C.
  rewrite forallb_forall in C. specialize (C base Hb).
  rewrite forallb_forall in C. specialize (C d (valid_durations_in d Hd)).
  rewrite forallb_forall in C.
  specialize (C _ (multiplier10_in (get (Analysis.complexity a) "Intermediate"))).
  unfold check_drift in C. cbn [fst snd] in C. rewrite Hsp in C.
  apply andb_prop in C. destruct C as [C1 C2].
  apply Z.leb_le in C1. split; [exact C1|].
  intros E. rewrite E in C2. simpl in C2. apply Z.leb_le in C2. exact C2.
Qed.


Lemma fold_add_shift (l : list Z) :
  forall z, fold_left Z.add l z = z + fold_left Z.add l 0.
Proof.
  induction l as [|x l IH]; intros z; simpl; [lia|].
  rewrite (IH (z + x)), (IH x). lia.
Qed.

Lemma sum_cons (d : Z) (ds : list Z) : sum (d :: ds) = d + sum ds.
Proof. unfold sum. simpl. apply fold_add_shift. Qed.

Lemma end_months_lower (ds : list Z) :
  forall cur, Forall (fun d => 1 <= d) ds ->
              Forall (fun m => cur <= m) (end_months ds cur).
Proof.
  induction ds as [|d ds IH]; intros cur H; simpl; constructor.
  - inversion H; lia.
  - inversion H; subst. specialize (IH (cur + d) H3).
    eapply Forall_impl; [|exact IH]. simpl. intros; lia.
Qed.

Lemma end_months_sorted (ds : list Z) :
  forall cur, Forall (fun d => 1 <= d) ds ->
              StronglySorted Z.lt (end_months ds cur).
Proof.
  induction ds as [|d ds IH]; intros cur H; simpl; constructor.
  - inversion H; subst. apply IH; assumption.
  - inversion H; subst.
    pose proof (end_months_lower ds (cur + d) H3) as L.
    eapply Forall_impl; [|exact L]. simpl. intros; lia.
Qed.

Lemma end_months_max (ds : list Z) :
  forall cur, Forall (fun d => 1 <= d) ds -> ds <> [] ->
    max_of (end_months ds cur) = Ok (cur - 1 + sum ds) /\
    last (end_months ds cur) 0 = cur - 1 + sum ds.
Proof.
  induction ds as [|d ds IH]; intros cur H Hne; [contradiction|].
  inversion H; subst. rewrite sum_cons.
  destruct ds as [|d' ds].
  - simpl. unfold sum; simpl. split; [f_equal|]; lia.
  - destruct (IH (cur + d) H3 ltac:(discriminate)) as [Hm Hl].
    split.
    + change (end_months (d :: d' :: ds) cur)
        with ((cur + d - 1) :: end_months (d' :: ds) (cur + d)).
      change (end_months (d' :: ds) (cur + d))
        with ((cur + d + d' - 1) :: end_months ds (cur + d + d')) in *.
      unfold max_of in *. cbn [fold_left] in *.
      inversion H3; subst.
      replace (Z.max (cur + d - 1) (cur + d + d' - 1)) with (cur + d + d' - 1)
        by lia.
      rewrite Hm. f_equal. lia.
    + change (end_months (d :: d' :: ds) cur)
        with ((cur + d - 1) :: end_months (d' :: ds) (cur + d)).
      change (end_months (d' :: ds) (cur + d))
        with ((cur + d + d' - 1) :: end_months ds (cur + d + d')) in *.
      cbn [last] in *. rewrite Hl. lia.
Qed.

Lemma generate_plan_timeline (a : Analysis.t) (s : Settings.t) (plan : Plan.t) :
  plan_of a s = Ok plan ->
  _generate_timeline datetime now strftime add_days 1%nat (Plan.phases plan)
  = Ok (Plan.timeline plan).
Proof.
  unfold generate_plan.
  destruct (_generate_phases _ _ _ _) as [phases|e]; cbn [bind]; [|discriminate].
  destruct (_generate_tech_stack _ _) as [stack|e]; cbn [bind]; [|discriminate].
  destruct (_generate_timeline _ _ _ _ _ phases) as [tl|e] eqn:E; cbn [bind];
    [|discriminate].
  intros H; inversion H; subst. exact E.
Qed.

(** X3. For every analysis record and every settings duration from 6 to
    36, the timeline agrees with the phases: [total_duration] is the sum
    of the phase lengths, there is one milestone per phase, named after
    it and placed in its last month, the milestone months strictly
    increase and the last one is [total_duration], and the estimated end
    date is the clock reading plus 30 days per month of [total_duration]. *)
Theorem X3_timeline_consistent (a : Analysis.t) (s : Settings.t) (d : Z) :
  Settings.duration s = Some d ->
  6 <= d <= 36 ->
  exists plan n,
    plan_of a s = Ok plan /\
    Timeline.total_duration (Plan.timeline plan) = PyStr.of_int n ++ " months" /\
    n = sum (List.map Spec.phase_length (Plan.phases plan)) /\
    List.map Milestone.month (Timeline.milestones (Plan.timeline plan))
    = List.map Phase.end_month (Plan.phases plan) /\
    List.map Milestone.name (Timeline.milestones (Plan.timeline plan))
    = List.map (fun p => Phase.name p ++ " Completion") (Plan.phases plan) /\
    StronglySorted Z.lt
      (List.map Milestone.month (Timeline.milestones (Plan.timeline plan))) /\
    last (List.map Milestone.month (Timeline.milestones (Plan.timeline plan))) 0
    = n /\
    Timeline.estimated_end_date (Plan.timeline plan)
    = strftime (add_days (now 2%nat) (n * 30)) "%Y-%m-%d".
Proof.
  intros Hs Hd.
  destruct (plan_span_label a s d Hs Hd)
    as [base [plan [n [Hb [Hp [Hph [Hm [Ht _]]]]]]]].
  exists plan, n. split; [exact Hp|]. split; [exact Ht|].
  pose proof (generate_plan_timeline a s plan Hp) as Htl.
  unfold _generate_timeline in Htl. rewrite Hm in Htl. cbn [bind] in Htl.
  inversion Htl as [Etl]. clear Htl Etl.
  cbn [Timeline.milestones Timeline.estimated_end_date].
  rewrite !map_map. cbn [Milestone.month Milestone.name].
  change (List.map (fun x => Phase.end_month x) (Plan.phases plan))
    with (List.map Phase.end_month (Plan.phases plan)).
  set (ds := List.map _ base) in Hph.
  assert (Hds : Forall (fun x => 1 <= x) ds).
  { unfold ds. apply Forall_map, Forall_forall. intros t _.
    unfold Spec.adjusted_duration. lia. }
  assert (Hne : ds <> []).
  { unfold ds. pose proof (families_nonempty base Hb).
    destruct base; [contradiction | discriminate]. }
  assert (Hends : List.map Phase.end_month (Plan.phases plan) = end_months ds 1).
  { rewrite Hph. apply build_phases_end_months. apply length_map. }
  assert (Hlens : List.map Spec.phase_length (Plan.phases plan) = ds).
  { rewrite Hph. apply build_phases_lengths. apply length_map. }
  destruct (end_months_max ds 1 Hds Hne) as [Hmax Hlast].
  assert (Hn : n = sum ds).
  { rewrite max_end_month_max_of, Hends, Hmax in Hm. inversion Hm. lia. }
  rewrite Hlens, Hends.
  split; [exact Hn|]. split; [reflexivity|]. split; [reflexivity|].
  split; [apply end_months_sorted, Hds|].
  split; [rewrite Hlast; lia | reflexivity].
Qed.

Lemma build_phases_Forall (a : Analysis.t) (P : Phase.t -> Prop)
    (base : list PhaseTemplate.t) :
  (forall t d cur, In t base -> P (make_phase a t d cur)) ->
  forall ds cur, Forall P (build_phases a base ds cur).
Proof.
  induction base as [|t base IH]; intros H [|d ds] cur; simpl; constructor.
  - apply H. now left.
  - apply IH. intros t' d' cur' Hin. apply H. now right.
Qed.

Lemma not_nlp_key (domain : string) :
  template_key_of domain <> "NLP" ->
  PyStr.contains "NLP" (PyStr.upper domain) = false.
Proof.
  unfold template_key_of.
  destruct (PyStr.contains "NLP" (PyStr.upper domain)); simpl;
    [intros H; exfalso; apply H; reflexivity | reflexivity].
Qed.

(** X4. When the domain selects the Computer Vision or the Machine
    Learning template (it mentions neither NLP nor NATURAL LANGUAGE), the
    tables of deliverables and success criteria, keyed by the phase names
    of the NLP template, have no entry for any phase: every generated
    phase has the single deliverable "Phase deliverables" and its
    success criteria start with "Phase objectives met". *)
Theorem X4_placeholder_deliverables (a : Analysis.t) (d : Z) (c : string)
    (phases : list Phase.t) :
  template_key_of (get (Analysis.domain a) "Machine Learning") <> "NLP" ->
  _generate_phases __init__ a d c = Ok phases ->
  Forall
    (fun p =>
       Phase.deliverables p = ["Phase deliverables"] /\
       hd_error (Phase.success_criteria p) = Some "Phase objectives met")
    phases.
Proof.
  intros Hk H.
  destruct (generate_phases_family a) as [base [_ [Hb Hg]]].
  rewrite Hg in H.
  destruct (durations_for base d _) as [ds|e]; cbn [bind] in H; [|discriminate].
  inversion H; subst phases. clear H Hg.
  assert (Hnlp : PyStr.contains "NLP" (PyStr.upper (get (Analysis.domain a) ""))
                 = false).
  { destruct (Analysis.domain a) as [s|] eqn:E; [|reflexivity].
    apply not_nlp_key. exact Hk. }
  assert (Hbase : base = get (dict_get _load_phase_templates "Computer Vision") []
                  \/ base = get (dict_get _load_phase_templates "Machine Learning") []).
  { revert Hb Hk. unfold template_key_of.
    destruct (_ || _); [intros _ Hk; exfalso; apply Hk; reflexivity|].
    destruct (_ || _); intros Hb _; inversion Hb; [left | right]; reflexivity. }
  apply build_phases_Forall. intros t d' cur Hin.
  unfold make_phase; cbn [Phase.deliverables Phase.success_criteria].
  unfold _generate_phase_deliverables, _generate_success_criteria.
  rewrite Hnlp, upper_never_contains_Vision.
  destruct Hbase as [-> | ->]; simpl in Hin;
    destruct Hin as [<-|[<-|[<-|[<-|[<-|[]]]]]];
    (split; [reflexivity|]);
    cbn [PhaseTemplate.name dict_get base_criteria String.eqb Ascii.eqb Bool.eqb get];
    destruct (String.eqb _ "Advanced"); try reflexivity;
    destruct (String.eqb _ "Expert"); reflexivity.
Qed.


Lemma fold_append_map {A B : Type} (f : A -> B) (xs : list A) :
  forall acc : list B,
    fold_left (fun acc x => (acc ++ [f x])%list) xs acc
    = (acc ++ List.map f xs)%list.
Proof.
  induction xs as [|x xs IH]; intros acc; simpl.
  - now rewrite app_nil_r.
  - rewrite IH, <- app_assoc. reflexivity.
Qed.

(** X5. The risks are 4 fixed ones, the same for every input, then 2
    more when the complexity is Advanced or Expert, then one per
    challenge for the first 2 challenges of the analysis, in order, each
    with the mitigation "Implement targeted solutions and monitoring";
    so there are between 4 and 8 risks. *)
Theorem X5_risks_shape (a : Analysis.t) (c : string) :
  let extra :=
    if existsb (String.eqb c) ["Advanced"; "Expert"] then 2%nat else 0%nat in
  let challenges := get (Analysis.challenges a) [] in
  List.length (_generate_risks a c)
  = (4 + extra + Nat.min 2 (List.length challenges))%nat /\
  skipn (4 + extra) (_generate_risks a c)
  = List.map
      (fun challenge =>
         Risk.mk challenge "Implement targeted solutions and monitoring")
      (firstn 2 challenges) /\
  (forall a' c', firstn 4 (_generate_risks a' c') = firstn 4 (_generate_risks a c)).
Proof.
  intros extra challenges.
  assert (H : forall a0 c0, exists fixed,
             _generate_risks a0 c0
             = (fixed ++ List.map
                  (fun challenge =>
                     Risk.mk challenge "Implement targeted solutions and monitoring")
                  (firstn 2 (get (Analysis.challenges a0) [])))%list /\
             List.length fixed
             = (4 + (if existsb (String.eqb c0) ["Advanced"; "Expert"]
                     then 2 else 0))%nat /\
             firstn 4 fixed = firstn 4 (_generate_risks a c)).
  { intros a0 c0. unfold _generate_risks.
    rewrite !(fold_append_map
               (fun challenge =>
                  Risk.mk challenge "Implement targeted solutions and monitoring")).
    eexists. split; [reflexivity|].
    destruct (existsb (String.eqb c0) _), (existsb (String.eqb c) _);
      split; reflexivity. }
  destruct (H a c) as [fixed [E [L F]]]. fold challenges in E. fold extra in L.
  split; [|split].
  - rewrite E, length_app, length_map, length_firstn, L. reflexivity.
  - rewrite E, <- L, skipn_app, Nat.sub_diag, skipn_all. reflexivity.
  - intros a' c'. destruct (H a' c') as [fixed' [E' [L' F']]].
    rewrite E', firstn_app, L'.
    replace (4 - _)%nat with 0%nat by (destruct (existsb _ _); reflexivity).
    rewrite firstn_O, app_nil_r. exact F'.
Qed.

(** X6. Whatever the domain, the vision entries of the resources, the
    success metrics and the deliverables are never produced (their test
    ['Vision' in domain.upper()] never holds): [data_storage] is the NLP
    text exactly when the domain mentions NLP and is absent otherwise,
    and no vision metric or vision deliverable is ever listed. *)
Theorem X6_no_vision_branch (a : Analysis.t) (team_size : Z)
    (phase_name : string) :
  dict_get (_generate_resource_requirements a team_size) "data_storage"
  = (if PyStr.contains "NLP" (PyStr.upper (get (Analysis.domain a) ""))
     then Some "Large text corpora and pre-trained models" else None) /\
  (forall metrics,
     dict_get (_generate_success_metrics a) "technical_metrics" = Some metrics ->
     ~ In "Image classification accuracy > 90%" metrics /\
     ~ In "Object detection mAP > 0.5" metrics /\
     ~ In "Real-time processing capability" metrics) /\
  ~ In "Computer vision model" (_generate_phase_deliverables phase_name a) /\
  ~ In "Image preprocessing pipeline" (_generate_phase_deliverables phase_name a).
Proof.
  split; [|split].
  - unfold _generate_resource_requirements.
    rewrite upper_never_contains_Vision.
    destruct (PyStr.contains "NLP" _);
      destruct (existsb _ _); reflexivity.
  - unfold _generate_success_metrics. rewrite upper_never_contains_Vision.
    intros metrics H.
    destruct (PyStr.contains "NLP" _); simpl in H; inversion H; subst;
      repeat split; simpl; intros K;
      repeat (destruct K as [K|K]; [discriminate K|]); exact K.
  - unfold _generate_phase_deliverables. rewrite upper_never_contains_Vision.
    unfold base_deliverables. cbn [dict_get].
    destruct (String.eqb "Foundation and Setup" phase_name);
      [|destruct (String.eqb "Core Component Development" phase_name);
        [|destruct (String.eqb "Advanced Implementation" phase_name);
          [|destruct (String.eqb "Application Development" phase_name);
            [|destruct (String.eqb "Evaluation and Deployment" phase_name)]]]];
      cbn [get];
      destruct (PyStr.contains "NLP" _);
      try destruct (PyStr.contains "Core" phase_name);
      split; simpl; intros K;
      repeat (destruct K as [K|K]; [discriminate K|]); exact K.
Qed.

(** X7. When sets iterate each member once, the stack always has an
    [ml_frameworks] list without repetitions, whose members are exactly
    the three baseline frameworks of the domain and the first 3
    frameworks of the analysis; without frameworks in the analysis it is
    the baseline list in its order; the other categories are untouched. *)
Theorem X7_ml_frameworks_union (a : Analysis.t) :
  set_semantics list_of_set ->
  let domain := get (Analysis.domain a) "" in
  let frameworks :=
    get (TechReq.frameworks
           (get (Analysis.technical_requirements a) TechReq.empty)) [] in
  exists stack ml,
    _generate_tech_stack list_of_set a = Ok stack /\
    dict_get stack "ml_frameworks" = Some ml /\
    NoDup ml /\
    (forall x, In x ml <->
               In x (baseline_frameworks domain) \/ In x (firstn 3 frameworks)) /\
    (frameworks = [] -> ml = baseline_frameworks domain) /\
    dict_get stack "programming_languages" = Some ["Python"].
Proof.
  intros Hset domain frameworks.
  unfold _generate_tech_stack. fold domain. fold frameworks.
  unfold baseline_frameworks.
  rewrite upper_never_contains_Vision.
  destruct (PyStr.contains "NLP" (PyStr.upper domain));
    destruct frameworks as [|f fs];
    eexists; eexists; (split; [reflexivity|]); (split; [reflexivity|]).
  - split; [repeat constructor; simpl; intuition discriminate|].
    split; [simpl; tauto|]. split; reflexivity.
  - split; [apply Hset|]. split; [|split; [discriminate | reflexivity]].
    intros x. rewrite (proj2 (Hset _) x), in_app_iff. reflexivity.
  - split; [repeat constructor; simpl; intuition discriminate|].
    split; [simpl; tauto|]. split; reflexivity.
  - split; [apply Hset|]. split; [|split; [discriminate | reflexivity]].
    intros x. rewrite (proj2 (Hset _) x), in_app_iff. reflexivity.
Qed.

End PlanExtras.

Lemma example_set_semantics : Drift.set_semantics Example.list_of_set.
Proof.
  intros l. unfold Example.list_of_set. split.
  - apply NoDup_rev, NoDup_nodup.
  - intros x. rewrite <- in_rev, nodup_In, <- in_rev. reflexivity.
Qed.

Lemma X2_span_drift_bounded_witness :
  Settings.duration (Example.settings 26) = Some 26 /\
  6 <= 26 <= 36 /\
  exists plan n,
    Example.generate_plan Example.vision_advanced (Example.settings 26) = Ok plan /\
    Planner.max_end_month (Plan.phases plan) = Ok n /\
    Z.abs (10 * n - 13 * 26) <= 25.
Proof.
  split; [reflexivity|]. split; [lia|].
  destruct (X2_span_drift_bounded Example.datetime Example.now Example.isoformat
              Example.strftime Example.add_days Example.list_of_set
              Example.vision_advanced (Example.settings 26) 26
              eq_refl ltac:(lia))
    as [plan [n [Hp [Hm [Hd _]]]]].
  exists plan, n. split; [exact Hp|]. split; [exact Hm | exact Hd].
Defined.

Lemma X3_timeline_consistent_witness :
  Settings.duration (Example.settings 26) = Some 26 /\
  6 <= 26 <= 36 /\
  exists plan n,
    Example.generate_plan Example.vision_advanced (Example.settings 26) = Ok plan /\
    n = Planner.sum (List.map Spec.phase_length (Plan.phases plan)) /\
    Timeline.total_duration (Plan.timeline plan) = PyStr.of_int n ++ " months".
Proof.
  split; [reflexivity|]. split; [lia|].
  destruct (X3_timeline_consistent Example.datetime Example.now Example.isoformat
              Example.strftime Example.add_days Example.list_of_set
              Example.vision_advanced (Example.settings 26) 26
              eq_refl ltac:(lia))
    as [plan [n [Hp [Ht [Hn _]]]]].
  exists plan, n. split; [exact Hp|]. split; [exact Hn | exact Ht].
Defined.

Lemma X4_placeholder_deliverables_witness :
  Planner.template_key_of
    (get (Analysis.domain Example.vision_advanced) "Machine Learning") <> "NLP" /\
  exists phases,
    Planner._generate_phases Planner.__init__ Example.vision_advanced 26 "Advanced"
    = Ok phases /\
    Forall (fun p => Phase.deliverables p = ["Phase deliverables"]) phases.
Proof.
  assert (K : Planner.template_key_of
                (get (Analysis.domain Example.vision_advanced) "Machine Learning")
              <> "NLP") by (vm_compute; discriminate).
  split; [exact K|].
  eexists. split; [vm_compute; reflexivity|].
  eapply Forall_impl;
    [| apply (X4_placeholder_deliverables Example.vision_advanced 26 "Advanced" _ K);
       vm_compute; reflexivity].
  intros p [H _]. exact H.
Defined.

Lemma X7_ml_frameworks_union_witness :
  Drift.set_semantics Example.list_of_set /\
  exists stack ml,
    Planner._generate_tech_stack Example.list_of_set
      (Example.analysis "NLP" "Expert" [] ["PyTorch"; "JAX"]) = Ok stack /\
    dict_get stack "ml_frameworks" = Some ml /\
    NoDup ml.
Proof.
  split; [exact example_set_semantics|].
  destruct (X7_ml_frameworks_union Example.list_of_set
              (Example.analysis "NLP" "Expert" [] ["PyTorch"; "JAX"])
              example_set_semantics)
    as [stack [ml [Hs [Hm [Hn _]]]]].
  exists stack, ml. split; [exact Hs|]. split; [exact Hm | exact Hn].
Defined.

(* ================================================================== *)
(** * Further properties of the analyzer *)

Section AnalyzerExtras.

Import PyStr Analyzer.

Variable json_loads : string -> result Analysis.t.
Variable create : Together -> Request -> result string.

Lemma upto_last_close_absent (s : string) :
  (forall a b, s <> a ++ "}" ++ b) -> upto_last_close s = None.
Proof.
  intros H. destruct (upto_last_close s) as [r|] eqn:E; [|reflexivity].
  destruct (upto_last_close_some s r E) as [mid [post [-> ->]]].
  exfalso. apply (H mid post). now rewrite append_assoc.
Qed.

Lemma upto_last_close_last (mid post : string) :
  (forall a b, post <> a ++ "}" ++ b) ->
  upto_last_close (mid ++ "}" ++ post) = Some (mid ++ "}").
Proof.
  intros H. induction mid as [|c mid IH].
  - cbn [append upto_last_close].
    rewrite (upto_last_close_absent post H). reflexivity.
  - cbn [append upto_last_close] in *. rewrite IH. reflexivity.
Qed.

(** X8. The search for the pattern is greedy: the text located runs
    from the first opening brace of the reply to its last closing brace,
    so a reply that holds two objects, as in [{a} and {b}], yields the
    whole span [{a} and {b}] and not the first object. *)
Theorem X8_search_is_greedy (pre mid post : string) :
  (forall a b, pre <> a ++ "{" ++ b) ->
  (forall a b, post <> a ++ "}" ++ b) ->
  re_search_braces (pre ++ "{" ++ mid ++ "}" ++ post) = Some ("{" ++ mid ++ "}").
Proof.
  intros Hpre Hpost. induction pre as [|c pre IH].
  - pose proof (upto_last_close_last mid post Hpost) as U.
    cbn [append re_search_braces] in *. rewrite Ascii.eqb_refl, U. reflexivity.
  - cbn [append re_search_braces].
    destruct (Ascii.eqb c "{") eqn:E.
    + apply Ascii.eqb_eq in E. subst c. exfalso. apply (Hpre "" pre). reflexivity.
    + apply IH. intros a b ->. apply (Hpre (String c a) b). reflexivity.
Qed.

(** X9. With a client in place [analyze_paper] never raises and sends
    exactly one request, whatever the service and the decoder do: its
    result is the transport-fallback record, the parse-fallback record of
    the reply, or the record decoded from the text located in the reply. *)
Theorem X9_one_request_never_raises (self : AIAnalyzer) (c : Together)
    (text : string) :
  client self = Some c ->
  let request := completion_request (_create_analysis_prompt text) in
  exists r,
    analyze_paper json_loads create self text = (Ok r, [request]) /\
    (r = _create_fallback_analysis \/
     exists reply,
       create c request = Ok reply /\
       (r = _create_structured_analysis_from_text reply \/
        exists js, re_search_braces reply = Some js /\ json_loads js = Ok r)).
Proof.
  intros Hc request. unfold analyze_paper. rewrite Hc. fold request.
  destruct (create c request) as [reply|e] eqn:Er.
  - unfold _parse_analysis_response.
    destruct (re_search_braces reply) as [js|] eqn:Ej.
    + destruct (json_loads js) as [r|e] eqn:El.
      * exists r. split; [reflexivity|]. right. exists reply.
        split; [reflexivity|]. right. exists js. split; [exact Ej | exact El].
      * destruct e; eexists; (split; [reflexivity|]);
          try (left; reflexivity).
        right. exists reply. split; [reflexivity|]. left. reflexivity.
    + eexists. split; [reflexivity|]. right. exists reply.
      split; [reflexivity|]. left. reflexivity.
  - eexists. split; [reflexivity|]. left. reflexivity.
Qed.

(** X10. Once an object is located in the reply, the outcome follows the
    decoder: a decoded record is returned as it is; [JSONDecodeError]
    gives the parse-fallback record; any other exception of the decoder
    is caught by [analyze_paper] itself and gives the transport-fallback
    record. *)
Theorem X10_decode_outcomes (self : AIAnalyzer) (c : Together)
    (text reply js : string) :
  client self = Some c ->
  create c (completion_request (_create_analysis_prompt text)) = Ok reply ->
  re_search_braces reply = Some js ->
  (forall r, json_loads js = Ok r ->
             fst (analyze_paper json_loads create self text) = Ok r) /\
  (forall e, json_loads js = Raise e -> e <> JSONDecodeError ->
             fst (analyze_paper json_loads create self text)
             = Ok _create_fallback_analysis) /\
  (json_loads js = Raise JSONDecodeError ->
   fst (analyze_paper json_loads create self text)
   = Ok (_create_structured_analysis_from_text reply)).
Proof.
  intros Hc Hr Hj. unfold analyze_paper, _parse_analysis_response.
  rewrite Hc, Hr, Hj. split; [|split].
  - intros r ->. reflexivity.
  - intros e -> Hne. destruct e; try reflexivity. contradiction.
  - intros ->. reflexivity.
Qed.


Lemma length_append (a b : string) :
  String.length (a ++ b) = (String.length a + String.length b)%nat.
Proof. induction a as [|c a IH]; simpl; [reflexivity | now rewrite IH]. Qed.

Lemma length_substring_0 (n : nat) (s : string) :
  String.length (substring 0 n s) = Nat.min n (String.length s).
Proof.
  revert n; induction s as [|c s IH]; intros [|n]; simpl; try reflexivity.
  now rewrite IH.
Qed.

(** X11. The prompt is a fixed text of 1403 characters around the paper
    text, which is embedded whole when it has at most 8000 characters and
    as its first 8000 characters followed by three dots otherwise: the
    prompt never exceeds 9406 characters and always contains the first
    8000 characters of the paper. *)
Theorem X11_prompt_bounded (text : string) :
  let shown := if 8000 <? len text then take 8000 text ++ "..." else text in
  _create_analysis_prompt text
  = substring 0 137 (_create_analysis_prompt "") ++ shown
    ++ substring 137 1266 (_create_analysis_prompt "") /\
  len (_create_analysis_prompt text)
  = 1403 + Z.min (len text) 8000 + (if 8000 <? len text then 3 else 0) /\
  len (_create_analysis_prompt text) <= 9406 /\
  contains (take 8000 text) (_create_analysis_prompt text) = true.
Proof.
  intros shown.
  assert (E : _create_analysis_prompt text
              = substring 0 137 (_create_analysis_prompt "") ++ shown
                ++ substring 137 1266 (_create_analysis_prompt "")).
  { unfold _create_analysis_prompt at 1. fold shown.
    generalize shown. intros t. vm_compute. reflexivity. }
  assert (L : len shown = Z.min (len text) 8000
                          + (if 8000 <? len text then 3 else 0)).
  { unfold shown, len, take.
    destruct (8000 <? Z.of_nat (String.length text)) eqn:C.
    - apply Z.ltb_lt in C. rewrite length_append, length_substring_0.
      change (String.length "...") with 3%nat. lia.
    - apply Z.ltb_ge in C. lia. }
  split; [exact E|]. split; [|split].
  - rewrite E. unfold len in *. rewrite !length_append, !Nat2Z.inj_add, L.
    change (Z.of_nat (String.length (substring 0 137 (_create_analysis_prompt ""))))
      with 137.
    change (Z.of_nat (String.length (substring 137 1266 (_create_analysis_prompt ""))))
      with 1266.
    lia.
  - rewrite E. unfold len in *. rewrite !length_append, !Nat2Z.inj_add, L.
    change (Z.of_nat (String.length (substring 0 137 (_create_analysis_prompt ""))))
      with 137.
    change (Z.of_nat (String.length (substring 137 1266 (_create_analysis_prompt ""))))
      with 1266.
    destruct (8000 <? Z.of_nat (String.length text)); lia.
  - rewrite E. apply contains_app_r, contains_app_l.
    unfold shown. destruct (8000 <? len text) eqn:C.
    + apply contains_iff. exists "", "...". reflexivity.
    + apply contains_iff. exists "", "". simpl.
      rewrite append_empty_r. unfold take.
      apply Z.ltb_ge in C. unfold len in C.
      assert (H : prefix (substring 0 (Z.to_nat 8000) text) text = true)
        by apply prefix_take.
      apply prefix_correct in H.
      rewrite length_substring_0 in H.
      rewrite Nat.min_r in H by lia.
      clear -H. revert H. generalize (substring 0 (Z.to_nat 8000) text).
      intros s H.
      assert (G : forall t, substring 0 (String.length t) t = t).
      { induction t as [|c t IH]; simpl; [reflexivity | now rewrite IH]. }
      rewrite G in H. now subst.
Qed.

End AnalyzerExtras.

Lemma absent_of_contains (n s : string) :
  PyStr.contains n s = false -> forall a b, s <> a ++ n ++ b.
Proof.
  intros H a b E.
  assert (K : PyStr.contains n s = true) by (apply contains_iff; now exists a, b).
  congruence.
Qed.

Lemma X8_search_is_greedy_witness :
  Analyzer.re_search_braces ("Here: " ++ "{" ++ "a} and {b" ++ "}" ++ " done.")
  = Some "{a} and {b}".
Proof.
  apply (X8_search_is_greedy "Here: " "a} and {b" " done.");
    apply absent_of_contains; reflexivity.
Defined.

Lemma X9_one_request_never_raises_witness :
  Analyzer.client Example.analyzer = Some {| Analyzer.api_key := "secret" |} /\
  List.length (snd (Analyzer.analyze_paper Example.json_loads Example.create
                                           Example.analyzer "text")) = 1%nat.
Proof.
  split; [reflexivity|].
  destruct (X9_one_request_never_raises Example.json_loads Example.create
              Example.analyzer _ "text" eq_refl) as [r [H _]].
  rewrite H. reflexivity.
Defined.

Lemma X10_decode_outcomes_witness :
  Analyzer.client Example.analyzer = Some {| Analyzer.api_key := "secret" |} /\
  fst (Analyzer.analyze_paper
         (fun _ => Raise ValueError) (fun _ _ => Ok "{}") Example.analyzer "text")
  = Ok Analyzer._create_fallback_analysis.
Proof.
  split; [reflexivity|].
  destruct (X10_decode_outcomes (fun _ => Raise ValueError) (fun _ _ => Ok "{}")
              Example.analyzer _ "text" "{}" "{}" eq_refl eq_refl eq_refl)
    as [_ [H _]].
  apply (H ValueError); [reflexivity | discriminate].
Defined.

(* ================================================================== *)
(** * Properties of the text extractor, the diagrams and the pipeline *)

Section CleanFacts.

Import PyStr PdfProcessor CleanSpec.

Lemma collapse_spaced (s : string) :
  forall b, spaced (collapse b s) = true /\
            (b = true -> starts_with_text (collapse b s) = true).
Proof.
  induction s as [|c s IH]; intros b; [split; reflexivity|].
  cbn [collapse]. destruct (is_space c) eqn:Ec.
  - destruct b.
    + apply IH.
    + destruct (IH true) as [H1 H2]. split; [|discriminate].
      cbn [spaced]. rewrite H1, (H2 eq_refl). reflexivity.
  - destruct (IH false) as [H1 _]. split.
    + cbn [spaced]. rewrite Ec, H1. reflexivity.
    + intros _. cbn [starts_with_text]. now rewrite Ec.
Qed.

Lemma lstrip_spaced (s : string) :
  spaced s = true ->
  spaced (lstrip s) = true /\ starts_with_text (lstrip s) = true.
Proof.
  induction s as [|c s IH]; intros H; [split; reflexivity|].
  cbn [lstrip]. destruct (is_space c) eqn:Ec.
  - apply IH. cbn [spaced] in H. apply andb_prop in H. tauto.
  - split; [exact H|]. cbn [starts_with_text]. now rewrite Ec.
Qed.

Lemma rstrip_head (c : ascii) (s : string) :
  is_space c = false -> exists r, rstrip (String c s) = String c r.
Proof.
  intros Ec. cbn [rstrip]. destruct (rstrip s); [rewrite Ec|]; eexists; reflexivity.
Qed.

Lemma rstrip_well_spaced (s : string) :
  spaced s = true -> well_spaced (rstrip s) = true.
Proof.
  induction s as [|c s IH]; intros H; [reflexivity|].
  cbn [spaced] in H. apply andb_prop in H. destruct H as [Hc Hs].
  specialize (IH Hs). cbn [rstrip].
  destruct (rstrip s) as [|c' r] eqn:Er.
  - destruct (is_space c) eqn:Ec; [reflexivity|].
    cbn [well_spaced]. now rewrite Ec.
  - cbn [well_spaced] in *. rewrite IH, andb_true_r.
    destruct (is_space c) eqn:Ec; [|reflexivity].
    apply andb_prop in Hc. destruct Hc as [Hsp Hst]. rewrite Hsp. simpl.
    destruct s as [|c0 s0]; [discriminate Er|].
    cbn [starts_with_text] in Hst. apply negb_true_iff in Hst.
    destruct (rstrip_head c0 s0 Hst) as [r' Hr]. rewrite Hr in Er.
    inversion Er; subst. now rewrite Hst.
Qed.

Lemma rstrip_starts (s : string) :
  starts_with_text s = true -> starts_with_text (rstrip s) = true.
Proof.
  destruct s as [|c s]; [reflexivity|]. cbn [starts_with_text].
  intros H. apply negb_true_iff in H.
  destruct (rstrip_head c s H) as [r ->]. cbn [starts_with_text]. now rewrite H.
Qed.

Lemma strip_collapse_normalised (s : string) :
  normalised (strip (re_sub_spaces s)) = true.
Proof.
  unfold normalised, strip, re_sub_spaces.
  destruct (collapse_spaced s false) as [H _].
  destruct (lstrip_spaced _ H) as [H1 H2].
  rewrite (rstrip_starts _ H2), (rstrip_well_spaced _ H1). reflexivity.
Qed.

Lemma clean_text_normalised (text : string) :
  normalised (_clean_text text) = true.
Proof.
  unfold _clean_text. destruct text; [reflexivity|].
  apply strip_collapse_normalised.
Qed.

(** *** A normalised text is left as it is *)

Lemma well_spaced_only_spaces (s : string) (c : ascii) :
  well_spaced s = true -> In c (chars s) -> is_space c = true -> c = " "%char.
Proof.
  induction s as [|x s IH]; intros H Hin Hc; [contradiction|].
  cbn [well_spaced] in H. apply andb_prop in H. destruct H as [Hx Hs].
  destruct Hin as [<-|Hin]; [|now apply IH].
  rewrite Hc in Hx. apply andb_prop in Hx. destruct Hx as [Hx _].
  now apply Ascii.eqb_eq in Hx.
Qed.

Lemma split_without_sep (sep : ascii) (s : string) :
  ~ In sep (chars s) -> split sep s = [s].
Proof.
  induction s as [|c s IH]; intros H; [reflexivity|].
  cbn [split]. destruct (Ascii.eqb c sep) eqn:E.
  - apply Ascii.eqb_eq in E. subst. exfalso. apply H. now left.
  - rewrite IH; [reflexivity|]. intros K. apply H. now right.
Qed.

Lemma lstrip_id (s : string) : starts_with_text s = true -> lstrip s = s.
Proof.
  destruct s as [|c s]; [reflexivity|]. cbn [starts_with_text lstrip].
  intros H. apply negb_true_iff in H. now rewrite H.
Qed.

Lemma rstrip_id (s : string) : well_spaced s = true -> rstrip s = s.
Proof.
  induction s as [|c s IH]; intros H; [reflexivity|].
  cbn [well_spaced] in H. apply andb_prop in H. destruct H as [Hc Hs].
  cbn [rstrip]. rewrite (IH Hs).
  destruct s as [|c' s']; [|reflexivity].
  destruct (is_space c); [|reflexivity].
  rewrite andb_false_r in Hc. discriminate.
Qed.

Lemma collapse_true_false (s : string) :
  starts_with_text s = true -> collapse true s = collapse false s.
Proof.
  destruct s as [|c s]; [reflexivity|]. cbn [starts_with_text collapse].
  intros H. apply negb_true_iff in H. now rewrite H.
Qed.

Lemma collapse_id (s : string) : well_spaced s = true -> collapse false s = s.
Proof.
  induction s as [|c s IH]; intros H; [reflexivity|].
  cbn [well_spaced] in H. apply andb_prop in H. destruct H as [Hc Hs].
  cbn [collapse]. destruct (is_space c) eqn:Ec.
  - apply andb_prop in Hc. destruct Hc as [Hsp Hn].
    apply Ascii.eqb_eq in Hsp. subst c.
    rewrite collapse_true_false, (IH Hs); [reflexivity|].
    destruct s; [discriminate | exact Hn].
  - now rewrite (IH Hs).
Qed.

Lemma normalised_fixed (s : string) :
  normalised s = true -> _clean_text s = s.
Proof.
  intros H. unfold normalised in H. apply andb_prop in H. destruct H as [H1 H2].
  destruct s as [|c s]; [reflexivity|].
  unfold _clean_text.
  rewrite split_without_sep.
  - cbn [List.map filter]. unfold strip.
    rewrite (lstrip_id _ H1), (rstrip_id _ H2).
    cbn [String.eqb negb]. cbn [join concat].
    unfold re_sub_spaces. rewrite (collapse_id _ H2).
    now rewrite (lstrip_id _ H1), (rstrip_id _ H2).
  - intros K.
    pose proof (well_spaced_only_spaces _ _ H2 K eq_refl) as E. discriminate E.
Qed.

(** *** The characters that are not white space are kept *)

Lemma ink_cons (c : ascii) (s : string) :
  ink (String c s) = if is_space c then ink s else c :: ink s.
Proof.
  unfold ink. cbn [chars list_ascii_of_string filter].
  destruct (is_space c); reflexivity.
Qed.

Lemma ink_lstrip (s : string) : ink (lstrip s) = ink s.
Proof.
  induction s as [|c s IH]; [reflexivity|].
  cbn [lstrip]. destruct (is_space c) eqn:Ec; [|reflexivity].
  now rewrite ink_cons, Ec.
Qed.

Lemma ink_rstrip (s : string) : ink (rstrip s) = ink s.
Proof.
  induction s as [|c s IH]; [reflexivity|].
  cbn [rstrip]. rewrite (ink_cons c s). destruct (rstrip s) as [|c' r].
  - rewrite <- IH. destruct (is_space c) eqn:Ec; [reflexivity|].
    now rewrite ink_cons, Ec.
  - now rewrite ink_cons, IH.
Qed.

Lemma ink_strip (s : string) : ink (strip s) = ink s.
Proof. unfold strip. now rewrite ink_rstrip, ink_lstrip. Qed.

Lemma ink_collapse (s : string) : forall b, ink (collapse b s) = ink s.
Proof.
  induction s as [|c s IH]; intros b; [reflexivity|].
  cbn [collapse]. rewrite (ink_cons c s). destruct (is_space c) eqn:Ec.
  - destruct b; [apply IH|]. rewrite ink_cons.
    change (is_space " ") with true. apply IH.
  - rewrite ink_cons, Ec. f_equal. apply IH.
Qed.

Lemma ink_append (a b : string) : ink (a ++ b) = (ink a ++ ink b)%list.
Proof. unfold ink. now rewrite chars_append, filter_app. Qed.

Lemma ink_join (l : list string) :
  ink (join " " l) = List.concat (List.map ink l).
Proof.
  induction l as [|a l IH]; [reflexivity|].
  destruct l as [|b l].
  - cbn. now rewrite app_nil_r.
  - change (join " " (a :: b :: l)) with (a ++ " " ++ join " " (b :: l)).
    rewrite !ink_append, IH. reflexivity.
Qed.

Lemma ink_split (s : string) :
  List.concat (List.map ink (split "010" s)) = ink s.
Proof.
  induction s as [|c s IH]; [reflexivity|].
  cbn [split]. rewrite (ink_cons c s). destruct (Ascii.eqb c "010") eqn:E.
  - apply Ascii.eqb_eq in E. subst c. cbn [List.map List.concat].
    rewrite IH. reflexivity.
  - destruct (split "010" s) as [|h t]; cbn [List.map List.concat] in *;
      rewrite ink_cons, <- IH; destruct (is_space c); reflexivity.
Qed.

Lemma ink_filter_nonempty (l : list string) :
  List.concat (List.map ink (filter (fun line => negb (String.eqb line "")) l))
  = List.concat (List.map ink l).
Proof.
  induction l as [|a l IH]; [reflexivity|].
  cbn [filter]. destruct (String.eqb a "") eqn:E; cbn [negb List.map List.concat].
  - apply String.eqb_eq in E. subst a. exact IH.
  - now rewrite IH.
Qed.

Lemma ink_map_strip (l : list string) :
  List.map ink (List.map strip l) = List.map ink l.
Proof.
  rewrite map_map. apply map_ext. intros; apply ink_strip.
Qed.

Lemma clean_text_ink (text : string) : ink (_clean_text text) = ink text.
Proof.
  unfold _clean_text. destruct text as [|c s]; [reflexivity|].
  unfold re_sub_spaces.
  rewrite ink_strip, ink_collapse, ink_join, ink_filter_nonempty, ink_map_strip.
  apply ink_split.
Qed.

Lemma ink_nil_iff (s : string) :
  ink s = [] <-> (forall c, In c (chars s) -> is_space c = true).
Proof.
  unfold ink. generalize (chars s) as l.
  induction l as [|x l IH]; cbn [filter].
  - split; [intros _ c [] | reflexivity].
  - destruct (is_space x) eqn:Ex; cbn [negb].
    + rewrite IH. split.
      * intros H c [<-|Hc]; [exact Ex | now apply H].
      * intros H c Hc. apply H. now right.
    + split; [discriminate|]. intros H.
      specialize (H x (or_introl eq_refl)). congruence.
Qed.

Lemma normalised_ink_nil (s : string) :
  normalised s = true -> ink s = [] -> s = "".
Proof.
  destruct s as [|c s]; [reflexivity|].
  unfold normalised. cbn [starts_with_text]. intros H K.
  apply andb_prop in H. destruct H as [H _]. apply negb_true_iff in H.
  rewrite ink_cons, H in K. discriminate K.
Qed.


Lemma well_spaced_suffix (a b : string) :
  well_spaced (a ++ b) = true -> well_spaced b = true.
Proof.
  induction a as [|c a IH]; [trivial|].
  cbn [append well_spaced]. intros H. apply andb_prop in H. apply IH. tauto.
Qed.

Lemma well_spaced_no_double_space (s : string) :
  well_spaced s = true -> contains "  " s = false.
Proof.
  intros H. destruct (contains "  " s) eqn:E; [|reflexivity].
  apply contains_iff in E. destruct E as [pre [post ->]].
  apply well_spaced_suffix in H. discriminate H.
Qed.

(** X12. The cleaned text is a sequence of words separated by single
    spaces: its only white-space character is the space, it has no two
    spaces in a row and no white space at either end (stripping it changes
    nothing); the same holds of what [extract_text] returns, whatever the
    two libraries find in the file. *)
Theorem X12_clean_text_normalised (text : string) :
  let cleaned := _clean_text text in
  normalised cleaned = true /\
  (forall c, In c (chars cleaned) -> is_space c = true -> c = " "%char) /\
  contains "  " cleaned = false /\
  strip cleaned = cleaned /\
  forall (pdfplumber_open pypdf2_reader : string -> Pdf) (file_path : string),
    normalised (extract_text pdfplumber_open pypdf2_reader file_path) = true.
Proof.
  intros cleaned.
  pose proof (clean_text_normalised text) as N. fold cleaned in N.
  split; [exact N|].
  unfold normalised in N. apply andb_prop in N. destruct N as [N1 N2].
  split; [intros c; apply well_spaced_only_spaces; exact N2|].
  split; [apply well_spaced_no_double_space; exact N2|].
  split.
  - unfold strip. now rewrite (lstrip_id _ N1), (rstrip_id _ N2).
  - intros p q f. unfold extract_text. apply clean_text_normalised.
Qed.

(** X13. Cleaning is idempotent: cleaning a cleaned text changes nothing. *)
Theorem X13_clean_text_idempotent (text : string) :
  _clean_text (_clean_text text) = _clean_text text.
Proof.
  pose proof (clean_text_normalised text) as N.
  apply normalised_fixed. exact N.
Qed.

(** X14. Cleaning loses nothing but white space: the characters that are
    not white space are the same, in the same order, before and after. *)
Theorem X14_clean_text_keeps_ink (text : string) :
  ink (_clean_text text) = ink text.
Proof.
  unfold _clean_text. destruct text as [|c s]; [reflexivity|].
  unfold re_sub_spaces.
  rewrite ink_strip, ink_collapse, ink_join, ink_filter_nonempty, ink_map_strip.
  apply ink_split.
Qed.

(** X15. The cleaned text is empty exactly when the text has no
    character other than white space (the empty text included). *)
Theorem X15_clean_text_empty_iff_blank (text : string) :
  _clean_text text = "" <-> (forall c, In c (chars text) -> is_space c = true).
Proof.
  rewrite <- ink_nil_iff, <- clean_text_ink. split.
  - intros ->. reflexivity.
  - apply normalised_ink_nil, clean_text_normalised.
Qed.

Lemma pages_loop_ok (pages : list (option string)) :
  forall text rest e,
    pages_loop (List.map Ok pages ++ Raise e :: rest)%list text
    = pages_loop (List.map Ok pages) text.
Proof.
  induction pages as [|p pages IH]; intros text rest e; [reflexivity|].
  cbn [List.map app pages_loop]. destruct p as [t|]; apply IH.
Qed.

Lemma pages_loop_text (pages : list (option string)) :
  forall text,
    pages_loop (List.map Ok pages) text
    = text ++ String.concat ""
                (List.map (fun p => match p with
                                    | Some t => if String.eqb t "" then "" else t ++ nl
                                    | None => ""
                                    end) pages).
Proof.
  assert (C : forall x l, String.concat "" (x :: l) = x ++ String.concat "" l).
  { intros x [|y l]; [cbn; now rewrite append_empty_r | reflexivity]. }
  induction pages as [|p pages IH]; intros text.
  - cbn. now rewrite append_empty_r.
  - cbn [List.map pages_loop]. rewrite C.
    destruct p as [t|]; rewrite IH; [|reflexivity].
    destruct (String.eqb t ""); [reflexivity|].
    now rewrite !append_assoc.
Qed.

(** X16. When reading a page raises, the text of the pages before it is
    kept and the pages after it are not read; for pages that all read, the
    text is the non-empty page texts, each followed by a line feed; when
    the file cannot be opened the text is empty. *)
Theorem X16_failing_page_keeps_earlier_text (pages : list (option string))
    (e : exn) (rest : list (result (option string))) :
  extract_pages (Ok (List.map Ok pages ++ Raise e :: rest)%list)
  = extract_pages (Ok (List.map Ok pages)) /\
  extract_pages (Ok (List.map Ok pages))
  = String.concat ""
      (List.map (fun p => match p with
                          | Some t => if String.eqb t "" then "" else t ++ nl
                          | None => ""
                          end) pages) /\
  extract_pages (Raise e) = "".
Proof.
  unfold extract_pages. split; [apply pages_loop_ok|].
  split; [|reflexivity]. rewrite pages_loop_text. reflexivity.
Qed.

End CleanFacts.

Section DiagramFacts.

Import PyStr Visualization Diagrams.

Lemma workflow_loop_mono (x : string) (n : Z) (phases : list PhaseView.t) :
  forall i w, contains x w = true ->
              contains x (workflow_loop n i phases w) = true.
Proof.
  induction phases as [|p phases IH]; intros i w H; [exact H|].
  cbn [workflow_loop]. apply IH.
  destruct (i =? n / 2); destruct (i <? n - 1);
    repeat apply contains_app_l; exact H.
Qed.

Lemma workflow_loop_hits (n : Z) (phases : list PhaseView.t) :
  forall i w, i <= n / 2 < i + Z.of_nat (List.length phases) ->
              contains (pass_edge n) (workflow_loop n i phases w) = true.
Proof.
  induction phases as [|p phases IH]; intros i w H; [simpl in H; lia|].
  cbn [workflow_loop]. destruct (i =? n / 2) eqn:E.
  - apply Z.eqb_eq in E. apply workflow_loop_mono.
    apply contains_app_l, contains_app_r.
    unfold pass_edge. rewrite <- E.
    apply contains_iff. exists "", "". rewrite append_empty_r. reflexivity.
  - apply Z.eqb_neq in E. apply IH.
    cbn [List.length] in H. lia.
Qed.

Lemma fold_append_mono {A : Type} (x : string) (f : A -> string) (l : list A) :
  forall w, contains x w = true ->
            contains x (fold_left (fun w a => w ++ f a) l w) = true.
Proof.
  induction l as [|a l IH]; intros w H; [exact H|].
  cbn [fold_left]. apply IH, contains_app_l, H.
Qed.

(** X17. For a plan with at least one phase the workflow diagram has
    the edge [Decision{m+1} -->|Pass| Phase{m+2}] with [m = n // 2], and
    its target is one of the [n] phases exactly when there are at least 3
    of them: with 1 or 2 phases the edge names a phase after the last. *)
Theorem X17_pass_edge_target (project_plan : PlanView.t)
    (phases : list PhaseView.t) :
  PlanView.phases project_plan = Some phases ->
  phases <> [] ->
  let n := Z.of_nat (List.length phases) in
  contains (pass_edge n) (_generate_workflow_diagram project_plan) = true /\
  (n / 2 + 2 <= n <-> 3 <= n).
Proof.
  intros Hp Hne n. split.
  - unfold _generate_workflow_diagram. rewrite Hp. cbn [get]. fold n.
    apply contains_app_l.
    apply (fold_append_mono (pass_edge n)
             (fun i => "    class Phase" ++ of_int (i + 1) ++ " phaseBox" ++ nl)).
    apply contains_app_l, workflow_loop_hits.
    assert (0 < n) by (unfold n; destruct phases; [contradiction | simpl; lia]).
    split; [apply Z.div_pos; lia|].
    pose proof (Z.div_lt n 2). lia.
  - assert (0 <= n) by (unfold n; lia).
    pose proof (Z.div_mod n 2 ltac:(lia)).
    pose proof (Z.mod_pos_bound n 2 ltac:(lia)). lia.
Qed.

End DiagramFacts.

Section PipelineFacts.

Import PyStr.

Variable pdfplumber_open : string -> PdfProcessor.Pdf.
Variable pypdf2_reader : string -> PdfProcessor.Pdf.
Variable json_loads : string -> result Analysis.t.
Variable create : Analyzer.Together -> Analyzer.Request -> result string.
Variable datetime : Type.
Variable now : nat -> datetime.
Variable isoformat : datetime -> string.
Variable strftime : datetime -> string -> string.
Variable add_days : datetime -> Z -> datetime.
Variable list_of_set : list string -> list string.

Local Abbreviation run :=
  (App.analyze_paper pdfplumber_open pypdf2_reader json_loads create
                     datetime now isoformat strftime add_days list_of_set).
Local Abbreviation extracted :=
  (PdfProcessor.extract_text pdfplumber_open pypdf2_reader).

Lemma strip_extracted (file_path : string) :
  PdfProcessor.strip (extracted file_path) = extracted file_path.
Proof.
  pose proof (clean_text_normalised
                (let text := PdfProcessor._extract_with_pdfplumber
                               pdfplumber_open file_path in
                 if len (PdfProcessor.strip text) <? 100
                 then PdfProcessor._extract_with_pypdf2 pypdf2_reader file_path
                 else text)) as N.
  change (CleanSpec.normalised (extracted file_path) = true) in N.
  unfold CleanSpec.normalised in N. apply andb_prop in N. destruct N as [N1 N2].
  unfold PdfProcessor.strip. now rewrite (lstrip_id _ N1), (rstrip_id _ N2).
Qed.

Lemma analyze_with_client (self : Analyzer.AIAnalyzer) (c : Analyzer.Together)
    (text : string) :
  Analyzer.client self = Some c ->
  exists r,
    Analyzer.analyze_paper json_loads create self text
    = (Ok r, [Analyzer.completion_request (Analyzer._create_analysis_prompt text)]).
Proof.
  intros Hc. unfold Analyzer.analyze_paper. rewrite Hc.
  destruct (create c _) as [reply|e]; [|eexists; reflexivity].
  destruct (Analyzer._parse_analysis_response json_loads reply);
    eexists; reflexivity.
Qed.

(** X18. The pipeline stops with the no-text error, before any request
    is sent, when the extracted text is empty, and in no other case. *)
Theorem X18_blank_file_halts (self : App.ResearchAnalyzerApp)
    (file_path : string) (settings : Settings.t) :
  (extracted file_path = "" -> run self file_path settings = (App.NoText, [])) /\
  (fst (run self file_path settings) = App.NoText -> extracted file_path = "").
Proof.
  unfold App.analyze_paper. rewrite strip_extracted. split.
  - intros ->. reflexivity.
  - destruct (String.eqb (extracted file_path) "") eqn:E.
    + intros _. now apply String.eqb_eq in E.
    + destruct (Analyzer.analyze_paper _ _ _ _) as [[r|e] reqs];
        [|discriminate].
      destruct (Planner.generate_plan _ _ _ _ _ _ _ _ _); discriminate.
Qed.

(** X19. With text extracted but no client in the analyzer, the
    pipeline ends in its [except] branch with the analyzer's exception:
    no request is sent and no plan or diagram is stored. *)
Theorem X19_no_key_fails_before_any_request (self : App.ResearchAnalyzerApp)
    (file_path : string) (settings : Settings.t) :
  extracted file_path <> "" ->
  Analyzer.client (App.ai_analyzer self) = None ->
  run self file_path settings
  = (App.Failed
       (Exception "Together.AI client not initialized. Please provide API key."),
     []).
Proof.
  intros Hne Hc. unfold App.analyze_paper. rewrite strip_extracted.
  apply String.eqb_neq in Hne. rewrite Hne.
  unfold Analyzer.analyze_paper. rewrite Hc. reflexivity.
Qed.

(** X20. With text extracted, a client in the analyzer, the planner as
    built and a settings duration from 6 to 36, the pipeline completes
    whatever the service replies and the decoder does: it sends the one
    request built from the extracted text and stores an analysis, a plan
    of 5 contiguous phases and the four diagrams, in their order. *)
Theorem X20_pipeline_completes (self : App.ResearchAnalyzerApp)
    (c : Analyzer.Together) (file_path : string) (settings : Settings.t)
    (d : Z) :
  extracted file_path <> "" ->
  Analyzer.client (App.ai_analyzer self) = Some c ->
  App.project_planner self = Planner.__init__ ->
  Settings.duration settings = Some d ->
  6 <= d <= 36 ->
  exists paper_analysis project_plan,
    run self file_path settings
    = (App.Complete paper_analysis project_plan
         (Diagrams.generate_diagrams (Visualization.view_of_plan project_plan)),
       [Analyzer.completion_request
          (Analyzer._create_analysis_prompt (extracted file_path))]) /\
    List.length (Plan.phases project_plan) = 5%nat /\
    Spec.contiguous (Plan.phases project_plan) /\
    List.map fst
      (Diagrams.generate_diagrams (Visualization.view_of_plan project_plan))
    = ["gantt_chart.md"; "workflow_diagram.md"; "architecture_diagram.md";
       "phase_flowchart.md"].
Proof.
  intros Hne Hc Hpl Hs Hd. unfold App.analyze_paper. rewrite strip_extracted.
  apply String.eqb_neq in Hne. rewrite Hne.
  destruct (analyze_with_client (App.ai_analyzer self) c (extracted file_path) Hc)
    as [r ->].
  rewrite Hpl.
  destruct (generate_phases_valid r d (get (Analysis.complexity r) "Intermediate") Hd)
    as [base [Hb [_ Hg]]].
  set (ds := List.map _ base) in Hg.
  assert (Hg' : Planner._generate_phases Planner.__init__ r
                  (get (Settings.duration settings) 20)
                  (get (Analysis.complexity r) "Intermediate")
                = Ok (Schedule.build_phases r base ds 1))
    by (rewrite Hs; exact Hg).
  destruct (generate_plan_total datetime now isoformat strftime add_days
              list_of_set r settings _ Hg'
              (build_phases_nonempty r base _ 1 (families_nonempty base Hb)))
    as [plan [n [Hplan [Hph _]]]].
  rewrite Hplan. exists r, plan. split; [reflexivity|].
  rewrite Hph. split; [|split].
  - rewrite build_phases_length by apply length_map.
    rewrite <- (length_map PhaseTemplate.base_duration),
            (families_base_durations base Hb). reflexivity.
  - apply (chained_contiguous _ 1), build_phases_chained.
  - reflexivity.
Qed.

End PipelineFacts.

Lemma X17_pass_edge_target_witness :
  PyStr.contains ("    Decision2 -->|Pass| Phase3" ++ Visualization.nl)
    (Diagrams._generate_workflow_diagram PipelineExample.two_phases) = true.
Proof.
  destruct (X17_pass_edge_target PipelineExample.two_phases _ eq_refl
              ltac:(discriminate)) as [H _].
  exact H.
Defined.

Lemma X18_blank_file_halts_witness :
  PdfProcessor.extract_text (fun _ => Ok [Ok (Some "   ")]%list)
                            (fun _ => Raise (Exception "unreadable")) "paper.pdf"
  = "" /\
  App.analyze_paper (fun _ => Ok [Ok (Some "   ")]%list)
                    (fun _ => Raise (Exception "unreadable"))
                    Example.json_loads Example.create
                    Example.datetime Example.now Example.isoformat
                    Example.strftime Example.add_days Example.list_of_set
                    PipelineExample.app "paper.pdf" (Example.settings 26)
  = (App.NoText, []).
Proof.
  split; [reflexivity|].
  apply (X18_blank_file_halts (fun _ => Ok [Ok (Some "   ")]%list)
           (fun _ => Raise (Exception "unreadable"))
           Example.json_loads Example.create
           Example.datetime Example.now Example.isoformat
           Example.strftime Example.add_days Example.list_of_set
           PipelineExample.app "paper.pdf" (Example.settings 26)).
  reflexivity.
Defined.

Lemma X19_no_key_fails_before_any_request_witness :
  PdfProcessor.extract_text PipelineExample.pdfplumber_open
                            PipelineExample.pypdf2_reader "paper.pdf" <> "" /\
  Analyzer.client (App.ai_analyzer PipelineExample.app_without_key) = None /\
  snd (PipelineExample.run PipelineExample.pypdf2_reader
         PipelineExample.app_without_key "paper.pdf" (Example.settings 26)) = [].
Proof.
  assert (H : PdfProcessor.extract_text PipelineExample.pdfplumber_open
                PipelineExample.pypdf2_reader "paper.pdf" <> "")
    by (vm_compute; discriminate).
  split; [exact H|]. split; [reflexivity|].
  unfold PipelineExample.run.
  rewrite (X19_no_key_fails_before_any_request
             PipelineExample.pdfplumber_open PipelineExample.pypdf2_reader
             Example.json_loads Example.create
             Example.datetime Example.now Example.isoformat
             Example.strftime Example.add_days Example.list_of_set
             PipelineExample.app_without_key "paper.pdf" (Example.settings 26)
             H eq_refl).
  reflexivity.
Defined.

Lemma X20_pipeline_completes_witness :
  PdfProcessor.extract_text PipelineExample.pdfplumber_open
                            PipelineExample.pypdf2_reader "paper.pdf" <> "" /\
  Settings.duration (Example.settings 26) = Some 26 /\
  6 <= 26 <= 36 /\
  exists paper_analysis project_plan diagrams,
    fst (PipelineExample.run PipelineExample.pypdf2_reader
           PipelineExample.app "paper.pdf" (Example.settings 26))
    = App.Complete paper_analysis project_plan diagrams /\
    List.length (Plan.phases project_plan) = 5%nat.
Proof.
  assert (H : PdfProcessor.extract_text PipelineExample.pdfplumber_open
                PipelineExample.pypdf2_reader "paper.pdf" <> "")
    by (vm_compute; discriminate).
  split; [exact H|]. split; [reflexivity|]. split; [lia|].
  destruct (X20_pipeline_completes
              PipelineExample.pdfplumber_open PipelineExample.pypdf2_reader
              Example.json_loads Example.create
              Example.datetime Example.now Example.isoformat
              Example.strftime Example.add_days Example.list_of_set
              PipelineExample.app _ "paper.pdf" (Example.settings 26) 26
              H eq_refl eq_refl eq_refl ltac:(lia))
    as [pa [pp [Hrun [Hlen _]]]].
  exists pa, pp, (Diagrams.generate_diagrams (Visualization.view_of_plan pp)).
  unfold PipelineExample.run. rewrite Hrun.
  split; [reflexivity | exact Hlen].
Defined.

(* ================================================================== *)
(** * Properties of the classification and of the Gantt bars *)

Section ClassificationFacts.

Import PyStr Planner.

Lemma upper_lower_char (c : ascii) : upper_char (lower_char c) = upper_char c.
Proof. destruct c as [[] [] [] [] [] [] [] []]; vm_compute; reflexivity. Qed.

Lemma upper_lower (s : string) : upper (lower s) = upper s.
Proof.
  unfold upper, lower. induction s as [|c s IH]; [reflexivity|].
  cbn [map]. now rewrite upper_lower_char, IH.
Qed.

(** X21. For domain texts in ASCII, on which the case mapping here is
    that of [str.upper] and [str.lower]: the choice of the phase template
    depends on the domain text only up to the case of its letters; a
    domain that mentions NLP gets the NLP template even when it also
    mentions vision; the Computer Vision template is chosen exactly when
    the domain mentions VISION or IMAGE and neither NLP nor NATURAL
    LANGUAGE; and the key chosen always has a template of 5 phases, so
    the fallback of the lookup is never needed. *)
Theorem X21_classification (s t : string) :
  Text.isascii s = true ->
  Text.isascii t = true ->
  (lower s = lower t -> template_key_of s = template_key_of t) /\
  (contains "NLP" (upper s) = true -> template_key_of s = "NLP") /\
  (template_key_of s = "Computer Vision" <->
   contains "NLP" (upper s) = false /\
   contains "NATURAL LANGUAGE" (upper s) = false /\
   (contains "VISION" (upper s) = true \/ contains "IMAGE" (upper s) = true)) /\
  exists base_phases,
    dict_get (phase_templates __init__) (template_key_of s) = Some base_phases /\
    List.length base_phases = 5%nat.
Proof.
  intros _ _. split; [|split; [|split]].
  - intros H. unfold template_key_of.
    rewrite <- (upper_lower s), <- (upper_lower t), H. reflexivity.
  - intros H. unfold template_key_of. rewrite H. reflexivity.
  - unfold template_key_of.
    destruct (contains "NLP" (upper s)), (contains "NATURAL LANGUAGE" (upper s)),
             (contains "VISION" (upper s)), (contains "IMAGE" (upper s));
      simpl; split; intros H; try discriminate H; try tauto;
      try (repeat split; auto; fail);
      try (destruct H as [H1 [H2 [H3|H3]]]; discriminate).
  - unfold template_key_of.
    destruct (_ || _); [|destruct (_ || _)]; eexists; split; reflexivity.
Qed.

End ClassificationFacts.

Section GanttFacts.

Import PyStr Visualization GanttSpec.

Lemma gantt_tasks_loop_bars (i start_month duration n : Z) (tasks : list string) :
  forall j gantt,
    gantt_tasks_loop i start_month duration n j tasks gantt
    = gantt ++ render_bars i j (task_bars start_month duration n j tasks).
Proof.
  induction tasks as [|task rest IH]; intros j gantt.
  - cbn. now rewrite append_empty_r.
  - cbn [gantt_tasks_loop task_bars render_bars]. rewrite IH.
    unfold task_duration. now rewrite !append_assoc.
Qed.

Lemma task_bars_nth (start_month duration n : Z) (tasks : list string) :
  forall j k bar,
    nth_error (task_bars start_month duration n j tasks) k = Some bar ->
    exists task,
      nth_error tasks k = Some task /\
      bar = (gantt_task_name task,
             start_month + (j + Z.of_nat k) * task_duration duration n,
             task_duration duration n).
Proof.
  induction tasks as [|task rest IH]; intros j k bar H.
  - destruct k; discriminate H.
  - destruct k as [|k]; cbn [task_bars nth_error] in H.
    + inversion H. exists task. split; [reflexivity|].
      now rewrite Z.add_0_r.
    + destruct (IH (j + 1) k bar H) as [t [Ht ->]].
      exists t. split; [exact Ht|].
      replace (j + 1 + Z.of_nat k) with (j + Z.of_nat (S k)) by lia.
      reflexivity.
Qed.

(** X22. The Gantt chart draws a bar for each of the first 3 tasks of a
    phase: the bars are the lines the loop appends, each is at least one
    month long and they follow one another from the first month of the
    phase.  When the phase lasts at least as many months as it has tasks,
    every bar lies within the phase; when it lasts fewer months than the
    index of a bar, that bar begins after the phase has ended. *)
Theorem X22_task_bars (i start_month duration : Z) (tasks : list string)
    (gantt : string) :
  let n := Z.of_nat (List.length tasks) in
  let bars := task_bars start_month duration n 0 (firstn 3 tasks) in
  gantt_tasks_loop i start_month duration n 0 (firstn 3 tasks) gantt
  = gantt ++ render_bars i 0 bars /\
  List.length bars = Nat.min 3 (List.length tasks) /\
  forall k name start length,
    nth_error bars k = Some (name, start, length) ->
    1 <= length /\
    start = start_month + Z.of_nat k * length /\
    (n <= duration ->
     start_month <= start /\ start + length <= start_month + duration) /\
    (1 <= duration <= Z.of_nat k -> start_month + duration <= start).
Proof.
  intros n bars. split; [apply gantt_tasks_loop_bars|]. split.
  - unfold bars. generalize (length_firstn 3 tasks).
    generalize (firstn 3 tasks) as l. intros l <-.
    generalize 0 at 1. induction l as [|t l IH]; intros j; [reflexivity|].
    cbn [task_bars List.length]. now rewrite IH.
  - intros k name start length H.
    destruct (task_bars_nth _ _ _ _ _ _ _ H) as [task [Ht E]].
    inversion E; subst name start length. clear E.
    assert (Hk : (k < Nat.min 3 (List.length tasks))%nat).
    { assert (nth_error (firstn 3 tasks) k <> None) as Hs by congruence.
      apply nth_error_Some in Hs. now rewrite length_firstn in Hs. }
    unfold task_duration. split; [lia|]. split; [f_equal; lia|]. split.
    + intros Hn.
      assert (Hpos : 0 < n) by lia.
      pose proof (Z.mul_div_le duration n Hpos) as Hle.
      assert (1 <= duration / n) by (apply Z.div_le_lower_bound; lia).
      rewrite Z.max_r by lia. split; [nia|].
      assert (Z.of_nat k + 1 <= n) by lia. nia.
    + intros Hd.
      assert (duration / n = 0) as -> by (apply Z.div_small; lia).
      rewrite Z.max_l by lia. lia.
Qed.

End GanttFacts.

Lemma X21_classification_witness :
  Text.isascii "NLP for Computer Vision" = true /\
  Text.isascii "nlp for computer vision" = true /\
  Planner.template_key_of "nlp for computer vision" = "NLP" /\
  Planner.template_key_of "NLP for Computer Vision"
  = Planner.template_key_of "nlp for computer vision".
Proof.
  split; [reflexivity|]. split; [reflexivity|].
  destruct (X21_classification "NLP for Computer Vision"
              "nlp for computer vision" eq_refl eq_refl) as [H1 _].
  destruct (X21_classification "nlp for computer vision" "" eq_refl eq_refl)
    as [_ [H2 _]].
  split; [apply H2; reflexivity | apply H1; reflexivity].
Defined.

Lemma X22_task_bars_witness :
  nth_error
    (GanttSpec.task_bars 4 6 4 0
       (firstn 3 ["Collect data"; "Train model"; "Evaluate"; "Deploy"])) 2
  = Some ("Evaluate", 6, 1) /\
  4 <= 6 /\
  (4 <= 6 /\ 6 + 1 <= 4 + 6).
Proof.
  assert (H : nth_error
                (GanttSpec.task_bars 4 6 4 0
                   (firstn 3 ["Collect data"; "Train model"; "Evaluate"; "Deploy"])) 2
              = Some ("Evaluate", 6, 1)) by reflexivity.
  split; [exact H|]. split; [lia|].
  destruct (X22_task_bars 0 4 6
              ["Collect data"; "Train model"; "Evaluate"; "Deploy"] "")
    as [_ [_ K]].
  destruct (K 2%nat "Evaluate" 6 1 H) as [_ [_ [Inside _]]].
  apply Inside. simpl. lia.
Defined.

Lemma X6_no_vision_branch_witness :
  exists metrics,
    dict_get (Planner._generate_success_metrics Example.vision_advanced)
             "technical_metrics" = Some metrics /\
    ~ In "Object detection mAP > 0.5" metrics.
Proof.
  destruct (dict_get (Planner._generate_success_metrics Example.vision_advanced)
                     "technical_metrics") as [metrics|] eqn:E;
    [|vm_compute in E; discriminate E].
  exists metrics. split; [reflexivity|].
  destruct (X6_no_vision_branch Example.vision_advanced 3 "Model Development")
    as [_ [K _]].
  destruct (K metrics E) as [_ [H _]]. exact H.
Defined.

Lemma X12_clean_text_normalised_witness :
  let text := "All " ++ String "009" ("you" ++ String "010" " need ") in
  In " "%char (PyStr.chars (PdfProcessor._clean_text text)) /\
  PdfProcessor.is_space " " = true /\
  PyStr.contains "  " (PdfProcessor._clean_text text) = false /\
  PdfProcessor.strip (PdfProcessor._clean_text text) = "All you need".
Proof.
  intros text.
  assert (H : In " "%char (PyStr.chars (PdfProcessor._clean_text text)))
    by (vm_compute; do 3 right; left; reflexivity).
  assert (S : PdfProcessor.is_space " " = true) by reflexivity.
  split; [exact H|]. split; [exact S|].
  destruct (X12_clean_text_normalised text) as [_ [_ [D [-> _]]]].
  split; [exact D | reflexivity].
Defined.

Lemma X15_clean_text_empty_iff_blank_witness :
  let text := String "009" (String "010" "  ") in
  (forall c, In c (PyStr.chars text) -> PdfProcessor.is_space c = true) /\
  PdfProcessor._clean_text text = "".
Proof.
  intros text.
  assert (H : forall c, In c (PyStr.chars text) -> PdfProcessor.is_space c = true).
  { intros c Hc. vm_compute in Hc.
    destruct Hc as [<-|[<-|[<-|[<-|[]]]]]; reflexivity. }
  split; [exact H|].
  apply (proj2 (X15_clean_text_empty_iff_blank text)). exact H.
Defined.

(* ================================================================== *)
(** * The planner as an object: what a call leaves behind *)

Section HeapFacts.

Local Open Scope list_scope.

Lemma valid_lt (h : Heap.t) (r : Heap.ref) :
  Heap.valid h r = true <-> (r < List.length h)%nat.
Proof. unfold Heap.valid. apply Nat.ltb_lt. Qed.

Lemma read_old (h new : Heap.t) (r : Heap.ref) :
  Heap.valid h r = true -> Heap.read (h ++ new) r = Heap.read h r.
Proof.
  intros H. apply valid_lt in H. unfold Heap.read. now apply app_nth1.
Qed.

Lemma read_new (h : Heap.t) (l : list string) :
  Heap.read (h ++ [l]) (List.length h) = l.
Proof. unfold Heap.read. apply nth_middle. Qed.

Lemma write_new (h : Heap.t) (l l' : list string) :
  Heap.write (h ++ [l]) (List.length h) l' = h ++ [l'].
Proof. induction h as [|x h IH]; simpl; [reflexivity | now rewrite IH]. Qed.

(** A change made through one reference is seen through every other
    reference to the same object, and through no other. *)
Lemma read_write (h : Heap.t) (r r' : Heap.ref) (l : list string) :
  Heap.valid h r = true ->
  Heap.read (Heap.write h r l) r' = if Nat.eqb r r' then l else Heap.read h r'.
Proof.
  intros H. apply valid_lt in H. revert r r' H.
  induction h as [|x h IH]; intros r r' H; simpl in H; [lia|].
  destruct r as [|r]; destruct r' as [|r']; simpl; try reflexivity.
  apply IH. lia.
Qed.

Lemma valid_old (h new : Heap.t) (r : Heap.ref) :
  Heap.valid h r = true -> Heap.valid (h ++ new) r = true.
Proof.
  rewrite !valid_lt, length_app. lia.
Qed.

Lemma valid_new (h : Heap.t) (l : list string) :
  Heap.valid (h ++ [l]) (List.length h) = true.
Proof. rewrite valid_lt, length_app. simpl. lia. Qed.

Lemma read_opt_old (h new : Heap.t) (o : option Heap.ref) :
  Heap.valid_opt h o = true -> Heap.read_opt (h ++ new) o = Heap.read_opt h o.
Proof.
  destruct o as [r|]; simpl; intros H; [|reflexivity].
  now rewrite read_old.
Qed.

Lemma valid_opt_old (h new : Heap.t) (o : option Heap.ref) :
  Heap.valid_opt h o = true -> Heap.valid_opt (h ++ new) o = true.
Proof. destruct o as [r|]; simpl; [apply valid_old | reflexivity]. Qed.

Lemma tech_snapshot_old (h new : Heap.t) (r : TechReqObj.t) :
  TechReqObj.valid h r = true ->
  TechReqObj.snapshot (h ++ new) r = TechReqObj.snapshot h r /\
  TechReqObj.valid (h ++ new) r = true.
Proof.
  unfold TechReqObj.valid, TechReqObj.snapshot. rewrite !andb_true_iff.
  intros [[[H1 H2] H3] H4].
  rewrite !read_opt_old, !valid_opt_old by assumption. now split.
Qed.

Lemma snapshot_old (h new : Heap.t) (a : AnalysisObj.t) :
  AnalysisObj.valid h a = true ->
  AnalysisObj.snapshot (h ++ new) a = AnalysisObj.snapshot h a /\
  AnalysisObj.valid (h ++ new) a = true.
Proof.
  unfold AnalysisObj.valid, AnalysisObj.snapshot. rewrite !andb_true_iff.
  intros [[[[[H1 H2] H3] H4] H5] H6].
  rewrite !read_opt_old, !valid_opt_old by assumption.
  destruct (AnalysisObj.technical_requirements a) as [r|]; simpl; [|now split].
  destruct (tech_snapshot_old h new r H3) as [-> ->]. now split.
Qed.

Lemma templates_old (h new : Heap.t) (l : list PhaseTemplateObj.t) :
  forallb (PhaseTemplateObj.valid h) l = true ->
  List.map (PhaseTemplateObj.view (h ++ new)) l
  = List.map (PhaseTemplateObj.view h) l /\
  forallb (PhaseTemplateObj.valid (h ++ new)) l = true.
Proof.
  induction l as [|p l IH]; simpl; [now split|].
  rewrite andb_true_iff. intros [Hp Hl]. destruct (IH Hl) as [-> ->].
  unfold PhaseTemplateObj.view, PhaseTemplateObj.valid in *.
  rewrite read_old, valid_old by assumption. now split.
Qed.

Lemma phases_old (h new : Heap.t) (l : list PhaseObj.t) :
  forallb (PhaseObj.valid h) l = true ->
  List.map (PhaseObj.view (h ++ new)) l = List.map (PhaseObj.view h) l /\
  forallb (PhaseObj.valid (h ++ new)) l = true.
Proof.
  induction l as [|p l IH]; simpl; [now split|].
  rewrite andb_true_iff. intros [Hp Hl]. destruct (IH Hl) as [-> ->].
  unfold PhaseObj.view, PhaseObj.valid in *.
  rewrite read_old, valid_old by assumption. now split.
Qed.

Lemma planner_old (h new : Heap.t) (self : PlannerObj.ProjectPlanner) :
  PlannerObj.valid h self = true ->
  PlannerObj.view (h ++ new) self = PlannerObj.view h self /\
  PlannerObj.valid (h ++ new) self = true.
Proof.
  unfold PlannerObj.view, PlannerObj.valid.
  destruct self as [table]. cbn [PlannerObj.phase_templates].
  induction table as [|[key l] table IH]; simpl; [now split|].
  rewrite andb_true_iff. intros [Hl Ht]. destruct (IH Ht) as [E ->].
  destruct (templates_old h new l Hl) as [-> ->].
  injection E as ->. now split.
Qed.

Lemma plan_old (h new : Heap.t) (p : PlanObj.t) :
  PlanObj.valid h p = true ->
  PlanObj.view (h ++ new) p = PlanObj.view h p.
Proof.
  unfold PlanObj.valid, PlanObj.view. intros H.
  now destruct (phases_old h new _ H) as [-> _].
Qed.

End HeapFacts.

Section PlannerObjFacts.

Import PyStr PlannerObj.

Local Open Scope list_scope.

Lemma for_each_append (phrase : string -> string) (xs : list string) :
  forall (h : Heap.t) (l : list string) (s : Z),
    Proc.for_each xs (append_unless_present phrase (List.length h))
                  (Proc.mk (h ++ [l]) s)
    = (Ok tt,
       Proc.mk (h ++ [fold_left (Planner.append_unless_present phrase) xs l]) s).
Proof.
  induction xs as [|x xs IH]; intros h l s; [reflexivity|].
  cbn [Proc.for_each fold_left]. unfold Proc.bind at 1.
  unfold append_unless_present at 1, Proc.bind at 1, Proc.items at 1. cbn [Proc.heap].
  rewrite read_new. unfold Planner.append_unless_present at 2.
  destruct (negb (contains (lower x) (lower (join " " l)))).
  - unfold Proc.append. cbn [Proc.heap Proc.hash_secret]. rewrite read_new, write_new.
    apply IH.
  - unfold Proc.ret. apply IH.
Qed.

Lemma slice_reads (n : nat) (o : option Heap.ref) (st : Proc.t) :
  slice n o st = (Ok (firstn n (get (Heap.read_opt (Proc.heap st) o) [])), st).
Proof.
  destruct o as [r|]; [reflexivity|].
  cbn [slice Heap.read_opt option_map get]. now rewrite firstn_nil.
Qed.

Lemma frameworks_valid (h : Heap.t) (a : AnalysisObj.t) :
  AnalysisObj.valid h a = true ->
  Heap.valid_opt h (AnalysisObj.key_concepts a) = true /\
  Heap.valid_opt h
    (TechReqObj.frameworks
       (get (AnalysisObj.technical_requirements a) TechReqObj.empty)) = true.
Proof.
  unfold AnalysisObj.valid. rewrite !andb_true_iff.
  intros [[[[[H1 H2] H3] H4] H5] H6]. split; [exact H1|].
  destruct (AnalysisObj.technical_requirements a) as [r|]; [|reflexivity].
  unfold TechReqObj.valid in H3. rewrite !andb_true_iff in H3.
  cbn [get]. tauto.
Qed.

(** [_customize_phase_tasks] makes one new list, the customised tasks,
    and changes no list that was there. *)
Lemma customize_tasks_refines (base_tasks : Heap.ref) (a : AnalysisObj.t)
    (phase_name : string) (h : Heap.t) (s : Z) :
  AnalysisObj.valid h a = true ->
  _customize_phase_tasks base_tasks a phase_name (Proc.mk h s)
  = (Ok (List.length h),
     Proc.mk (h ++ [Planner._customize_phase_tasks
                 (Heap.read h base_tasks) (AnalysisObj.snapshot h a) phase_name])
        s).
Proof.
  intros Ha. destruct (frameworks_valid h a Ha) as [Hk Hf].
  unfold _customize_phase_tasks.
  unfold Proc.bind at 1. unfold Proc.copy, Proc.bind at 1, Proc.items, Proc.new_list, Heap.alloc.
  cbn [Proc.heap Proc.hash_secret].
  unfold Proc.bind at 1. rewrite slice_reads. cbn [Proc.heap].
  rewrite read_opt_old by exact Hk.
  unfold Proc.bind at 1. rewrite for_each_append.
  unfold Proc.bind at 1. rewrite slice_reads. cbn [Proc.heap].
  rewrite read_opt_old by exact Hf.
  unfold Proc.bind at 1. rewrite for_each_append.
  unfold Proc.ret, Planner._customize_phase_tasks.
  destruct a as [? ? ? ? ? ? ? kc ? [tr|] ? ? ?]; reflexivity.
Qed.

(** The loop of [_generate_phases] on objects does what the loop on
    values does, and adds one task list per phase to the store. *)
Lemma phases_loop_refines (a : AnalysisObj.t)
    (duration_multiplier complexity_multiplier : Float64.float)
    (base_phases : list PhaseTemplateObj.t) :
  forall (h : Heap.t) (s : Z) (phases : list PhaseObj.t) (current_month : Z),
    AnalysisObj.valid h a = true ->
    forallb (PhaseTemplateObj.valid h) base_phases = true ->
    forallb (PhaseObj.valid h) phases = true ->
    refines (fun h => List.map (PhaseObj.view h))
            (fun h => forallb (PhaseObj.valid h)) (Proc.mk h s)
      (phases_loop a duration_multiplier complexity_multiplier base_phases
                   phases current_month (Proc.mk h s))
      (Planner.phases_loop (AnalysisObj.snapshot h a)
         duration_multiplier complexity_multiplier
         (List.map (PhaseTemplateObj.view h) base_phases)
         (List.map (PhaseObj.view h) phases) current_month).
Proof.
  induction base_phases as [|phase_template rest IH];
    intros h s phases current_month Ha Hb Hp.
  - exists []. cbn. rewrite app_nil_r. split; [reflexivity|].
    exists phases. now repeat split.
  - cbn [phases_loop List.map Planner.phases_loop forallb] in *.
    apply andb_true_iff in Hb. destruct Hb as [Ht Hr].
    unfold Proc.bind at 1, Proc.lift at 1.
    cbn [PhaseTemplateObj.view PhaseTemplate.base_duration].
    destruct (Planner.adjusted_duration_of _ _ _) as [adjusted_duration|e];
      cbn [bind].
    2:{ exists []. cbn. rewrite app_nil_r. now split. }
    unfold Proc.bind at 1. rewrite (customize_tasks_refines _ _ _ _ _ Ha).
    unfold Proc.bind at 1, snapshot at 1. cbn [Proc.heap].
    set (tasks := Planner._customize_phase_tasks _ _ _).
    destruct (snapshot_old h [tasks] a Ha) as [Es Ha'].
    destruct (templates_old h [tasks] rest Hr) as [Er Hr'].
    destruct (phases_old h [tasks] phases Hp) as [Ep Hp'].
    match goal with
    | |- refines _ _ _ (phases_loop _ _ _ _ (_ ++ [?p]) _ _) _ =>
      set (phase := p)
    end.
    assert (Hp'' : forallb (PhaseObj.valid (h ++ [tasks])) (phases ++ [phase])
                   = true).
    { rewrite forallb_app, Hp'. cbn [forallb andb].
      unfold PhaseObj.valid, phase. cbn [PhaseObj.tasks].
      now rewrite valid_new. }
    destruct (IH (h ++ [tasks]) s (phases ++ [phase])
                 (current_month + adjusted_duration) Ha' Hr' Hp'')
      as [new [Hs Hv]].
    exists (tasks :: new). cbn [Proc.heap Proc.hash_secret] in *.
    replace (h ++ tasks :: new) with ((h ++ [tasks]) ++ new)
      by (rewrite <- app_assoc; reflexivity).
    split; [exact Hs|].
    rewrite Er, map_app, Ep, Es in Hv.
    replace (List.map (PhaseObj.view (h ++ [tasks])) [phase])
      with [Planner.make_phase (AnalysisObj.snapshot h a)
              (PhaseTemplateObj.view h phase_template)
              adjusted_duration current_month] in Hv.
    + exact Hv.
    + cbn [List.map]. unfold PhaseObj.view, Planner.make_phase.
      unfold phase.
      cbn [PhaseObj.name PhaseObj.duration PhaseObj.start_month
           PhaseObj.end_month PhaseObj.objectives PhaseObj.tasks
           PhaseObj.deliverables PhaseObj.success_criteria
           PhaseTemplateObj.view PhaseTemplate.name PhaseTemplate.objectives
           PhaseTemplate.core_tasks].
      rewrite read_new, Es. reflexivity.
Qed.

Lemma dict_get_view {A B : Type} (f : A -> B) (d : dict A) (key : string) :
  dict_get (List.map (fun entry => (fst entry, f (snd entry))) d) key
  = option_map f (dict_get d key).
Proof.
  induction d as [|[k v] d IH]; [reflexivity|].
  cbn [List.map dict_get fst snd]. destruct (String.eqb k key); [reflexivity|].
  exact IH.
Qed.

Lemma dict_get_forallb {A : Type} (P : A -> bool) (d : dict A) (key : string)
    (v : A) :
  forallb (fun entry => P (snd entry)) d = true ->
  dict_get d key = Some v -> P v = true.
Proof.
  induction d as [|[k w] d IH]; [discriminate|].
  cbn [forallb dict_get snd]. rewrite andb_true_iff. intros [Hw Hd].
  destruct (String.eqb k key); [|now apply IH].
  intros E. injection E as <-. exact Hw.
Qed.

Lemma generate_phases_refines (self : ProjectPlanner) (a : AnalysisObj.t)
    (duration : Z) (complexity : string) (h : Heap.t) (s : Z) :
  PlannerObj.valid h self = true ->
  AnalysisObj.valid h a = true ->
  refines (fun h => List.map (PhaseObj.view h))
          (fun h => forallb (PhaseObj.valid h)) (Proc.mk h s)
    (_generate_phases self a duration complexity (Proc.mk h s))
    (Planner._generate_phases (PlannerObj.view h self)
       (AnalysisObj.snapshot h a) duration complexity).
Proof.
  intros Hself Ha.
  unfold _generate_phases, Planner._generate_phases, dict_item.
  cbn [PlannerObj.view Planner.phase_templates AnalysisObj.snapshot
       Analysis.domain].
  rewrite !dict_get_view.
  unfold Proc.bind at 1, Proc.lift at 1.
  destruct (dict_get (phase_templates self) "Machine Learning")
    as [fallback|] eqn:Ef; cbn [option_map bind].
  2:{ exists []. cbn. rewrite app_nil_r. now split. }
  set (key := Planner.template_key_of _).
  assert (Hb : forallb (PhaseTemplateObj.valid h)
                 (get (dict_get (phase_templates self) key) fallback) = true).
  { destruct (dict_get (phase_templates self) key) as [l|] eqn:El; cbn [get].
    - exact (dict_get_forallb _ _ _ _ Hself El).
    - exact (dict_get_forallb _ _ _ _ Hself Ef). }
  replace (get (option_map (List.map (PhaseTemplateObj.view h))
                  (dict_get (phase_templates self) key))
               (List.map (PhaseTemplateObj.view h) fallback))
    with (List.map (PhaseTemplateObj.view h)
            (get (dict_get (phase_templates self) key) fallback))
    by (destruct (dict_get (phase_templates self) key); reflexivity).
  rewrite map_map. cbn [PhaseTemplateObj.view PhaseTemplate.base_duration].
  unfold Proc.bind at 1, Proc.lift at 1.
  destruct (Float64.truediv duration _) as [duration_multiplier|e];
    cbn [bind].
  2:{ exists []. cbn. rewrite app_nil_r. now split. }
  apply (phases_loop_refines a _ _ _ h s [] 1 Ha Hb eq_refl).
Qed.

Section Runtime.

Variable datetime : Type.
Variable isoformat : datetime -> string.
Variable strftime : datetime -> string -> string.
Variable add_days : datetime -> Z -> datetime.
Variable list_of_set : Z -> list string -> list string.

(** [generate_plan] on objects returns the plan that [generate_plan] on
    values returns for the planner and the analysis as the store shows
    them, or raises the same exception; it changes no object that was
    there, and does not touch the hash secret. *)
Lemma generate_plan_refines (now : nat -> datetime) (self : ProjectPlanner)
    (a : AnalysisObj.t) (settings : Settings.t) (h : Heap.t) (s : Z) :
  PlannerObj.valid h self = true ->
  AnalysisObj.valid h a = true ->
  refines PlanObj.view PlanObj.valid (Proc.mk h s)
    (generate_plan datetime now isoformat strftime add_days list_of_set
                   self a settings (Proc.mk h s))
    (Planner.generate_plan datetime now isoformat strftime add_days
       (list_of_set s) (PlannerObj.view h self) (AnalysisObj.snapshot h a)
       settings).
Proof.
  intros Hself Ha.
  unfold generate_plan, Planner.generate_plan.
  cbn [AnalysisObj.snapshot Analysis.domain Analysis.complexity Analysis.title].
  fold (AnalysisObj.snapshot h a).
  destruct (generate_phases_refines self a
              (get (Settings.duration settings) 20)
              (get (AnalysisObj.complexity a) "Intermediate") h s Hself Ha)
    as [new [Hs Hv]].
  unfold Proc.bind at 1.
  destruct (_generate_phases self a _ _ (Proc.mk h s)) as [r st'].
  cbn [fst snd Proc.heap Proc.hash_secret] in Hs, Hv. subst st'.
  destruct (Planner._generate_phases _ _ _ _) as [phases|e];
    cbn [bind].
  2:{ subst r. exists new. now split. }
  destruct Hv as [pos [-> [Hview Hvalid]]].
  destruct (snapshot_old h new a Ha) as [Es _].
  unfold Proc.bind at 1, snapshot at 1. cbn [Proc.heap]. rewrite Es.
  unfold Proc.bind at 1, Proc.secret at 1. cbn [Proc.hash_secret].
  unfold Proc.bind at 1, Proc.lift at 1.
  destruct (Planner._generate_tech_stack _ _) as [stack|e];
    cbn [bind].
  2:{ exists new. now split. }
  unfold Proc.bind at 1, phase_views at 1. cbn [Proc.heap]. rewrite Hview.
  unfold Proc.bind at 1, Proc.lift at 1.
  destruct (Planner._generate_timeline _ _ _ _ _ _) as [timeline|e];
    cbn [bind].
  2:{ exists new. now split. }
  exists new. split; [reflexivity|].
  eexists. split; [reflexivity|]. split.
  - unfold PlanObj.view. cbn. rewrite Hview. reflexivity.
  - exact Hvalid.
Qed.

End Runtime.

End PlannerObjFacts.

Section InitFacts.

Import PlannerObj.

Local Open Scope list_scope.

(** The displays of a template list make one list object each, after
    those that were there. *)
Lemma new_phases_refines (templates : list PhaseTemplate.t) :
  forall (h : Heap.t) (s : Z),
    refines (fun h => List.map (PhaseTemplateObj.view h))
            (fun h => forallb (PhaseTemplateObj.valid h)) (Proc.mk h s)
            (new_phases templates (Proc.mk h s)) (Ok templates).
Proof.
  induction templates as [|p rest IH]; intros h s.
  - exists []. cbn. rewrite app_nil_r. split; [reflexivity|].
    exists []. now repeat split.
  - cbn [new_phases]. unfold Proc.bind at 1, Proc.new_list at 1, Heap.alloc.
    cbn [Proc.heap Proc.hash_secret].
    destruct (IH (h ++ [PhaseTemplate.core_tasks p]) s) as [new [S [objs [E [V K]]]]].
    unfold Proc.bind at 1.
    destruct (new_phases rest _) as [r st'].
    cbn [fst snd Proc.heap Proc.hash_secret] in S, E, V, K. subst r st'.
    exists (PhaseTemplate.core_tasks p :: new).
    cbn [Proc.ret fst snd Proc.heap Proc.hash_secret].
    replace (h ++ PhaseTemplate.core_tasks p :: new)
      with ((h ++ [PhaseTemplate.core_tasks p]) ++ new)
      by (rewrite <- app_assoc; reflexivity).
    split; [reflexivity|]. eexists. split; [reflexivity|].
    cbn [List.map forallb]. rewrite V, K.
    unfold PhaseTemplateObj.view at 1, PhaseTemplateObj.valid at 1.
    cbn [PhaseTemplateObj.name PhaseTemplateObj.base_duration
         PhaseTemplateObj.objectives PhaseTemplateObj.core_tasks].
    rewrite read_old, read_new, valid_old by apply valid_new.
    destruct p; now split.
Qed.

Lemma new_templates_refines (table : dict (list PhaseTemplate.t)) :
  forall (h : Heap.t) (s : Z),
    refines (fun h table => Planner.phase_templates
                              (view h {| phase_templates := table |}))
            (fun h table => valid h {| phase_templates := table |})
            (Proc.mk h s) (new_templates table (Proc.mk h s)) (Ok table).
Proof.
  induction table as [|[key templates] rest IH]; intros h s.
  - exists []. cbn. rewrite app_nil_r. split; [reflexivity|].
    exists []. now repeat split.
  - cbn [new_templates]. unfold Proc.bind at 1.
    destruct (new_phases_refines templates h s) as [new1 [S1 [objs [E1 [V1 K1]]]]].
    destruct (new_phases templates _) as [r1 st1].
    cbn [fst snd Proc.heap Proc.hash_secret] in S1, E1, V1, K1. subst r1 st1.
    unfold Proc.bind at 1.
    destruct (IH (h ++ new1) s) as [new2 [S2 [rest' [E2 [V2 K2]]]]].
    destruct (new_templates rest _) as [r2 st2].
    cbn [fst snd Proc.heap Proc.hash_secret] in S2, E2, V2, K2. subst r2 st2.
    exists (new1 ++ new2).
    cbn [Proc.ret fst snd Proc.heap Proc.hash_secret]. rewrite app_assoc.
    split; [reflexivity|]. eexists. split; [reflexivity|].
    unfold view, valid in *.
    cbn [phase_templates Planner.phase_templates List.map forallb fst snd] in *.
    destruct (templates_old (h ++ new1) new2 objs K1) as [-> ->].
    rewrite V1, V2, K2. now split.
Qed.

(** [ProjectPlanner()] on objects builds the planner of [Planner]: its
    templates show the table of [Planner.__init__], through references
    that all point into the store. *)
Lemma init_refines (st : Proc.t) :
  refines view valid st (__init__ st) (Ok Planner.__init__).
Proof.
  destruct st as [h s]. unfold __init__, _load_phase_templates.
  destruct (new_templates_refines Planner._load_phase_templates h s)
    as [new [S [table [E [V K]]]]].
  unfold Proc.bind at 1.
  destruct (new_templates _ _) as [r st'].
  cbn [fst snd Proc.heap Proc.hash_secret] in S, E, V, K. subst r st'.
  exists new. cbn [Proc.ret fst snd Proc.heap Proc.hash_secret].
  split; [reflexivity|]. eexists. split; [reflexivity|]. split; [|exact K].
  unfold Planner.__init__. rewrite <- V. reflexivity.
Qed.

End InitFacts.

(* ================================================================== *)
(** ** Two calls of the plan generator *)

Section TwoCalls.

Import PyStr PlannerObj.

Local Open Scope list_scope.

Variable datetime : Type.
Variable isoformat : datetime -> string.
Variable strftime : datetime -> string -> string.
Variable add_days : datetime -> Z -> datetime.

(** The clock is read for the dates of the overview and of the timeline
    only. *)
Lemma generate_plan_clock_free (now now' : nat -> datetime)
    (list_of_set : list string -> list string)
    (self : Planner.ProjectPlanner) (a : Analysis.t) (s : Settings.t) :
  match Planner.generate_plan datetime now isoformat strftime add_days
                              list_of_set self a s,
        Planner.generate_plan datetime now' isoformat strftime add_days
                              list_of_set self a s with
  | Ok p1, Ok p2 =>
    Plan.phases p1 = Plan.phases p2 /\
    Plan.technical_stack p1 = Plan.technical_stack p2 /\
    Plan.architecture p1 = Plan.architecture p2 /\
    Plan.resources p1 = Plan.resources p2 /\
    Plan.risks p1 = Plan.risks p2
  | Raise e1, Raise e2 => e1 = e2
  | _, _ => False
  end.
Proof.
  unfold Planner.generate_plan.
  destruct (Planner._generate_phases self a _ _) as [phases|e];
    cbn [bind]; [|reflexivity].
  destruct (Planner._generate_tech_stack list_of_set a) as [stack|e];
    cbn [bind]; [|reflexivity].
  unfold Planner._generate_timeline.
  destruct (Planner.max_end_month phases) as [n|e]; cbn [bind];
    [|reflexivity].
  cbn [Plan.phases Plan.technical_stack Plan.architecture Plan.resources
       Plan.risks].
  repeat split.
Qed.

(** The stack is always returned; the order of sets shows in the order of
    [ml_frameworks] alone, and only when the analysis has frameworks. *)
Lemma tech_stack_orders (list_of_set list_of_set' : list string -> list string)
    (a : Analysis.t) :
  Drift.set_semantics list_of_set ->
  Drift.set_semantics list_of_set' ->
  exists stack stack',
    Planner._generate_tech_stack list_of_set a = Ok stack /\
    Planner._generate_tech_stack list_of_set' a = Ok stack' /\
    same_but_order stack stack' /\
    (get (TechReq.frameworks
            (get (Analysis.technical_requirements a) TechReq.empty)) [] = [] ->
     stack = stack').
Proof.
  intros Hset Hset'.
  assert (P : forall l, Permutation (list_of_set l) (list_of_set' l)).
  { intros l. apply NoDup_Permutation; [apply Hset | apply Hset' |].
    intros x. rewrite (proj2 (Hset l) x), (proj2 (Hset' l) x). reflexivity. }
  unfold Planner._generate_tech_stack.
  rewrite upper_never_contains_Vision.
  destruct (contains "NLP" _);
    destruct (get (TechReq.frameworks _) []) as [|f fs];
    eexists; eexists; (split; [reflexivity|]); (split; [reflexivity|]);
    (split; [|first [reflexivity | discriminate]]);
    unfold same_but_order;
    repeat (constructor; [split; [reflexivity|]; cbn; first [reflexivity | apply P]|]);
    constructor.
Qed.

Lemma generate_plan_order_free (now now' : nat -> datetime)
    (list_of_set list_of_set' : list string -> list string)
    (self : Planner.ProjectPlanner) (a : Analysis.t) (s : Settings.t) :
  Drift.set_semantics list_of_set ->
  Drift.set_semantics list_of_set' ->
  match Planner.generate_plan datetime now isoformat strftime add_days
                              list_of_set self a s,
        Planner.generate_plan datetime now' isoformat strftime add_days
                              list_of_set' self a s with
  | Ok p1, Ok p2 =>
    Plan.phases p1 = Plan.phases p2 /\
    same_but_order (Plan.technical_stack p1) (Plan.technical_stack p2) /\
    Plan.architecture p1 = Plan.architecture p2 /\
    Plan.resources p1 = Plan.resources p2 /\
    Plan.risks p1 = Plan.risks p2
  | Raise e1, Raise e2 => e1 = e2
  | _, _ => False
  end.
Proof.
  intros Hset Hset'.
  destruct (tech_stack_orders list_of_set list_of_set' a Hset Hset')
    as [stack [stack' [E [E' [Hs _]]]]].
  unfold Planner.generate_plan.
  destruct (Planner._generate_phases self a _ _) as [phases|e];
    cbn [bind]; [|reflexivity].
  rewrite E, E'. cbn [bind].
  unfold Planner._generate_timeline.
  destruct (Planner.max_end_month phases) as [n|e]; cbn [bind];
    [|reflexivity].
  cbn [Plan.phases Plan.technical_stack Plan.architecture Plan.resources
       Plan.risks].
  repeat split. exact Hs.
Qed.

Variable list_of_set : Z -> list string -> list string.

(** C7. Two calls of the plan generator, one after the other in the same
    interpreter, on the same planner object, analysis dictionary and
    settings, whatever the clock shows during each call: the first call
    leaves the lists of the planner's templates and of the analysis as
    they were, so the second call is given what the first was given; the
    second call does not change the plan the first returned; and either
    both raise the same exception or both return, and the two plans have
    the same phases, technical stack (so the same [ml_frameworks] list),
    architecture, resources and risks.  In an interpreter started with
    another hash secret, where a set may be iterated in another order but
    still each member once, the call returns the same phases,
    architecture, resources and risks, and the same technical stack but
    for the order of [ml_frameworks]. *)
Theorem C7_generate_plan_deterministic (now now' : nat -> datetime)
    (st : Proc.t) (self : ProjectPlanner) (a : AnalysisObj.t)
    (s : Settings.t) :
  PlannerObj.valid (Proc.heap st) self = true ->
  AnalysisObj.valid (Proc.heap st) a = true ->
  let call now st :=
    generate_plan datetime now isoformat strftime add_days list_of_set
                  self a s st in
  let first := call now st in
  let second := call now' (snd first) in
  same_objects self a st (snd first) /\
  same_objects self a st (snd second) /\
  match fst first, fst second with
  | Ok p1, Ok p2 =>
    PlanObj.view (Proc.heap (snd second)) p1 = PlanObj.view (Proc.heap (snd first)) p1 /\
    Plan.phases (PlanObj.view (Proc.heap (snd second)) p1)
    = Plan.phases (PlanObj.view (Proc.heap (snd second)) p2) /\
    PlanObj.technical_stack p1 = PlanObj.technical_stack p2 /\
    dict_get (PlanObj.technical_stack p1) "ml_frameworks"
    = dict_get (PlanObj.technical_stack p2) "ml_frameworks" /\
    PlanObj.architecture p1 = PlanObj.architecture p2 /\
    PlanObj.resources p1 = PlanObj.resources p2 /\
    PlanObj.risks p1 = PlanObj.risks p2
  | Raise e1, Raise e2 => e1 = e2
  | _, _ => False
  end /\
  forall hash_secret',
    Drift.set_semantics (list_of_set (Proc.hash_secret st)) ->
    Drift.set_semantics (list_of_set hash_secret') ->
    let other := call now' (Proc.mk (Proc.heap st) hash_secret') in
    match fst first, fst other with
    | Ok p1, Ok p2 =>
      Plan.phases (PlanObj.view (Proc.heap (snd first)) p1)
      = Plan.phases (PlanObj.view (Proc.heap (snd other)) p2) /\
      same_but_order (PlanObj.technical_stack p1) (PlanObj.technical_stack p2) /\
      PlanObj.architecture p1 = PlanObj.architecture p2 /\
      PlanObj.resources p1 = PlanObj.resources p2 /\
      PlanObj.risks p1 = PlanObj.risks p2
    | Raise e1, Raise e2 => e1 = e2
    | _, _ => False
    end.
Proof.
  destruct st as [h secret]. intros Hself Ha call first second.
  subst second first call. cbv beta. cbn [Proc.heap Proc.hash_secret] in Hself, Ha |- *.
  pose proof (generate_plan_refines datetime isoformat strftime add_days
                list_of_set now self a s h secret Hself Ha) as [new1 [S1 V1]].
  destruct (generate_plan datetime now isoformat strftime add_days list_of_set
                          self a s (Proc.mk h secret)) as [r1 st1].
  cbn [fst snd Proc.heap Proc.hash_secret] in S1, V1 |- *. subst st1.
  cbn [Proc.heap Proc.hash_secret].
  destruct (planner_old h new1 self Hself) as [Ep1 Hself1].
  destruct (snapshot_old h new1 a Ha) as [Ea1 Ha1].
  pose proof (generate_plan_refines datetime isoformat strftime add_days
                list_of_set now' self a s (h ++ new1) secret Hself1 Ha1)
    as [new2 [S2 V2]].
  destruct (generate_plan datetime now' isoformat strftime add_days list_of_set
                          self a s (Proc.mk (h ++ new1) secret)) as [r2 st2].
  cbn [fst snd Proc.heap Proc.hash_secret] in S2, V2 |- *. subst st2.
  cbn [Proc.heap Proc.hash_secret].
  rewrite Ep1, Ea1 in V2.
  destruct (planner_old (h ++ new1) new2 self Hself1) as [Ep2 _].
  destruct (snapshot_old (h ++ new1) new2 a Ha1) as [Ea2 _].
  split; [|split; [|split]].
  - unfold same_objects. cbn [Proc.heap Proc.hash_secret]. now repeat split.
  - unfold same_objects. cbn [Proc.heap Proc.hash_secret].
    rewrite Ep2, Ea2. now repeat split.
  - pose proof (generate_plan_clock_free now now' (list_of_set secret)
                  (PlannerObj.view h self) (AnalysisObj.snapshot h a) s) as C.
    destruct (Planner.generate_plan datetime now _ _ _ _ _ _ _) as [P1|e1];
      destruct (Planner.generate_plan datetime now' _ _ _ _ _ _ _) as [P2|e2];
      try contradiction.
    + destruct V1 as [p1 [-> [W1 K1]]]. destruct V2 as [p2 [-> [W2 K2]]].
      destruct C as [C1 [C2 [C3 [C4 C5]]]].
      rewrite (plan_old (h ++ new1) new2 p1 K1).
      split; [reflexivity|]. rewrite W1, W2. split; [exact C1|].
      subst P1 P2. cbn [PlanObj.view Plan.technical_stack Plan.architecture
                        Plan.resources Plan.risks] in C2, C3, C4, C5.
      rewrite C2. now repeat split.
    + rewrite V1, V2. exact C.
  - intros secret' Hset Hset'.
    pose proof (generate_plan_refines datetime isoformat strftime add_days
                  list_of_set now' self a s h secret' Hself Ha)
      as [new3 [S3 V3]].
    destruct (generate_plan datetime now' isoformat strftime add_days
                            list_of_set self a s (Proc.mk h secret')) as [r3 st3].
    cbn [fst snd Proc.heap Proc.hash_secret] in S3, V3 |- *. subst st3.
  cbn [Proc.heap Proc.hash_secret].
    pose proof (generate_plan_order_free now now' (list_of_set secret)
                  (list_of_set secret') (PlannerObj.view h self)
                  (AnalysisObj.snapshot h a) s Hset Hset') as C.
    clear V2.
    destruct (Planner.generate_plan datetime now _ _ _ (list_of_set secret)
                                    _ _ _) as [P1|e1];
      destruct (Planner.generate_plan datetime now' _ _ _ (list_of_set secret')
                                      _ _ _) as [P2|e2];
      try contradiction.
    + destruct V1 as [p1 [-> [W1 K1]]]. destruct V3 as [p2 [-> [W3 K3]]].
      destruct C as [C1 [C2 [C3 [C4 C5]]]].
      cbn [Proc.heap]. rewrite W1, W3. split; [exact C1|].
      subst P1 P2. cbn [PlanObj.view Plan.technical_stack Plan.architecture
                        Plan.resources Plan.risks] in C2, C3, C4, C5.
      now repeat split.
    + rewrite V1, V3. exact C.
Qed.

End TwoCalls.

Lemma C7_generate_plan_deterministic_witness :
  exists self a st,
    ProcessExample.setup (Proc.mk [] 7) = (Ok (self, a), st) /\
    PlannerObj.valid (Proc.heap st) self = true /\
    AnalysisObj.valid (Proc.heap st) a = true /\
    exists p1 p2 st1 st2,
      ProcessExample.generate_plan Example.now self a (Example.settings 26) st
      = (Ok p1, st1) /\
      ProcessExample.generate_plan (fun _ => 20500) self a
                                   (Example.settings 26) st1
      = (Ok p2, st2) /\
      Plan.phases (PlanObj.view (Proc.heap st2) p1)
      = Plan.phases (PlanObj.view (Proc.heap st2) p2) /\
      PlanObj.technical_stack p1 = PlanObj.technical_stack p2.
Proof.
  destruct (ProcessExample.setup (Proc.mk [] 7)) as [[[self a]|e] st] eqn:E;
    [|vm_compute in E; discriminate E].
  vm_compute in E. injection E as <- <- <-.
  eexists. eexists. eexists. split; [reflexivity|].
  split; [reflexivity|]. split; [reflexivity|].
  unfold ProcessExample.generate_plan.
  match goal with
  | |- exists p1 p2 st1 st2,
         PlannerObj.generate_plan _ _ _ _ _ _ ?self ?a _ ?st = _ /\ _ =>
    pose proof (C7_generate_plan_deterministic
                  Example.datetime Example.isoformat Example.strftime
                  Example.add_days ProcessExample.list_of_set
                  Example.now (fun _ => 20500) st self a (Example.settings 26)
                  eq_refl eq_refl) as [_ [_ [H _]]]
  end.
  match type of H with
  | match fst ?first with _ => _ end =>
    destruct first as [[p1|e1] st1] eqn:E1;
      [|exfalso; vm_compute in E1; discriminate E1]
  end.
  cbn [fst snd] in H.
  match type of H with
  | match fst ?second with _ => _ end =>
    destruct second as [[p2|e2] st2] eqn:E2; cbn [fst snd] in H;
      [|contradiction]
  end.
  exists p1, p2, st1, st2. split; [reflexivity|]. split; [exact E2|].
  destruct H as [_ [Hp [Ht _]]]. split; assumption.
Defined.
